(** * Mu editor: the GUI shell in [mu/interface.py]

    A shallow embedding of the classes of [mu/interface.py] whose behaviour
    the specification talks about: the serial console ([REPLPane]), the
    project selector dialog, the editor tab label, the modal message boxes,
    the web view accessors and the web view zoom.

    Python objects are records, methods are functions that thread the object
    ([self]) explicitly, and a method that can raise runs in a small
    state-and-exception monad.  The GUI toolkit is not part of the repository:
    its widgets are modelled by the part of their state that the methods read
    or write, each toolkit call by its documented effect on that state. *)

From Stdlib Require Import ZArith NArith List String Ascii Bool Lia.
From Stdlib Require Import Strings.Byte.
From Stdlib Require Import Floats.SpecFloat.
From stdpp Require Import gmap strings list.

Open Scope Z_scope.

(* ===================================================================== *)
(** * Python runtime: exceptions, outcomes, strings and bytes            *)
(* ===================================================================== *)

Module Py.

(** The exception classes that the modelled methods raise or let through. *)
Inductive exn : Type :=
| IOError (msg : string)
| RuntimeError (msg : string)
| AttributeError (msg : string)
| RecursionError
| UnicodeEncodeError
| ValueError (msg : string)
| TypeError.

(** The outcome of running a method on a state [S]: it returns a value,
    or it raises.  In both cases the state reached so far is kept, since
    the effects performed before a [raise] are not undone. *)
Inductive outcome (S A : Type) : Type :=
| Returned (s : S) (a : A)
| Raised (s : S) (e : exn).
Arguments Returned {S A} s a.
Arguments Raised {S A} s e.

Definition M (S A : Type) : Type := S -> outcome S A.

Definition ret {S A} (a : A) : M S A := fun s => Returned s a.
Definition raise {S A} (e : exn) : M S A := fun s => Raised s e.
Definition bind {S A B} (m : M S A) (k : A -> M S B) : M S B :=
  fun s => match m s with
           | Returned s' a => k a s'
           | Raised s' e => Raised s' e
           end.
(** A toolkit call that only updates the object. *)
Definition call {S} (f : S -> S) : M S unit := fun s => Returned (f s) tt.
(** Reading an attribute of the object. *)
Definition get {S A} (f : S -> A) : M S A := fun s => Returned s (f s).

Definition state_of {S A} (o : outcome S A) : S :=
  match o with Returned s _ => s | Raised s _ => s end.

Definition raised {S A} (o : outcome S A) : option exn :=
  match o with Returned _ _ => None | Raised _ e => Some e end.

(** A Python [str] whose individual characters matter is a list of code
    points; a [bytes] object is a list of bytes. *)
Definition str : Type := list N.
Definition bytes : Type := list byte.

(** [chr(i)]: the one-character string with code point [i]. *)
Definition chr (i : N) : str := [i].

(** [bytes([i])] for a single integer: a [ValueError] outside
    [range(0, 256)]. *)
Definition bytes_of_int (i : Z) : option bytes :=
  if (0 <=? i) && (i <? 256)
  then option_map (fun b => [b]) (Byte.of_N (Z.to_N i))
  else None.

(** ** [bytes(s, 'utf8')]

    The strict UTF-8 codec: code points below 0x80 are one byte, below
    0x800 two, below 0x10000 three and up to 0x10FFFF four; the surrogates
    U+D800..U+DFFF cannot be encoded and raise [UnicodeEncodeError]. *)

Definition byte_of (n : N) : byte :=
  match Byte.of_N (n mod 256)%N with Some b => b | None => x00 end.

Definition is_scalar (c : N) : bool :=
  ((c <? 0xD800) || ((0xDFFF <? c) && (c <? 0x110000)))%N.

Definition utf8_char (c : N) : option bytes :=
  if (c <? 0x80)%N then Some [byte_of c]
  else if (c <? 0x800)%N then
    Some [byte_of (N.lor 0xC0 (N.shiftr c 6));
          byte_of (N.lor 0x80 (N.land c 0x3F))]
  else if (c <? 0x10000)%N then
    if ((0xD800 <=? c) && (c <=? 0xDFFF))%N then None
    else
      Some [byte_of (N.lor 0xE0 (N.shiftr c 12));
            byte_of (N.lor 0x80 (N.land (N.shiftr c 6) 0x3F));
            byte_of (N.lor 0x80 (N.land c 0x3F))]
  else if (c <? 0x110000)%N then
    Some [byte_of (N.lor 0xF0 (N.shiftr c 18));
          byte_of (N.lor 0x80 (N.land (N.shiftr c 12) 0x3F));
          byte_of (N.lor 0x80 (N.land (N.shiftr c 6) 0x3F));
          byte_of (N.lor 0x80 (N.land c 0x3F))]
  else None.

Fixpoint utf8 (s : str) : option bytes :=
  match s with
  | [] => Some []
  | c :: s' =>
      match utf8_char c, utf8 s' with
      | Some bs, Some rest => Some (bs ++ rest)
      | _, _ => None
      end
  end.

End Py.

Declare Scope py_scope.
Notation "'let!' x ':=' m 'in' k" := (Py.bind m (fun x => k))
  (at level 10, x name, m at level 100, k at level 200) : py_scope.
Notation "m '>>' k" := (Py.bind m (fun _ => k))
  (at level 90, right associativity) : py_scope.
Delimit Scope py_scope with py.

(* ===================================================================== *)
(** * The toolkit: constants and widget state                            *)
(* ===================================================================== *)

Module Qt.

(** ** Enumeration values of the toolkit's namespace *)

Definition Key_Backspace : Z := 0x01000003.
Definition Key_Left : Z := 0x01000012.
Definition Key_Up : Z := 0x01000013.
Definition Key_Right : Z := 0x01000014.
Definition Key_Down : Z := 0x01000015.
Definition Key_A : Z := 0x41.
Definition Key_Z : Z := 0x5a.

Definition NoModifier : Z := 0.
Definition ShiftModifier : Z := 0x02000000.
Definition ControlModifier : Z := 0x04000000.
Definition AltModifier : Z := 0x08000000.
Definition MetaModifier : Z := 0x10000000.

(** [QDialog.DialogCode] *)
Definition Rejected : Z := 0.
Definition Accepted : Z := 1.

(** [QIODevice.OpenModeFlag] *)
Definition ReadWrite : Z := 3.

(** ** A key press event: [QKeyEvent] *)
Record QKeyEvent : Type := {
  key : Z;
  text : Py.str;
  modifiers : Z
}.

(** ** The serial port: [QSerialPort]

    [baudRate] is [None] until [setBaudRate] is called; [written] is the
    list of messages handed to [write], oldest first; [pending] is the
    data received and not yet read; [readyRead] lists the connected
    slots. *)
Inductive slot : Type := on_serial_read_slot.

Record QSerialPort : Type := {
  portName : string;
  isOpen : bool;
  baudRate : option Z;
  readyRead : list slot;
  written : list Py.bytes;
  pending : Py.bytes
}.

Definition QSerialPort_new : QSerialPort :=
  {| portName := ""; isOpen := false; baudRate := None;
     readyRead := []; written := []; pending := [] |}.

Definition setPortName (name : string) (p : QSerialPort) : QSerialPort :=
  {| portName := name; isOpen := isOpen p; baudRate := baudRate p;
     readyRead := readyRead p; written := written p;
     pending := pending p |}.

(** [open(mode)]: whether the device can be opened is decided by the
    host; [available] tells which port names open.  Returns the success
    flag. *)
Definition open (available : string -> bool) (mode : Z) (p : QSerialPort)
  : QSerialPort * bool :=
  if available (portName p)
  then ({| portName := portName p; isOpen := true; baudRate := baudRate p;
           readyRead := readyRead p; written := written p;
           pending := pending p |}, true)
  else (p, false).

Definition setBaudRate (rate : Z) (p : QSerialPort) : QSerialPort :=
  {| portName := portName p; isOpen := isOpen p; baudRate := Some rate;
     readyRead := readyRead p; written := written p;
     pending := pending p |}.

Definition connect_readyRead (s : slot) (p : QSerialPort) : QSerialPort :=
  {| portName := portName p; isOpen := isOpen p; baudRate := baudRate p;
     readyRead := readyRead p ++ [s]; written := written p;
     pending := pending p |}.

Definition write (msg : Py.bytes) (p : QSerialPort) : QSerialPort :=
  {| portName := portName p; isOpen := isOpen p; baudRate := baudRate p;
     readyRead := readyRead p; written := written p ++ [msg];
     pending := pending p |}.

(** [readAll()]: hands over the pending data and empties the buffer. *)
Definition readAll (p : QSerialPort) : QSerialPort * Py.bytes :=
  ({| portName := portName p; isOpen := isOpen p; baudRate := baudRate p;
      readyRead := readyRead p; written := written p; pending := [] |},
   pending p).

(** ** Plain text documents and cursors

    The document of a [QTextEdit] is its plain text, a list of code
    points in which 10 separates the lines.  A [QTextCursor] has an anchor
    and a position, indices between the characters of the document; the
    text between the two is its selection, and there is none when they are
    equal.  It also keeps the horizontal place [x] of its vertical moves:
    [None] stands for the toolkit's -1, no place kept, which is what every
    horizontal move and every edit through the cursor leave behind.

    The methods below are the cursor operations the program uses, in the
    default [MoveAnchor] mode.  Lines are the lines of the text and [x]
    counts characters: the document is shown in a fixed-pitch font and no
    line is longer than the widget is wide, so that none is wrapped. *)

Definition newline : N := 10%N.

Record QTextCursor : Type := {
  anchor : nat;
  position : nat;
  verticalMovementX : option nat
}.

(** A cursor without selection at [p], no place kept. *)
Definition cursor_at (p : nat) : QTextCursor :=
  {| anchor := p; position := p; verticalMovementX := None |}.

Definition hasSelection (c : QTextCursor) : bool :=
  negb (anchor c =? position c)%nat.

Definition selectionStart (c : QTextCursor) : nat :=
  Nat.min (anchor c) (position c).

Definition selectionEnd (c : QTextCursor) : nat :=
  Nat.max (anchor c) (position c).

(** Index of the first line separator of [l], if any. *)
Fixpoint index_of_newline (l : list N) : option nat :=
  match l with
  | [] => None
  | c :: l' =>
      if (c =? newline)%N then Some O
      else option_map S (index_of_newline l')
  end.

(** Number of characters between the start of the line and [pos]. *)
Definition column (doc : list N) (pos : nat) : nat :=
  match index_of_newline (rev (take pos doc)) with
  | Some k => k
  | None => length (take pos doc)
  end.

(** Length of the line that starts at index [start]. *)
Definition line_length (doc : list N) (start : nat) : nat :=
  match index_of_newline (drop start doc) with
  | Some k => k
  | None => length (drop start doc)
  end.

Inductive MoveOperation : Type := Left | Down.

(** [cursor.movePosition(op)]: the cursor after the call and whether it
    could be moved.  A move takes the anchor along, so the selection is
    gone after it.  [Left] keeps no [x]; at the start of the document the
    cursor stays there, the anchor with it, and the call fails.  [Down]
    fails on the last line and then leaves the cursor as it is, selection
    included; otherwise it goes to the next line, as far into it as [x]
    says or the line reaches, where [x] is the place kept by the cursor or
    else the column it is in, and keeps this [x]. *)
Definition movePosition (op : MoveOperation) (doc : list N) (c : QTextCursor)
  : QTextCursor * bool :=
  match op with
  | Left =>
      match position c with
      | O => (cursor_at O, false)
      | S p => (cursor_at p, true)
      end
  | Down =>
      match index_of_newline (drop (position c) doc) with
      | None => (c, false)
      | Some i =>
          let x :=
            match verticalMovementX c with
            | Some x => x
            | None => column doc (position c)
            end in
          let next := (position c + i + 1)%nat in
          let p := (next + Nat.min x (line_length doc next))%nat in
          ({| anchor := p; position := p; verticalMovementX := Some x |},
           true)
      end
  end.

(** Where an index of the document is after the text from [lo] up to [hi]
    was removed, and after [n] characters were inserted at [place]: a
    cursor at the place of an insertion ends up behind the inserted
    text. *)
Definition after_removal (lo hi q : nat) : nat :=
  if (q <=? lo)%nat then q
  else if (q <? hi)%nat then lo
  else (q - (hi - lo))%nat.

Definition after_insertion (place n q : nat) : nat :=
  if (q <? place)%nat then q else (q + n)%nat.

(** Style sheets are loaded from the resource files [day.css] and
    [night.css], which are data outside this module; only their identity
    matters here. *)
Inductive stylesheet : Type := DAY_STYLE | NIGHT_STYLE.

End Qt.

(* ===================================================================== *)
(** * [Font]                                                              *)
(* ===================================================================== *)

Module Font.

Definition DEFAULT_FONT_SIZE : Z := 14.
Definition FONT_NAME : string := "Source Code Pro".

Record t : Type := {
  color : string;
  paper : string;
  bold : bool;
  italic : bool
}.

(** [Font()] with the keyword defaults of [__init__]. *)
Definition default : t :=
  {| color := "black"; paper := "white"; bold := false; italic := false |}.

Definition stylename (self : t) : string :=
  if bold self then
    if italic self then "Semibold Italic" else "Semibold"
  else if italic self then "Italic"
  else "Regular".

(** The font handed back by the font database: family, style and size. *)
Record QFont : Type := { family : string; style : string; pointSize : Z }.

Definition load (self : t) (size : Z) : QFont :=
  {| family := FONT_NAME; style := stylename self; pointSize := size |}.

End Font.

(* ===================================================================== *)
(** * [REPLPane]: the serial console                                      *)
(* ===================================================================== *)

Module REPLPane.

Import Py Qt.
Local Open Scope py_scope.

(** The state of the widget: the properties of the underlying
    [QTextEdit] that the class touches, its document, its text cursor
    (position [cursor] and anchor [selection_anchor]; the text between the
    two is selected), and the serial port it owns.  The widget's cursor
    keeps no place for vertical moves: the program gives the widget only
    cursors that it has just moved left or edited with. *)
Record t : Type := {
  font : option Font.QFont;
  acceptRichText : bool;
  readOnly : bool;
  objectName : string;
  styleSheet : option stylesheet;
  document : list N;
  selection_anchor : nat;
  cursor : nat;
  cursorVisible : bool;
  serial : QSerialPort
}.

(** [QTextEdit(parent)]: an empty, editable rich-text widget. *)
Definition QTextEdit_new : t :=
  {| font := None; acceptRichText := true; readOnly := false;
     objectName := ""; styleSheet := None; document := [];
     selection_anchor := O; cursor := O; cursorVisible := true;
     serial := QSerialPort_new |}.

Definition setFont (f : Font.QFont) (self : t) : t :=
  {| font := Some f; acceptRichText := acceptRichText self;
     readOnly := readOnly self; objectName := objectName self;
     styleSheet := styleSheet self; document := document self;
     selection_anchor := selection_anchor self;
     cursor := cursor self; cursorVisible := cursorVisible self;
     serial := serial self |}.

Definition setAcceptRichText (b : bool) (self : t) : t :=
  {| font := font self; acceptRichText := b;
     readOnly := readOnly self; objectName := objectName self;
     styleSheet := styleSheet self; document := document self;
     selection_anchor := selection_anchor self;
     cursor := cursor self; cursorVisible := cursorVisible self;
     serial := serial self |}.

Definition setReadOnly (b : bool) (self : t) : t :=
  {| font := font self; acceptRichText := acceptRichText self;
     readOnly := b; objectName := objectName self;
     styleSheet := styleSheet self; document := document self;
     selection_anchor := selection_anchor self;
     cursor := cursor self; cursorVisible := cursorVisible self;
     serial := serial self |}.

Definition setObjectName (n : string) (self : t) : t :=
  {| font := font self; acceptRichText := acceptRichText self;
     readOnly := readOnly self; objectName := n;
     styleSheet := styleSheet self; document := document self;
     selection_anchor := selection_anchor self;
     cursor := cursor self; cursorVisible := cursorVisible self;
     serial := serial self |}.

Definition setStyleSheet (s : stylesheet) (self : t) : t :=
  {| font := font self; acceptRichText := acceptRichText self;
     readOnly := readOnly self; objectName := objectName self;
     styleSheet := Some s; document := document self;
     selection_anchor := selection_anchor self;
     cursor := cursor self; cursorVisible := cursorVisible self;
     serial := serial self |}.

Definition set_serial (p : QSerialPort) (self : t) : t :=
  {| font := font self; acceptRichText := acceptRichText self;
     readOnly := readOnly self; objectName := objectName self;
     styleSheet := styleSheet self; document := document self;
     selection_anchor := selection_anchor self;
     cursor := cursor self; cursorVisible := cursorVisible self;
     serial := p |}.

(** Replaces the document and the widget's cursor, anchor and position
    apart. *)
Definition set_selection (doc : list N) (anc cur : nat) (self : t) : t :=
  {| font := font self; acceptRichText := acceptRichText self;
     readOnly := readOnly self; objectName := objectName self;
     styleSheet := styleSheet self; document := doc;
     selection_anchor := anc;
     cursor := cur; cursorVisible := cursorVisible self;
     serial := serial self |}.

(** Replaces the document and puts the widget's cursor at [cur], nothing
    selected. *)
Definition set_text (doc : list N) (cur : nat) (self : t) : t :=
  set_selection doc cur cur self.

(** [setText(text)]: the document becomes [text], the cursor goes to its
    start. *)
Definition setText (text : Py.str) (self : t) : t := set_text text O self.

(** [textCursor()] hands out a copy of the widget's cursor, selection
    included and no place kept; the copy is a cursor of its own on the same
    document. *)
Definition textCursor (self : t) : QTextCursor :=
  {| anchor := selection_anchor self; position := cursor self;
     verticalMovementX := None |}.

(** [setTextCursor(tc)]: the widget's cursor becomes a copy of [tc]. *)
Definition setTextCursor (tc : QTextCursor) (self : t) : t :=
  set_selection (document self) (anchor tc) (position tc) self.

(** [tc.deleteChar()]: removes the text selected by [tc] when it has a
    selection, and otherwise the character after [tc], if there is one.
    The widget's cursor is another cursor of the same document and moves
    with the text; the result is the widget and the cursor [tc], which has
    no selection and keeps no place. *)
Definition deleteChar (tc : QTextCursor) (self : t) : t * QTextCursor :=
  let doc := document self in
  if hasSelection tc || (position tc <? length doc)%nat then
    let lo := selectionStart tc in
    let hi := if hasSelection tc then selectionEnd tc else S (position tc) in
    (set_selection (take lo doc ++ drop hi doc)
       (after_removal lo hi (selection_anchor self))
       (after_removal lo hi (cursor self)) self,
     cursor_at lo)
  else (self, cursor_at (position tc)).

(** [insertPlainText(s)]: puts [s] in the place of the text selected by
    the widget's cursor, at its position when nothing is selected; the
    widget's cursor ends up behind the inserted text, nothing selected.
    The cursor [tc] moves with the text; the result is the widget and the
    cursor [tc]. *)
Definition insertPlainText (s : Py.str) (tc : QTextCursor) (self : t)
  : t * QTextCursor :=
  let doc := document self in
  let lo := selectionStart (textCursor self) in
  let hi := selectionEnd (textCursor self) in
  let moved q := after_insertion lo (length s) (after_removal lo hi q) in
  (set_text (take lo doc ++ s ++ drop hi doc) (lo + length s)%nat self,
   {| anchor := moved (anchor tc); position := moved (position tc);
      verticalMovementX := verticalMovementX tc |}).

Definition ensureCursorVisible (self : t) : t :=
  {| font := font self; acceptRichText := acceptRichText self;
     readOnly := readOnly self; objectName := objectName self;
     styleSheet := styleSheet self; document := document self;
     selection_anchor := selection_anchor self;
     cursor := cursor self; cursorVisible := true;
     serial := serial self |}.

(** ** The methods of the class *)

Definition set_theme (theme : string) (self : t) : t :=
  if String.eqb theme "day" then setStyleSheet DAY_STYLE self
  else setStyleSheet NIGHT_STYLE self.

Definition clear (self : t) : t := setText [] self.

Definition ioerror_message (port : string) : string :=
  ("Cannot connect to device on port " ++ port)%string.

(** [__init__(self, port, theme, parent)], run on the freshly created
    [QTextEdit]; [available] is the host's answer to [open]. *)
Definition __init__ (available : string -> bool) (port theme : string)
  : M t unit :=
  call (setFont (Font.load Font.default Font.DEFAULT_FONT_SIZE)) >>
  call (setAcceptRichText false) >>
  call (setReadOnly false) >>
  call (setObjectName "replpane") >>
  call (set_serial QSerialPort_new) >>
  call (fun self => set_serial (setPortName port (serial self)) self) >>
  let! opened :=
    (fun self =>
       let (p, ok) := open available ReadWrite (serial self) in
       Returned (set_serial p self) ok) in
  (if opened then
     call (fun self => set_serial (setBaudRate 115200 (serial self)) self) >>
     call (fun self =>
             set_serial (connect_readyRead on_serial_read_slot (serial self))
                        self) >>
     call clear >>
     call (fun self => set_serial (write [x03] (serial self)) self)
   else
     raise (IOError (ioerror_message port))) >>
  call (set_theme theme).

(** [REPLPane(port, theme)]: the constructor call. *)
Definition new (available : string -> bool) (port theme : string)
  : outcome t unit :=
  __init__ available port theme QTextEdit_new.

(** [keyPressEvent(self, data)] *)
Definition keyPressEvent (data : QKeyEvent) : M t unit :=
  let key := Qt.key data in
  let! msg :=
    match utf8 (text data) with
    | Some bs => ret bs
    | None => raise UnicodeEncodeError
    end in
  let! msg :=
    if key =? Key_Backspace then ret [x08]
    else if key =? Key_Up then ret [x1b; x5b; x41]
    else if key =? Key_Down then ret [x1b; x5b; x42]
    else if key =? Key_Right then ret [x1b; x5b; x43]
    else if key =? Key_Left then ret [x1b; x5b; x44]
    else if modifiers data =? MetaModifier then
      if (Key_A <=? key) && (key <=? Key_Z) then
        match bytes_of_int (1 + key - Key_A) with
        | Some bs => ret bs
        | None => raise (ValueError "bytes must be in range(0, 256)")
        end
      else ret msg
    else ret msg in
  call (fun self => set_serial (write msg (serial self)) self).

(** [while tc.movePosition(QTextCursor.Down): pass].  Every successful
    move takes the cursor past one more line separator, so the loop runs
    at most once per character of the document; [fuel] bounds the number
    of iterations. *)
Fixpoint while_down (fuel : nat) (doc : list N) (tc : QTextCursor)
  : QTextCursor :=
  match fuel with
  | O => tc
  | S fuel' =>
      let (tc', moved) := movePosition Down doc tc in
      if moved then while_down fuel' doc tc' else tc'
  end.

(** The body of [for b in bs], on the widget and the local cursor [tc]. *)
Definition handle_byte (st : t * QTextCursor) (b : byte) : t * QTextCursor :=
  let (self, tc) := st in
  let b := Byte.to_N b in
  if (b =? 8)%N then
    let tc := fst (movePosition Left (document self) tc) in
    (setTextCursor tc self, tc)
  else if (b =? 13)%N then (self, tc)
  else
    let (self, tc) := deleteChar tc self in
    let self := setTextCursor tc self in
    insertPlainText (chr b) tc self.

(** [process_bytes(self, bs)] *)
Definition process_bytes (bs : bytes) (self : t) : t :=
  let tc := textCursor self in
  let tc := while_down (S (length (document self))) (document self) tc in
  let (self, tc) := fold_left handle_byte bs (self, tc) in
  ensureCursorVisible self.

(** [on_serial_read(self)] *)
Definition on_serial_read (self : t) : t :=
  let (p, data) := readAll (serial self) in
  process_bytes data (set_serial p self).

End REPLPane.

(* ===================================================================== *)
(** * [ProjectItem] and [ProjectSelector]                                 *)
(* ===================================================================== *)

Module ProjectSelector.

Import Py Qt.
Local Open Scope py_scope.

(** A project template, as handed to [setup]: a dictionary with the four
    keys [name], [icon], [path] and [default]; [ProjectItem] stores the
    same four values on the list item. *)
Record ProjectItem : Type := {
  name : string;
  icon : string;
  path : string;
  default : string
}.

(** The dialog: the items of [project_list] with the index of the
    current one ([None] when the list has no current item), the text of
    the [project_name] line edit and the dialog's result code. *)
Record t : Type := {
  project_list : list ProjectItem;
  currentRow : option nat;
  project_name : string;
  result : Z
}.

(** [ProjectSelector(parent)] *)
Definition QDialog_new : t :=
  {| project_list := []; currentRow := None; project_name := "";
     result := Rejected |}.

(** [project_list.setCurrentRow(row)]: ignored when there is no such
    row. *)
Definition setCurrentRow (row : nat) (self : t) : t :=
  if (row <? length (project_list self))%nat then
    {| project_list := project_list self; currentRow := Some row;
       project_name := project_name self; result := result self |}
  else self.

(** [project_list.currentItem()]: [None] when nothing is current. *)
Definition currentItem (self : t) : option ProjectItem :=
  match currentRow self with
  | Some row => project_list self !! row
  | None => None
  end.

(** [setup(self, templates)]: one item per template, in order, the first
    one current, an empty name field. *)
Definition setup (templates : list ProjectItem) (self : t) : t :=
  let self :=
    {| project_list := project_list self ++ templates;
       currentRow := currentRow self;
       project_name := ""; result := result self |} in
  setCurrentRow 0 self.

(** What the user does while the modal dialog runs: possibly picks a
    row, types a project name, and closes the dialog with the button box
    ([accept] or [reject]). *)
Record interaction : Type := {
  picked : option nat;
  typed : string;
  accepts : bool
}.

(** [exec()]: runs the dialog; the result code is [Accepted] or
    [Rejected]. *)
Definition exec (u : interaction) (self : t) : t :=
  let self :=
    match picked u with
    | Some row => setCurrentRow row self
    | None => self
    end in
  {| project_list := project_list self; currentRow := currentRow self;
     project_name := typed u;
     result := if accepts u then Accepted else Rejected |}.

(** [get_project(self)]: the dictionary literal becomes a finite map
    with string keys. *)
Definition get_project : M t (gmap string string) :=
  fun self =>
    if result self =? Accepted then
      match currentItem self with
      | Some item =>
          Returned self
            (<["path" := path item]>
               (<["default" := default item]>
                  (<["name" := project_name self]> ∅)))
      | None =>
          Raised self
            (AttributeError "'NoneType' object has no attribute 'path'")
      end
    else Raised self (RuntimeError "New project rejected.").

End ProjectSelector.

(* ===================================================================== *)
(** * [EditorPane]: an editor tab                                         *)
(* ===================================================================== *)

Module EditorPane.

(** [os.path.basename(p)], POSIX flavour: [p[p.rfind('/') + 1:]], the
    part of [p] behind its last slash, all of [p] without a slash. *)
Fixpoint has_slash (p : string) : bool :=
  match p with
  | EmptyString => false
  | String c rest => if Ascii.eqb c "/" then true else has_slash rest
  end.

Fixpoint basename (p : string) : string :=
  match p with
  | EmptyString => EmptyString
  | String c rest =>
      if has_slash rest then basename rest
      else if Ascii.eqb c "/" then rest
      else String c rest
  end.

(** The settings made by [configure]. *)
Record settings : Type := {
  font : Font.QFont;
  utf8 : bool;
  autoIndent : bool;
  indentationsUseTabs : bool;
  indentationWidth : Z;
  tabWidth : Z;
  edgeColumn : Z;
  marginLineNumbers : bool;
  marginWidth : Z;
  theme : string
}.

(** The editor widget: [path] is [None] for Python's [None]. *)
Record t : Type := {
  path : option string;
  text : string;
  modified : bool;
  configured : option settings
}.

(** [QsciScintilla()]: an empty, unmodified editor. *)
Definition QsciScintilla_new : t :=
  {| path := None; text := ""; modified := false; configured := None |}.

Definition set_path (p : option string) (self : t) : t :=
  {| path := p; text := text self; modified := modified self;
     configured := configured self |}.

(** [setText(text)]: replacing the text counts as a change of the
    document. *)
Definition setText (s : string) (self : t) : t :=
  {| path := path self; text := s; modified := true;
     configured := configured self |}.

Definition setModified (m : bool) (self : t) : t :=
  {| path := path self; text := text self; modified := m;
     configured := configured self |}.

Definition isModified (self : t) : bool := modified self.

(** [configure(self)], with [set_theme()] at its default, the day
    theme. *)
Definition configure (self : t) : t :=
  {| path := path self; text := text self; modified := modified self;
     configured :=
       Some {| font := Font.load Font.default Font.DEFAULT_FONT_SIZE;
               utf8 := true; autoIndent := true;
               indentationsUseTabs := false; indentationWidth := 4;
               tabWidth := 4; edgeColumn := 79;
               marginLineNumbers := true; marginWidth := 50;
               theme := "day" |} |}.

(** [__init__(self, path, text)] *)
Definition __init__ (p : option string) (s : string) (self : t) : t :=
  let self := set_path p self in
  let self := setText s self in
  let self := setModified false self in
  configure self.

(** [EditorPane(path, text)] *)
Definition new (p : option string) (s : string) : t :=
  __init__ p s QsciScintilla_new.

(** Truth value of [self.path]: [None] and the empty string are false. *)
Definition truthy (p : option string) : bool :=
  match p with
  | Some EmptyString | None => false
  | Some _ => true
  end.

(** The [label] property. *)
Definition label (self : t) : string :=
  let label :=
    if truthy (path self)
    then basename (default "" (path self))
    else "untitled" in
  if isModified self then (label ++ " *")%string else label.

End EditorPane.

(* ===================================================================== *)
(** * [WebViewPane]: an embedded browser                                  *)
(* ===================================================================== *)

Module WebViewPane.

(** Python's [float] is an IEEE 754 binary64 number: the operations are
    the ones of [SpecFloat] at precision 53 and maximal exponent 1024. *)
Definition float : Type := spec_float.
Definition prec : Z := 53.
Definition emax : Z := 1024.

Definition add : float -> float -> float := SFadd prec emax.
Definition sub : float -> float -> float := SFsub prec emax.
Definition ltb : float -> float -> bool := SFltb.
Definition leb : float -> float -> bool := SFleb.

(** The literals [0.1], [0.5], [1.0] and [2.0]: a mantissa of 53 binary
    digits and the exponent of its last digit. *)
Definition two52 : positive := 4503599627370496.
Definition f0_1 : float := S754_finite false 7205759403792794 (-56).
Definition f0_5 : float := S754_finite false two52 (-53).
Definition f1_0 : float := S754_finite false two52 (-52).
Definition f2_0 : float := S754_finite false two52 (-51).

(** A float object holds a number in canonical form. *)
Definition valid (z : float) : bool := valid_binary prec emax z.

(** The widget: the page shown, the zoom factor and the scripts handed to
    the page so far. *)
Record t : Type := {
  url : string;
  objectName : string;
  zoom : float;
  scripts : list string
}.

Definition zoomFactor (self : t) : float := zoom self.

Definition setZoomFactor (z : float) (self : t) : t :=
  {| url := url self; objectName := objectName self; zoom := z;
     scripts := scripts self |}.

Definition execute_js (js_code : string) (self : t) : t :=
  {| url := url self; objectName := objectName self; zoom := zoom self;
     scripts := scripts self ++ [js_code] |}.

(** [WebViewPane(url)]: a new view shows the page unscaled. *)
Definition new (u : string) : t :=
  {| url := u; objectName := "WebViewPane"; zoom := f1_0; scripts := [] |}.

Definition quote : string := String (Ascii.ascii_of_nat 34) EmptyString.

Definition resize_script : string :=
  ("window.dispatchEvent(new Event(" ++ quote ++ "resize" ++ quote
     ++ "));")%string.

(** [zoomIn(self)] *)
Definition zoomIn (self : t) : t :=
  let new_zoom := add (zoomFactor self) f0_1 in
  let self :=
    setZoomFactor (if ltb new_zoom f2_0 then new_zoom else f2_0) self in
  execute_js resize_script self.

(** [zoomOut(self)] *)
Definition zoomOut (self : t) : t :=
  let new_zoom := sub (zoomFactor self) f0_1 in
  let self :=
    setZoomFactor (if ltb f0_5 new_zoom then new_zoom else f0_5) self in
  execute_js resize_script self.

End WebViewPane.

(* ===================================================================== *)
(** * [Window]: the main window                                           *)
(* ===================================================================== *)

Module Window.

Import Py Qt.
Local Open Scope py_scope.

(** ** Project templates *)

(** [get_template(self, folder, templates)]: the selector is a local
    object; [u] is what the user does in the dialog.  The result is
    [None] for Python's [None]. *)
Definition get_template (folder : string)
    (templates : list ProjectSelector.ProjectItem)
    (u : ProjectSelector.interaction)
  : outcome ProjectSelector.t (option (gmap string string)) :=
  let selector := ProjectSelector.QDialog_new in
  let selector := ProjectSelector.setup templates selector in
  let selector := ProjectSelector.exec u selector in
  if ProjectSelector.result selector =? Accepted then
    (let! project := ProjectSelector.get_project in
     ret (Some project)) selector
  else Returned selector None.

(** ** The web views

    An attribute of the window is absent until it is first assigned;
    once assigned it holds a pane or [None]. *)
Record t : Type := {
  _webview_left : option (option WebViewPane.t);
  _webview_right : option (option WebViewPane.t)
}.

(** Reading an attribute that may be absent. *)
Definition getattr {A S} (name : string) (slot : option A) : M S A :=
  match slot with
  | Some v => ret v
  | None =>
      raise (AttributeError
               ("object has no attribute '" ++ name ++ "'"))
  end.

(** [try: body except AttributeError: handler] *)
Definition try_except_AttributeError {S A} (body handler : M S A) : M S A :=
  fun s =>
    match body s with
    | Raised s' (AttributeError _) => handler s'
    | o => o
    end.

(** The [webview_left] property.  The state threaded through the
    accessors is the number of getter calls entered so far. *)
Definition webview_left (self : t) : M nat (option WebViewPane.t) :=
  call S >>
  try_except_AttributeError
    (getattr "_webview_left" (_webview_left self))
    (ret None).

(** The [webview_right] property: the getter reads [self.webview_right],
    which calls the getter again.  [depth] is the number of frames the
    interpreter still allows; when none is left the call raises
    [RecursionError]. *)
Fixpoint webview_right (depth : nat) (self : t)
  : M nat (option WebViewPane.t) :=
  match depth with
  | O => raise RecursionError
  | S depth' =>
      call S >>
      try_except_AttributeError
        (webview_right depth' self)
        (ret None)
  end.

(** ** Modal message boxes *)

(** [QMessageBox.Icon] and [QMessageBox.StandardButton] *)
Inductive Icon : Type := NoIcon | Information | Warning | Critical | Question.

Definition Ok : Z := 0x00000400.
Definition Cancel : Z := 0x00400000.

(** The value of an attribute of a message box: one of the five icons,
    or some other member of the class, known by its name. *)
Inductive attribute : Type :=
| icon_attribute (i : Icon)
| other_attribute (name : string).

Record QMessageBox : Type := {
  text : string;
  windowTitle : string;
  informativeText : option string;
  icon : option attribute;
  standardButtons : Z;
  defaultButton : option Z;
  shown : nat
}.

(** [QMessageBox()]: no icon, the single button [Ok]. *)
Definition QMessageBox_new : QMessageBox :=
  {| text := ""; windowTitle := ""; informativeText := None;
     icon := Some (icon_attribute NoIcon); standardButtons := Ok;
     defaultButton := None; shown := O |}.

Definition setText (s : string) (b : QMessageBox) : QMessageBox :=
  {| text := s; windowTitle := windowTitle b;
     informativeText := informativeText b; icon := icon b;
     standardButtons := standardButtons b;
     defaultButton := defaultButton b; shown := shown b |}.

Definition setWindowTitle (s : string) (b : QMessageBox) : QMessageBox :=
  {| text := text b; windowTitle := s;
     informativeText := informativeText b; icon := icon b;
     standardButtons := standardButtons b;
     defaultButton := defaultButton b; shown := shown b |}.

Definition setInformativeText (s : string) (b : QMessageBox) : QMessageBox :=
  {| text := text b; windowTitle := windowTitle b;
     informativeText := Some s; icon := icon b;
     standardButtons := standardButtons b;
     defaultButton := defaultButton b; shown := shown b |}.

Definition set_icon (a : attribute) (b : QMessageBox) : QMessageBox :=
  {| text := text b; windowTitle := windowTitle b;
     informativeText := informativeText b; icon := Some a;
     standardButtons := standardButtons b;
     defaultButton := defaultButton b; shown := shown b |}.

(** [setIcon(icon)] takes a [QMessageBox.Icon].  Handed another attribute
    of the box, a method or a value of another enumeration, the binding
    raises [TypeError] and the box keeps its icon. *)
Definition setIcon (a : attribute) : M QMessageBox unit :=
  match a with
  | icon_attribute _ => call (set_icon a)
  | other_attribute _ => raise TypeError
  end.

Definition setStandardButtons (bs : Z) (b : QMessageBox) : QMessageBox :=
  {| text := text b; windowTitle := windowTitle b;
     informativeText := informativeText b; icon := icon b;
     standardButtons := bs;
     defaultButton := defaultButton b; shown := shown b |}.

Definition setDefaultButton (d : Z) (b : QMessageBox) : QMessageBox :=
  {| text := text b; windowTitle := windowTitle b;
     informativeText := informativeText b; icon := icon b;
     standardButtons := standardButtons b;
     defaultButton := Some d; shown := shown b |}.

(** [exec()]: shows the box; [choice] is the button the user closes it
    with, which is the result of the call. *)
Definition exec (choice : Z) (b : QMessageBox) : QMessageBox * Z :=
  ({| text := text b; windowTitle := windowTitle b;
      informativeText := informativeText b; icon := icon b;
      standardButtons := standardButtons b;
      defaultButton := defaultButton b; shown := S (shown b) |}, choice).

(** [getattr(message_box, name)]: the five icon names, and the other
    members of the class, whose names are [members]; [None] when the box
    has no such attribute, in which case [hasattr] is false. *)
Definition box_attribute (members : gset string) (name : string)
  : option attribute :=
  if String.eqb name "NoIcon" then Some (icon_attribute NoIcon)
  else if String.eqb name "Question" then Some (icon_attribute Question)
  else if String.eqb name "Information" then
    Some (icon_attribute Information)
  else if String.eqb name "Warning" then Some (icon_attribute Warning)
  else if String.eqb name "Critical" then Some (icon_attribute Critical)
  else if bool_decide (name ∈ members) then Some (other_attribute name)
  else None.

Definition hasattr (members : gset string) (name : string) : bool :=
  match box_attribute members name with Some _ => true | None => false end.

(** Truth value of an optional string argument: [None] and [''] are
    false. *)
Definition truthy (s : option string) : bool :=
  match s with
  | Some EmptyString | None => false
  | Some _ => true
  end.

(** [show_message(self, message, information, icon)], run on the box it
    creates; [choice] is the user's answer to [exec]. *)
Definition show_message (members : gset string) (message : string)
    (information icon : option string) (choice : Z)
  : outcome QMessageBox unit :=
  (call (setText message) >>
   call (setWindowTitle "Mu") >>
   (if truthy information
    then call (setInformativeText (default "" information))
    else ret tt) >>
   (if truthy icon && hasattr members (default "" icon)
    then
      let! a := getattr (default "" icon)
                  (box_attribute members (default "" icon)) in
      setIcon a
    else setIcon (icon_attribute Warning)) >>
   let! _ := (fun b => let (b', r) := exec choice b in Returned b' r) in
   ret tt) QMessageBox_new.

(** [show_confirmation(self, message, information, icon)] *)
Definition show_confirmation (members : gset string) (message : string)
    (information icon : option string) (choice : Z)
  : outcome QMessageBox Z :=
  (call (setText message) >>
   call (setWindowTitle "Mu") >>
   (if truthy information
    then call (setInformativeText (default "" information))
    else ret tt) >>
   (if truthy icon && hasattr members (default "" icon)
    then
      let! a := getattr (default "" icon)
                  (box_attribute members (default "" icon)) in
      setIcon a
    else setIcon (icon_attribute Warning)) >>
   call (setStandardButtons (Z.lor Cancel Ok)) >>
   call (setDefaultButton Cancel) >>
   (fun b => let (b', r) := exec choice b in Returned b' r)) QMessageBox_new.

End Window.

(* ===================================================================== *)
(** * The behaviour the specification describes                           *)
(* ===================================================================== *)

(** The definitions of this part follow the wording of the specification;
    the properties below compare them with the methods above. *)

Module Described.

Import Py Qt.

(** ** Key presses *)

(** A letter key, [A] to [Z], pressed with the Meta modifier. *)
Definition meta_letter (data : QKeyEvent) : bool :=
  (Key_A <=? key data) && (key data <=? Key_Z)
  && (modifiers data =? MetaModifier).

(** The control code of a letter key: 1 for [A] up to 26 for [Z]. *)
Definition control_code (data : QKeyEvent) : byte :=
  byte_of (Z.to_N (1 + key data - Key_A)).

(** The message forwarded for a key press whose text encodes to
    [encoded]. *)
Definition forwarded (data : QKeyEvent) (encoded : bytes) : bytes :=
  if key data =? Key_Backspace then [x08]
  else if key data =? Key_Up then [x1b; x5b; x41]
  else if key data =? Key_Down then [x1b; x5b; x42]
  else if key data =? Key_Right then [x1b; x5b; x43]
  else if key data =? Key_Left then [x1b; x5b; x44]
  else if meta_letter data then [control_code data]
  else encoded.

(** ** Incoming bytes *)

(** The cursor is on the last line: no line separator at or behind it. *)
Definition on_last_line (doc : list N) (tc : nat) : Prop :=
  Forall (fun c => c <> newline) (drop tc doc).

(** Byte 8: the cursor, the widget's and the local one, goes one position
    to the left, and stays at the start of the document. *)
Definition cursor_left (st : REPLPane.t * QTextCursor)
  : REPLPane.t * QTextCursor :=
  let (self, tc) := st in
  (REPLPane.set_text (REPLPane.document self) (Nat.pred (position tc)) self,
   cursor_at (Nat.pred (position tc))).

(** Any other byte, as the claim has it: the character at the cursor
    position, if there is one, is replaced by the character [c]; the cursor
    ends up behind it. *)
Definition overwrite_character (c : N) (st : REPLPane.t * QTextCursor)
  : REPLPane.t * QTextCursor :=
  let (self, tc) := st in
  let doc := REPLPane.document self in
  let p := position tc in
  (REPLPane.set_text (take p doc ++ c :: drop (S p) doc) (S p) self,
   cursor_at (S p)).

(** The three branches as the claim has them. *)
Definition branch_as_claimed (st : REPLPane.t * QTextCursor) (b : byte)
  : REPLPane.t * QTextCursor :=
  match Byte.to_N b with
  | 8%N => cursor_left st
  | 13%N => st
  | c => overwrite_character c st
  end.

(** Any other byte, amended: the text selected by the cursor, or without a
    selection the character at the cursor position, if there is one, is
    replaced by the character [c]; the cursor ends up behind it. *)
Definition overwrite (c : N) (st : REPLPane.t * QTextCursor)
  : REPLPane.t * QTextCursor :=
  let (self, tc) := st in
  let doc := REPLPane.document self in
  let lo := selectionStart tc in
  let hi := if hasSelection tc then selectionEnd tc else S (position tc) in
  (REPLPane.set_text (take lo doc ++ c :: drop hi doc) (S lo) self,
   cursor_at (S lo)).

(** The three branches, amended. *)
Definition branch (st : REPLPane.t * QTextCursor) (b : byte)
  : REPLPane.t * QTextCursor :=
  match Byte.to_N b with
  | 8%N => cursor_left st
  | 13%N => st
  | c => overwrite c st
  end.

(** ** Editor tabs *)

(** The name shown on a tab: the base name of a non-empty path, and
    [untitled] for a tab without one. *)
Definition tab_name (path : option string) : string :=
  match path with
  | Some (String c rest) => EditorPane.basename (String c rest)
  | Some EmptyString | None => "untitled"
  end.

(** The mark of a modified tab. *)
Definition modified_mark (modified : bool) : string :=
  if modified then " *" else "".

(** ** Message boxes *)

(** The icon argument is absent, or it is not the name of an attribute of
    the message box. *)
Definition no_icon_attribute (members : gset string) (icon : option string)
  : Prop :=
  icon = None
  \/ exists name, icon = Some name /\ Window.hasattr members name = false.

(** The icon argument names an attribute of the message box that is not
    one of its icons. *)
Definition names_no_icon (members : gset string) (icon : option string)
  : bool :=
  Window.truthy icon
  && match Window.box_attribute members (default "" icon) with
     | Some (Window.other_attribute _) => true
     | Some (Window.icon_attribute _) | None => false
     end.

(** ** Zooming *)

(** The zoom factor lies in the interval from 0.5 to 2.0. *)
Definition in_range (z : WebViewPane.float) : bool :=
  WebViewPane.leb WebViewPane.f0_5 z && WebViewPane.leb z WebViewPane.f2_0.

(** The old factor plus 0.1, capped at 2.0. *)
Definition capped (z : WebViewPane.float) : WebViewPane.float :=
  if WebViewPane.ltb (WebViewPane.add z WebViewPane.f0_1) WebViewPane.f2_0
  then WebViewPane.add z WebViewPane.f0_1
  else WebViewPane.f2_0.

(** The old factor minus 0.1, floored at 0.5. *)
Definition floored (z : WebViewPane.float) : WebViewPane.float :=
  if WebViewPane.ltb WebViewPane.f0_5 (WebViewPane.sub z WebViewPane.f0_1)
  then WebViewPane.sub z WebViewPane.f0_1
  else WebViewPane.f0_5.

(** A sequence of zoom calls on a web view. *)
Inductive zoom_call : Type := ZoomIn | ZoomOut.

Definition zoom_step (self : WebViewPane.t) (c : zoom_call) : WebViewPane.t :=
  match c with
  | ZoomIn => WebViewPane.zoomIn self
  | ZoomOut => WebViewPane.zoomOut self
  end.

Definition zoom_calls (cs : list zoom_call) (self : WebViewPane.t)
  : WebViewPane.t :=
  fold_left zoom_step cs self.

(** ** Web views *)

(** What an accessor of a web view is meant to give: the pane when one is
    displayed, [None] otherwise. *)
Definition displayed (slot : option (option WebViewPane.t))
  : option WebViewPane.t :=
  match slot with
  | Some (Some pane) => Some pane
  | Some None | None => None
  end.

End Described.

(* ===================================================================== *)
(** * Sample inputs                                                       *)
(* ===================================================================== *)

Module Sample.

Import Py Qt.

(** The letter [C] pressed with the Meta modifier. *)
Definition meta_c : QKeyEvent :=
  {| key := 0x43; text := [3%N]; modifiers := MetaModifier |}.

(** Backspace, delivered with a text that is a lone surrogate. *)
Definition backspace_surrogate : QKeyEvent :=
  {| key := Key_Backspace; text := [0xD800%N]; modifiers := NoModifier |}.

(** The letter [C] pressed with the Meta and the Shift modifier. *)
Definition meta_shift_c : QKeyEvent :=
  {| key := 0x43; text := [67%N];
     modifiers := Z.lor MetaModifier ShiftModifier |}.

(** A console showing two lines, the cursor in the first one. *)
Definition two_lines : REPLPane.t :=
  REPLPane.set_text [62; 62; 62; 32; 49; 10; 62; 62; 62; 32]%N 2
    REPLPane.QTextEdit_new.

(** A selector with two templates, closed with [OK] after the second one
    was picked and a name typed. *)
Definition templates : list ProjectSelector.ProjectItem :=
  [ {| ProjectSelector.name := "micro:bit"; ProjectSelector.icon := "microbit";
       ProjectSelector.path := "micropython";
       ProjectSelector.default := "from microbit import *" |};
    {| ProjectSelector.name := "Pygame Zero"; ProjectSelector.icon := "pygame";
       ProjectSelector.path := "pygamezero";
       ProjectSelector.default := "WIDTH = 200" |} ].

Definition accepted_dialog : ProjectSelector.t :=
  ProjectSelector.exec
    {| ProjectSelector.picked := Some 1%nat; ProjectSelector.typed := "game";
       ProjectSelector.accepts := true |}
    (ProjectSelector.setup templates ProjectSelector.QDialog_new).

(** A selector set up with no template at all, closed with [OK]. *)
Definition accepted_empty_dialog : ProjectSelector.t :=
  ProjectSelector.exec
    {| ProjectSelector.picked := None; ProjectSelector.typed := "game";
       ProjectSelector.accepts := true |}
    (ProjectSelector.setup [] ProjectSelector.QDialog_new).

Definition cancel : ProjectSelector.interaction :=
  {| ProjectSelector.picked := None; ProjectSelector.typed := "";
     ProjectSelector.accepts := false |}.

(** A console showing one finished line, the cursor on the empty last
    line. *)
Definition after_newline : REPLPane.t :=
  REPLPane.set_text [97; 10]%N 2 REPLPane.QTextEdit_new.


End Sample.

(* ===================================================================== *)
(** * Byte streams of the console                                         *)
(* ===================================================================== *)

Module Stream.

(** The two bytes [process_bytes] treats specially. *)
Definition is_backspace (b : byte) : bool := (Byte.to_N b =? 8)%N.
Definition is_return (b : byte) : bool := (Byte.to_N b =? 13)%N.

(** Number of backspaces in a stream. *)
Definition backspaces (bs : Py.bytes) : nat :=
  length (List.filter is_backspace bs).

(** The bytes that put a character into the document: all but 8 and 13. *)
Definition inserting (b : byte) : bool :=
  negb (is_backspace b) && negb (is_return b).

(** The characters of a stream, carriage returns left out. *)
Definition characters (bs : Py.bytes) : list N :=
  map Byte.to_N (List.filter (fun b => negb (is_return b)) bs).

(** Where [process_bytes] starts to work: its cursor, a copy of the
    widget's, taken down to the last line. *)
Definition start_cursor (self : REPLPane.t) : Qt.QTextCursor :=
  REPLPane.while_down (S (length (REPLPane.document self)))
    (REPLPane.document self) (REPLPane.textCursor self).

Definition start (self : REPLPane.t) : nat :=
  Qt.position (start_cursor self).

End Stream.

(* ===================================================================== *)
(** * Notions used by the further properties                              *)
(* ===================================================================== *)

Module Derived.

(** The row that is current when the selector closes: the one the user
    picked if there is such a row, the first one otherwise. *)
Definition chosen_row (templates : list ProjectSelector.ProjectItem)
    (u : ProjectSelector.interaction) : nat :=
  match ProjectSelector.picked u with
  | Some row => if (row <? length templates)%nat then row else O
  | None => O
  end.

End Derived.

(* ===================================================================== *)
(** * [Font.get_database]: the cached font database                       *)
(* ===================================================================== *)

Module FontDatabase.

Definition FONT_VARIANTS : list string :=
  ["Bold"; "BoldIt"; "It"; "Regular"; "Semibold"; "SemiboldIt"].

(** [FONT_FILENAME_PATTERN.format(variant=variant)] *)
Definition filename (variant : string) : string :=
  ("SourceCodePro-" ++ variant ++ ".otf")%string.

(** A [QFontDatabase]: the font files added to it, oldest first. *)
Definition QFontDatabase : Type := list string.

(** The class attribute [_DATABASE] ([None] until the first call), and the
    resource files read by [load_font_data] so far. *)
Record t : Type := {
  _DATABASE : option QFontDatabase;
  files_read : list string
}.

(** The class as it is defined. *)
Definition initial : t := {| _DATABASE := None; files_read := [] |}.

(** The body of [for variant in FONT_VARIANTS], on the database under
    construction and the files read. *)
Definition add_variant (st : QFontDatabase * list string) (variant : string)
  : QFontDatabase * list string :=
  let (db, files) := st in
  let name := filename variant in
  (db ++ [name], files ++ [name]).

(** [get_database(cls)]: the class after the call and the database
    returned. *)
Definition get_database (cls : t) : t * QFontDatabase :=
  match _DATABASE cls with
  | None =>
      let (db, files) := fold_left add_variant FONT_VARIANTS ([], files_read cls) in
      ({| _DATABASE := Some db; files_read := files |}, db)
  | Some db => (cls, db)
  end.

(** [n] calls in a row: the class at the end and the databases
    returned. *)
Fixpoint calls (n : nat) (cls : t) : t * list QFontDatabase :=
  match n with
  | O => (cls, [])
  | S n' =>
      let (cls1, db) := get_database cls in
      let (cls2, dbs) := calls n' cls1 in
      (cls2, db :: dbs)
  end.

End FontDatabase.

(* ===================================================================== *)
(** * [ButtonBar]: the tool bar                                           *)
(* ===================================================================== *)

Module ButtonBar.

(** [needle in hay] on strings: [needle] occurs in [hay]. *)
Fixpoint contains (needle hay : string) : bool :=
  String.prefix needle hay
  || match hay with
     | EmptyString => false
     | String _ rest => contains needle rest
     end.

(** [str.capitalize()] on ASCII text: the first character in upper case,
    the others in lower case. *)
Definition upper (c : ascii) : ascii :=
  let n := nat_of_ascii c in
  if ((97 <=? n) && (n <=? 122))%nat then ascii_of_nat (n - 32) else c.

Definition lower (c : ascii) : ascii :=
  let n := nat_of_ascii c in
  if ((65 <=? n) && (n <=? 90))%nat then ascii_of_nat (n + 32) else c.

Fixpoint lowercase (s : string) : string :=
  match s with
  | EmptyString => EmptyString
  | String c rest => String (lower c) (lowercase rest)
  end.

Definition capitalize (s : string) : string :=
  match s with
  | EmptyString => EmptyString
  | String c rest => String (upper c) (lowercase rest)
  end.

(** A [QAction]: its icon (by the name of the resource), text, status
    tip, visibility and the handler connected to [triggered]. *)
Record QAction : Type := {
  icon : string;
  text : string;
  statusTip : string;
  visible : bool;
  triggered : option nat
}.

Definition setVisible (b : bool) (a : QAction) : QAction :=
  {| icon := icon a; text := text a; statusTip := statusTip a;
     visible := b; triggered := triggered a |}.

Definition pyqtConfigure (handler : nat) (a : QAction) : QAction :=
  {| icon := icon a; text := text a; statusTip := statusTip a;
     visible := visible a; triggered := Some handler |}.

(** The tool bar: the dictionary [slots], the items of the bar in order
    ([None] is a separator), the shortcuts created by [connect], and the
    properties set by [__init__]. *)
Record t : Type := {
  slots : gmap string QAction;
  items : list (option string);
  shortcuts : list (string * nat);
  movable : bool;
  iconSize : Z * Z;
  toolButtonStyle : Z;
  objectName : string
}.

(** [QToolBar(parent)] *)
Definition QToolBar_new : t :=
  {| slots := ∅; items := []; shortcuts := []; movable := true;
     iconSize := (24, 24); toolButtonStyle := 0; objectName := "" |}.

Definition set_slots (m : gmap string QAction) (self : t) : t :=
  {| slots := m; items := items self; shortcuts := shortcuts self;
     movable := movable self; iconSize := iconSize self;
     toolButtonStyle := toolButtonStyle self;
     objectName := objectName self |}.

Definition add_item (i : option string) (self : t) : t :=
  {| slots := slots self; items := items self ++ [i];
     shortcuts := shortcuts self; movable := movable self;
     iconSize := iconSize self; toolButtonStyle := toolButtonStyle self;
     objectName := objectName self |}.

Definition add_shortcut (key : string) (handler : nat) (self : t) : t :=
  {| slots := slots self; items := items self;
     shortcuts := shortcuts self ++ [(key, handler)];
     movable := movable self; iconSize := iconSize self;
     toolButtonStyle := toolButtonStyle self;
     objectName := objectName self |}.

(** [addAction(self, name, tool_text)] *)
Definition addAction (name tool_text : string) (self : t) : t :=
  let action :=
    {| icon := name; text := capitalize name; statusTip := tool_text;
       visible := true; triggered := None |} in
  let self := add_item (Some name) self in
  set_slots (<[name := action]> (slots self)) self.

Definition addSeparator (self : t) : t := add_item None self.

(** [__init__(self, parent)] *)
Definition __init__ (self : t) : t :=
  let self :=
    {| slots := ∅; items := items self; shortcuts := shortcuts self;
       movable := false; iconSize := (64, 64); toolButtonStyle := 3;
       objectName := "StandardToolBar" |} in
  let self := addAction "new" "Create a new MicroPython script." self in
  let self := addAction "load" "Load a MicroPython script." self in
  let self := addAction "save" "Save the current MicroPython script." self in
  let self := addSeparator self in
  let self := addAction "run" "Run your Python script." self in
  let self := addAction "flash" "Flash your code onto the micro:bit." self in
  let self := addAction "play" "Play your PyGameZero game." self in
  let self := addAction "blocks" "Toggle the block editing mode." self in
  let self := addAction "repl" "Try stuff out in the Python REPL." self in
  let self := addSeparator self in
  let self := addAction "zoom-in" "Zoom in (to make the text bigger)." self in
  let self :=
    addAction "zoom-out" "Zoom out (to make the text smaller)." self in
  let self := addAction "theme" "Change theme between day or night." self in
  let self := addSeparator self in
  let self := addAction "help" "Show help about Mu." self in
  addAction "quit" "Quit the application." self.

Definition new : t := __init__ QToolBar_new.

(** The result of a method that looks names up in [slots]: it ends
    normally, or with the [KeyError] of the missing name; the bar reached
    is kept in both cases. *)
Inductive result : Type :=
| Done (self : t)
| KeyError (self : t) (key : string).

(** [self.slots[name].setVisible(b)] on a slot that was looked up before:
    the action in the dictionary is the object that is changed. *)
Definition show (name : string) (b : bool) (self : t) : t :=
  set_slots (alter (setVisible b) name (slots self)) self.

(** [connect(self, name, handler, *shortcuts)] *)
Definition connect (name : string) (handler : nat) (keys : list string)
    (self : t) : result :=
  match slots self !! name with
  | None => KeyError self name
  | Some _ =>
      let self := set_slots (alter (pyqtConfigure handler) name (slots self))
                            self in
      Done (fold_left (fun self key => add_shortcut key handler self)
                      keys self)
  end.

(** [set_button_state(self, tab)] *)
Definition set_button_state (tab : EditorPane.t) (self : t) : result :=
  match slots self !! "run" with
  | None => KeyError self "run"
  | Some _ =>
  match slots self !! "flash" with
  | None => KeyError self "flash"
  | Some _ =>
  match slots self !! "play" with
  | None => KeyError self "play"
  | Some _ =>
  match slots self !! "blocks" with
  | None => KeyError self "blocks"
  | Some _ =>
      if EditorPane.truthy (EditorPane.path tab) then
        let path := default "" (EditorPane.path tab) in
        if contains "micropython" path then
          Done (show "play" false (show "flash" true (show "run" false self)))
        else if contains "pygamezero" path then
          Done (show "play" true (show "flash" false (show "run" false self)))
        else if contains "blocks" path then
          Done (show "blocks" true
                  (show "play" false
                     (show "flash" false (show "run" true self))))
        else
          Done (show "play" false (show "flash" false (show "run" true self)))
      else Done self
  end end end end.

(** The tabs selected one after the other, as [check_button_state] hands
    them to [set_button_state]; a [KeyError] ends the run. *)
Fixpoint select_tabs (tabs : list EditorPane.t) (self : t) : result :=
  match tabs with
  | [] => Done self
  | tab :: rest =>
      match set_button_state tab self with
      | Done self' => select_tabs rest self'
      | KeyError self' key => KeyError self' key
      end
  end.

(** Whether the action of a name is shown; a missing action is not. *)
Definition shown (name : string) (self : t) : bool :=
  match slots self !! name with
  | Some a => visible a
  | None => false
  end.

(** The four actions [set_button_state] looks up are there. *)
Definition has_project_buttons (self : t) : Prop :=
  is_Some (slots self !! "run") /\ is_Some (slots self !! "flash")
  /\ is_Some (slots self !! "play") /\ is_Some (slots self !! "blocks").

End ButtonBar.

(* ===================================================================== *)
(** * [Window]: the web views in the horizontal splitter                  *)
(* ===================================================================== *)

Module Layout.

(** The widgets of the horizontal splitter: the tab widget, and the web
    views, told apart by the order in which they were created. *)
Inductive widget : Type := tabs | webview (id : nat).

Definition widget_eqb (a b : widget) : bool :=
  match a, b with
  | tabs, tabs => true
  | webview i, webview j => Nat.eqb i j
  | _, _ => false
  end.

(** The part of the window these methods work on: the widgets of
    [splitter_horizontal] in order, the sizes last handed to [setSizes],
    the attributes [_webview_left] and [_webview_right] (absent, [None] or
    a view), the views connected to the zoom signals, the views handed to
    [deleteLater], and the number of views created so far. *)
Record t : Type := {
  splitter_horizontal : list widget;
  sizes_set : list Z;
  _webview_left : option (option (nat * WebViewPane.t));
  _webview_right : option (option (nat * WebViewPane.t));
  zoom_connected : list nat;
  deleted : list nat;
  created : nat
}.

(** The two attributes as the accessors of [Window] read them. *)
Definition pane_of (slot : option (option (nat * WebViewPane.t)))
  : option (option WebViewPane.t) :=
  option_map (option_map snd) slot.

Definition views (self : t) : Window.t :=
  {| Window._webview_left := pane_of (_webview_left self);
     Window._webview_right := pane_of (_webview_right self) |}.

(** [splitter.indexOf(widget)]: the position of the widget, -1 when it is
    not in the splitter. *)
Fixpoint index (w : widget) (l : list widget) : option nat :=
  match l with
  | [] => None
  | x :: l' => if widget_eqb x w then Some O else option_map S (index w l')
  end.

Definition indexOf (w : widget) (l : list widget) : Z :=
  match index w l with
  | Some n => Z.of_nat n
  | None => -1
  end.

(** [splitter.insertWidget(index, widget)] for a new widget: at the end
    when the index is not valid. *)
Definition insertWidget (i : Z) (w : widget) (l : list widget) : list widget :=
  if (0 <=? i) && (i <=? Z.of_nat (length l))
  then take (Z.to_nat i) l ++ w :: drop (Z.to_nat i) l
  else l ++ [w].

(** Indexing a Python list: negative indices count from the end; [None]
    stands for [IndexError]. *)
Definition position (l : list Z) (i : Z) : option nat :=
  let len := Z.of_nat (length l) in
  if (0 <=? i) && (i <? len) then Some (Z.to_nat i)
  else if (- len <=? i) && (i <? 0) then Some (Z.to_nat (len + i))
  else None.

Definition getitem (l : list Z) (i : Z) : option Z :=
  match position l i with
  | Some n => l !! n
  | None => None
  end.

Definition setitem (l : list Z) (i : Z) (x : Z) : option (list Z) :=
  match position l i with
  | Some n => Some (<[n := x]> l)
  | None => None
  end.

(** How a method ends: normally, or with one of two exceptions; the window
    reached is kept. *)
Inductive error : Type := IndexError | AttributeError (msg : string).

Inductive result : Type :=
| Done (self : t)
| Failed (self : t) (e : error).

(** The last lines of [add_webview_left], after the view is in the
    splitter: the sizes reported by [sizes()] are [reported]; the view and
    the tabs share what the two have together. *)
Definition share_sizes (webview_index tabs_index size_percent : Z)
    (reported : list Z) (self : t) : result :=
  let splitter_sizes := reported in
  match getitem splitter_sizes webview_index,
        getitem splitter_sizes tabs_index with
  | Some a, Some b =>
      let total_size := a + b in
      match setitem splitter_sizes webview_index
              (total_size * size_percent / 100) with
      | Some splitter_sizes =>
          match getitem splitter_sizes webview_index with
          | Some a' =>
              match setitem splitter_sizes tabs_index (total_size - a') with
              | Some splitter_sizes =>
                  Done {| splitter_horizontal := splitter_horizontal self;
                          sizes_set := splitter_sizes;
                          _webview_left := _webview_left self;
                          _webview_right := _webview_right self;
                          zoom_connected := zoom_connected self;
                          deleted := deleted self;
                          created := created self |}
              | None => Failed self IndexError
              end
          | None => Failed self IndexError
          end
      | None => Failed self IndexError
      end
  | _, _ => Failed self IndexError
  end.

(** [add_webview_left(self, url, size_percent)] *)
Definition add_webview_left (url : string) (size_percent : Z)
    (reported : list Z) (self : t) : result :=
  let webview_index := 0 in
  let tabs_index := indexOf tabs (splitter_horizontal self) in
  let webview_index :=
    if 0 <? tabs_index then tabs_index - 1 else webview_index in
  let id := created self in
  let self :=
    {| splitter_horizontal :=
         insertWidget webview_index (webview id) (splitter_horizontal self);
       sizes_set := sizes_set self;
       _webview_left := Some (Some (id, WebViewPane.new url));
       _webview_right := _webview_right self;
       zoom_connected := zoom_connected self ++ [id];
       deleted := deleted self;
       created := S id |} in
  let tabs_index := indexOf tabs (splitter_horizontal self) in
  share_sizes webview_index tabs_index size_percent reported self.

(** The last lines of [add_webview_right]: as above, with the sum taken
    in the other order. *)
Definition share_sizes_right (tabs_index webview_index size_percent : Z)
    (reported : list Z) (self : t) : result :=
  let splitter_sizes := reported in
  match getitem splitter_sizes tabs_index,
        getitem splitter_sizes webview_index with
  | Some b, Some a =>
      let total_size := b + a in
      match setitem splitter_sizes webview_index
              (total_size * size_percent / 100) with
      | Some splitter_sizes =>
          match getitem splitter_sizes webview_index with
          | Some a' =>
              match setitem splitter_sizes tabs_index (total_size - a') with
              | Some splitter_sizes =>
                  Done {| splitter_horizontal := splitter_horizontal self;
                          sizes_set := splitter_sizes;
                          _webview_left := _webview_left self;
                          _webview_right := _webview_right self;
                          zoom_connected := zoom_connected self;
                          deleted := deleted self;
                          created := created self |}
              | None => Failed self IndexError
              end
          | None => Failed self IndexError
          end
      | None => Failed self IndexError
      end
  | _, _ => Failed self IndexError
  end.

(** [add_webview_right(self, url, size_percent)] *)
Definition add_webview_right (url : string) (size_percent : Z)
    (reported : list Z) (self : t) : result :=
  let id := created self in
  let self :=
    {| splitter_horizontal := splitter_horizontal self ++ [webview id];
       sizes_set := sizes_set self;
       _webview_left := _webview_left self;
       _webview_right := Some (Some (id, WebViewPane.new url));
       zoom_connected := zoom_connected self ++ [id];
       deleted := deleted self;
       created := S id |} in
  let tabs_index := indexOf tabs (splitter_horizontal self) in
  let webview_index := indexOf (webview id) (splitter_horizontal self) in
  share_sizes_right tabs_index webview_index size_percent reported self.

(** [widget.setParent(None)]: the widget leaves the splitter. *)
Definition unparent (id : nat) (l : list widget) : list widget :=
  List.filter (fun w => negb (widget_eqb w (webview id))) l.

(** [remove_webview_left(self)] *)
Definition remove_webview_left (self : t) : result :=
  match _webview_left self with
  | None =>
      Failed self
        (AttributeError "'Window' object has no attribute '_webview_left'")
  | Some None =>
      Failed self
        (AttributeError "'NoneType' object has no attribute 'setParent'")
  | Some (Some (id, _)) =>
      Done {| splitter_horizontal := unparent id (splitter_horizontal self);
              sizes_set := sizes_set self;
              _webview_left := Some None;
              _webview_right := _webview_right self;
              zoom_connected := zoom_connected self;
              deleted := deleted self ++ [id];
              created := created self |}
  end.

(** [remove_webview_right(self)] *)
Definition remove_webview_right (self : t) : result :=
  match _webview_right self with
  | None =>
      Failed self
        (AttributeError "'Window' object has no attribute '_webview_right'")
  | Some None =>
      Failed self
        (AttributeError "'NoneType' object has no attribute 'setParent'")
  | Some (Some (id, _)) =>
      Done {| splitter_horizontal := unparent id (splitter_horizontal self);
              sizes_set := sizes_set self;
              _webview_left := _webview_left self;
              _webview_right := Some None;
              zoom_connected := zoom_connected self;
              deleted := deleted self ++ [id];
              created := created self |}
  end.

(** The window as [setup] leaves it: the tabs alone in the splitter. *)
Definition after_setup : t :=
  {| splitter_horizontal := [tabs]; sizes_set := [];
     _webview_left := None; _webview_right := None;
     zoom_connected := []; deleted := []; created := O |}.

(** Every view in the splitter was created before: the next view is a
    new widget. *)
Definition fresh (self : t) : Prop :=
  forall id, webview id ∈ splitter_horizontal self -> (id < created self)%nat.

End Layout.

(* ===================================================================== *)
(** * [Window]: the editor tabs, the theme and the buttons                *)
(* ===================================================================== *)

Module Tabs.

(** The two theme classes an editor's lexer can be styled with. *)
Inductive theme_class : Type := DayTheme | NightTheme.

(** A page of the tab widget: the editor, the theme of its lexer, the text
    on the tab, and the index that [add_tab] got from [addTab], which the
    [on_modified] handler of this editor keeps. *)
Record tab : Type := {
  pane : EditorPane.t;
  lexer_theme : theme_class;
  tab_text : string;
  slot_index : nat
}.

Definition set_pane (p : EditorPane.t) (tb : tab) : tab :=
  {| pane := p; lexer_theme := lexer_theme tb; tab_text := tab_text tb;
     slot_index := slot_index tb |}.

Definition set_tab_text (s : string) (tb : tab) : tab :=
  {| pane := pane tb; lexer_theme := lexer_theme tb; tab_text := s;
     slot_index := slot_index tb |}.

(** [EditorPane.set_theme(theme)] on the editor of a page. *)
Definition set_theme_of (theme : theme_class) (tb : tab) : tab :=
  {| pane := pane tb; lexer_theme := theme; tab_text := tab_text tb;
     slot_index := slot_index tb |}.

(** [tabs.setTabText(index, text)]: nothing happens when there is no such
    tab. *)
Definition setTabText (index : nat) (s : string) (pages : list tab)
  : list tab :=
  alter (set_tab_text s) index pages.

(** [tabs.removeTab(index)], the slot of [tabCloseRequested]: the later
    pages move down by one. *)
Definition removeTab (index : nat) (pages : list tab) : list tab :=
  delete index pages.

(** The editor of page [index] changes its modification state to [m] and
    emits [modificationChanged]; its [on_modified] handler sets the text of
    the tab with the index it keeps to the editor's label. *)
Definition modificationChanged (index : nat) (m : bool) (pages : list tab)
  : list tab :=
  match pages !! index with
  | Some tb =>
      let tb' := set_pane (EditorPane.setModified m (pane tb)) tb in
      setTabText (slot_index tb') (EditorPane.label (pane tb'))
                 (<[index := tb']> pages)
  | None => pages
  end.

(** The part of the window these methods work on. *)
Record t : Type := {
  theme : string;
  styleSheet : option Qt.stylesheet;
  pages : list tab;
  currentIndex : Z;
  button_bar : ButtonBar.t;
  repl : option (option REPLPane.t);
  zoom_connected : nat
}.

(** How a method ends: normally, or with an exception of a lookup. *)
Inductive error : Type :=
| KeyError (key : string)
| IndexError
| AttributeError (msg : string).

Inductive result : Type :=
| Done (self : t)
| Failed (self : t) (e : error).

(** The [tab_count] and [widgets] properties. *)
Definition tab_count (self : t) : nat := length (pages self).

Definition widgets (self : t) : list EditorPane.t := map pane (pages self).

(** The [modified] property: the loop returns at the first modified
    editor. *)
Fixpoint first_modified (ws : list EditorPane.t) : bool :=
  match ws with
  | [] => false
  | widget :: rest =>
      if EditorPane.isModified widget then true else first_modified rest
  end.

Definition modified (self : t) : bool := first_modified (widgets self).

(** Indexing a Python list: negative indices count from the end; [None]
    stands for [IndexError]. *)
Definition getitem {A : Type} (l : list A) (i : Z) : option A :=
  let len := Z.of_nat (length l) in
  if (0 <=? i) && (i <? len) then l !! Z.to_nat i
  else if (- len <=? i) && (i <? 0) then l !! Z.to_nat (len + i)
  else None.

Definition set_button_bar (b : ButtonBar.t) (self : t) : t :=
  {| theme := theme self; styleSheet := styleSheet self;
     pages := pages self; currentIndex := currentIndex self;
     button_bar := b; repl := repl self;
     zoom_connected := zoom_connected self |}.

(** [check_button_state(self, index)] *)
Definition check_button_state (index : Z) (self : t) : result :=
  match getitem (widgets self) index with
  | None => Failed self IndexError
  | Some widget =>
      match ButtonBar.set_button_state widget (button_bar self) with
      | ButtonBar.Done bar => Done (set_button_bar bar self)
      | ButtonBar.KeyError bar key => Failed (set_button_bar bar self) (KeyError key)
      end
  end.

Definition setIcon (name : string) (a : ButtonBar.QAction) : ButtonBar.QAction :=
  {| ButtonBar.icon := name; ButtonBar.text := ButtonBar.text a;
     ButtonBar.statusTip := ButtonBar.statusTip a;
     ButtonBar.visible := ButtonBar.visible a;
     ButtonBar.triggered := ButtonBar.triggered a |}.

Definition setStyleSheet (sheet : Qt.stylesheet) (self : t) : t :=
  {| theme := theme self; styleSheet := Some sheet;
     pages := pages self; currentIndex := currentIndex self;
     button_bar := button_bar self; repl := repl self;
     zoom_connected := zoom_connected self |}.

Definition set_theme_attribute (new : string) (self : t) : t :=
  {| theme := new; styleSheet := styleSheet self;
     pages := pages self; currentIndex := currentIndex self;
     button_bar := button_bar self; repl := repl self;
     zoom_connected := zoom_connected self |}.

Definition set_pages (l : list tab) (self : t) : t :=
  {| theme := theme self; styleSheet := styleSheet self;
     pages := l; currentIndex := currentIndex self;
     button_bar := button_bar self; repl := repl self;
     zoom_connected := zoom_connected self |}.

Definition set_repl (r : option (option REPLPane.t)) (self : t) : t :=
  {| theme := theme self; styleSheet := styleSheet self;
     pages := pages self; currentIndex := currentIndex self;
     button_bar := button_bar self; repl := r;
     zoom_connected := zoom_connected self |}.

(** [set_theme(self, theme)] *)
Definition set_theme (new : string) (self : t) : result :=
  let self := setStyleSheet Qt.DAY_STYLE self in
  let self := set_theme_attribute new self in
  let new_theme := DayTheme in
  let new_icon := "theme"%string in
  let '(new_theme, new_icon, self) :=
    if String.eqb new "night"
    then (NightTheme, "theme_day"%string, setStyleSheet Qt.NIGHT_STYLE self)
    else (new_theme, new_icon, self) in
  let self := set_pages (map (set_theme_of new_theme) (pages self)) self in
  match ButtonBar.slots (button_bar self) !! "theme" with
  | None => Failed self (KeyError "theme")
  | Some _ =>
      let bar :=
        ButtonBar.set_slots
          (alter (setIcon new_icon) "theme"
             (ButtonBar.slots (button_bar self)))
          (button_bar self) in
      let self := set_button_bar bar self in
      match repl self with
      | Some (Some console) =>
          Done (set_repl (Some (Some (REPLPane.set_theme new console))) self)
      | Some None | None => Done self
      end
  end.

(** [remove_repl(self)]: the attribute is looked up first, then
    [setParent] on its value. *)
Definition remove_repl (self : t) : result :=
  match repl self with
  | None =>
      Failed self (AttributeError "'Window' object has no attribute 'repl'")
  | Some None =>
      Failed self
        (AttributeError "'NoneType' object has no attribute 'setParent'")
  | Some (Some _) => Done (set_repl (Some None) self)
  end.


(** Every tab shows the label of its editor, and every handler keeps the
    index of its own tab. *)
Definition consistent (pages : list tab) : Prop :=
  forall i tb,
    pages !! i = Some tb ->
    slot_index tb = i /\ tab_text tb = EditorPane.label (pane tb).


(** What the user does with the tabs: opens a file, or changes the
    modification state of the editor of a page. *)
Inductive event : Type :=
| Open (path : option string) (text : string)
| Edit (index : nat) (m : bool).


(** The files opened by a list of events. *)
Definition opened (events : list event) : nat :=
  length
    (List.filter
       (fun e => match e with Open _ _ => true | Edit _ _ => false end)
       events).

(** The window as [setup] leaves it. *)
Definition after_setup (new : string) : t :=
  {| theme := new;
     styleSheet :=
       Some (if String.eqb new "night" then Qt.NIGHT_STYLE
             else Qt.DAY_STYLE);
     pages := []; currentIndex := -1;
     button_bar :=
       ButtonBar.set_slots
         (alter (setIcon (if String.eqb new "night" then "theme_day"
                          else "theme"))
            "theme" (ButtonBar.slots ButtonBar.new))
         ButtonBar.new;
     repl := None; zoom_connected := O |}.

End Tabs.

(* ===================================================================== *)
(** * Properties of [REPLPane]                                            *)
(* ===================================================================== *)

Section REPLPaneConstructor.

Import Py Qt REPLPane.

Variable available : string -> bool.
Variables port theme : string.

(** The run of the constructor when the port opens. *)
Lemma new_opened :
  available port = true ->
  new available port theme =
    Returned
      (set_theme theme
         (set_serial
            {| portName := port; isOpen := true; baudRate := Some 115200;
               readyRead := [on_serial_read_slot]; written := [[x03]];
               pending := [] |}
            (setObjectName "replpane"
               (setFont (Font.load Font.default Font.DEFAULT_FONT_SIZE)
                  (setAcceptRichText false QTextEdit_new))))) tt.
Proof.
  intros Hopen. unfold new, __init__, bind, call, raise, open. cbn.
  rewrite Hopen. cbn. unfold set_theme.
  destruct (String.eqb theme "day"); reflexivity.
Qed.

(** The run of the constructor when the port does not open. *)
Lemma new_refused :
  available port = false ->
  new available port theme =
    Raised
      (set_serial
         {| portName := port; isOpen := false; baudRate := None;
            readyRead := []; written := []; pending := [] |}
         (setObjectName "replpane"
            (setFont (Font.load Font.default Font.DEFAULT_FONT_SIZE)
               (setAcceptRichText false QTextEdit_new))))
      (IOError (ioerror_message port)).
Proof.
  intros Hopen. unfold new, __init__, bind, call, raise, open. cbn.
  rewrite Hopen. reflexivity.
Qed.

End REPLPaneConstructor.



(** C4. The constructor of [REPLPane] raises exactly when the port fails to
    open, and what it raises is an [IOError]; the exception is the outcome
    of the constructor call, nothing catches it, and in the state it leaves
    behind the port is closed, no baud rate has been set and nothing has
    been written. *)
Theorem C4_init_raises_iff_open_fails (available : string -> bool)
    (port theme : string) :
  ((exists e, Py.raised (REPLPane.new available port theme) = Some e)
     <-> available port = false)
  /\ (forall e, Py.raised (REPLPane.new available port theme) = Some e ->
        e = Py.IOError (REPLPane.ioerror_message port)
        /\ Qt.isOpen (REPLPane.serial
                        (Py.state_of (REPLPane.new available port theme)))
             = false
        /\ Qt.baudRate (REPLPane.serial
                          (Py.state_of (REPLPane.new available port theme)))
             = None
        /\ Qt.written (REPLPane.serial
                         (Py.state_of (REPLPane.new available port theme)))
             = []).
Proof.
  destruct (available port) eqn:Hopen.
  - rewrite (new_opened available port theme Hopen). cbn. split.
    + split; [intros [e He]; discriminate | discriminate].
    + intros e He. discriminate.
  - rewrite (new_refused available port theme Hopen). cbn. split.
    + split; [reflexivity | intros _; eexists; reflexivity].
    + intros e He. injection He as <-. repeat split; reflexivity.
Qed.


Section KeyPress.

Import Py Qt REPLPane Described.

(** Well-formed text can always be encoded. *)
Lemma utf8_char_scalar (c : N) :
  is_scalar c = true -> exists bs, utf8_char c = Some bs.
Proof.
  unfold is_scalar, utf8_char. intros H.
  destruct (c <? 128)%N; [eauto |].
  destruct (c <? 2048)%N; [eauto |].
  destruct (c <? 65536)%N eqn:H3.
  - destruct ((55296 <=? c) && (c <=? 57343))%N eqn:Hs; [| eauto].
    exfalso.
    apply andb_true_iff in Hs as [H1 H2].
    apply N.leb_le in H1, H2.
    apply orb_true_iff in H as [H | H].
    + apply N.ltb_lt in H. lia.
    + apply andb_true_iff in H as [H _]. apply N.ltb_lt in H. lia.
  - apply orb_true_iff in H as [H | H].
    + apply N.ltb_lt in H. apply N.ltb_ge in H3. lia.
    + apply andb_true_iff in H as [_ H]. rewrite H. eauto.
Qed.

Lemma utf8_scalar (s : str) :
  Forall (fun c => is_scalar c = true) s -> exists bs, utf8 s = Some bs.
Proof.
  induction 1 as [| c s Hc _ [rest IH]]; cbn.
  - eauto.
  - destruct (utf8_char_scalar c Hc) as [bs ->]. rewrite IH. eauto.
Qed.

Lemma utf8_char_encoded (c : N) (bs : bytes) :
  utf8_char c = Some bs -> is_scalar c = true.
Proof.
  intros H. destruct (is_scalar c) eqn:Hs; [reflexivity |]. exfalso.
  unfold is_scalar in Hs. apply orb_false_iff in Hs as [H1 H2].
  apply N.ltb_ge in H1.
  assert (H3 : (c <= 57343 \/ 1114112 <= c)%N).
  { apply andb_false_iff in H2 as [H2 | H2]; apply N.ltb_ge in H2; lia. }
  clear H2. unfold utf8_char in H.
  destruct (N.ltb_spec c 128); [lia |].
  destruct (N.ltb_spec c 2048); [lia |].
  destruct (N.ltb_spec c 65536).
  - destruct (N.leb_spec 55296 c); [| lia].
    destruct (N.leb_spec c 57343); [discriminate | lia].
  - destruct (N.ltb_spec c 1114112); [lia | discriminate].
Qed.

(** Only well-formed text can be encoded. *)
Lemma utf8_encoded (s : str) (bs : bytes) :
  utf8 s = Some bs -> Forall (fun c => is_scalar c = true) s.
Proof.
  revert bs. induction s as [| c s IH]; intros bs H; [constructor |].
  cbn in H. destruct (utf8_char c) as [b1 |] eqn:Hc; [| discriminate].
  destruct (utf8 s) as [rest |]; [| discriminate].
  constructor; [eapply utf8_char_encoded; exact Hc | eapply IH; reflexivity].
Qed.

(** [bytes([i])] succeeds on the control codes. *)
Lemma bytes_of_int_byte (i : Z) :
  0 <= i < 256 -> bytes_of_int i = Some [byte_of (Z.to_N i)].
Proof.
  intros Hi. unfold bytes_of_int, byte_of.
  replace (0 <=? i) with true by (symmetry; apply Z.leb_le; lia).
  replace (i <? 256) with true by (symmetry; apply Z.ltb_lt; lia).
  cbn [andb].
  rewrite N.mod_small by lia.
  destruct (Byte.of_N (Z.to_N i)) eqn:E; [reflexivity |].
  apply Byte.of_N_None_iff in E. lia.
Qed.

Lemma control_code_value (data : QKeyEvent) :
  meta_letter data = true ->
  Z.of_N (Byte.to_N (control_code data)) = 1 + key data - Key_A.
Proof.
  unfold meta_letter, control_code, byte_of, Key_A, Key_Z. intros H.
  apply andb_true_iff in H as [H _].
  apply andb_true_iff in H as [H1 H2].
  apply Z.leb_le in H1, H2.
  rewrite N.mod_small by lia.
  destruct (Byte.of_N (Z.to_N (1 + key data - 65))) eqn:E.
  - apply Byte.to_of_N in E. rewrite E. lia.
  - apply Byte.of_N_None_iff in E. lia.
Qed.

(** The run of [keyPressEvent] once the text is encoded. *)
Lemma keyPressEvent_run (data : QKeyEvent) (self : REPLPane.t)
    (encoded : bytes) :
  utf8 (text data) = Some encoded ->
  keyPressEvent data self =
    Returned (set_serial (write (forwarded data encoded) (serial self)) self)
             tt.
Proof.
  intros Henc. unfold keyPressEvent, forwarded, bind, call, ret, raise.
  rewrite Henc.
  destruct (key data =? Key_Backspace); [reflexivity |].
  destruct (key data =? Key_Up); [reflexivity |].
  destruct (key data =? Key_Down); [reflexivity |].
  destruct (key data =? Key_Right); [reflexivity |].
  destruct (key data =? Key_Left); [reflexivity |].
  unfold meta_letter.
  destruct (modifiers data =? MetaModifier);
    [| rewrite andb_false_r; reflexivity].
  rewrite andb_true_r.
  destruct ((Key_A <=? key data) && (key data <=? Key_Z)) eqn:Hk;
    [| reflexivity].
  apply andb_true_iff in Hk as [H1 H2].
  apply Z.leb_le in H1, H2. unfold Key_A, Key_Z in *.
  rewrite bytes_of_int_byte by lia. reflexivity.
Qed.

End KeyPress.

(** C2, amended. Every key press whose text is well-formed Unicode makes
    [keyPressEvent] return normally after writing exactly one message to
    the serial port, and the message depends on the event alone: 0x08 for
    Backspace, ESC [ A/B/C/D for Up/Down/Right/Left, the single byte
    [1 + key - Key_A], between 1 and 26, for a letter key whose modifiers
    are exactly Meta, and the UTF-8 encoding of the key's text
    otherwise.  A key press whose text is not well-formed, whatever the
    key, raises [UnicodeEncodeError] and nothing is written. *)
Theorem C2_keypress_writes_one_message (data : Qt.QKeyEvent)
    (self : REPLPane.t) :
  (Forall (fun c => Py.is_scalar c = true) (Qt.text data) ->
   exists encoded,
     Py.utf8 (Qt.text data) = Some encoded
     /\ REPLPane.keyPressEvent data self =
          Py.Returned
            (REPLPane.set_serial
               (Qt.write (Described.forwarded data encoded)
                         (REPLPane.serial self)) self) tt
     /\ Qt.written
          (REPLPane.serial (Py.state_of (REPLPane.keyPressEvent data self)))
        = Qt.written (REPLPane.serial self)
            ++ [Described.forwarded data encoded]
     /\ (Described.meta_letter data = true ->
         Z.of_N (Byte.to_N (Described.control_code data))
           = 1 + Qt.key data - Qt.Key_A
         /\ 1 <= Z.of_N (Byte.to_N (Described.control_code data)) <= 26))
  /\ (~ Forall (fun c => Py.is_scalar c = true) (Qt.text data) ->
      REPLPane.keyPressEvent data self
      = Py.Raised self Py.UnicodeEncodeError).
Proof.
  split.
  - intros Htext.
    destruct (utf8_scalar _ Htext) as [encoded Henc].
    exists encoded. split; [exact Henc |].
    rewrite (keyPressEvent_run data self encoded Henc).
    split; [reflexivity |]. split; [reflexivity |].
    intros Hm. pose proof (control_code_value data Hm) as Hv.
    split; [exact Hv |].
    unfold Described.meta_letter, Qt.Key_A, Qt.Key_Z in *.
    apply andb_true_iff in Hm as [Hm _].
    apply andb_true_iff in Hm as [H1 H2].
    apply Z.leb_le in H1, H2. lia.
  - intros Htext. unfold REPLPane.keyPressEvent, Py.bind, Py.raise.
    destruct (Py.utf8 (Qt.text data)) as [encoded |] eqn:Henc;
      [| reflexivity].
    exfalso. apply Htext. eapply utf8_encoded. exact Henc.
Qed.

Lemma C2_keypress_writes_one_message_witness :
  exists encoded,
    Py.utf8 (Qt.text Sample.meta_c) = Some encoded
    /\ REPLPane.keyPressEvent Sample.meta_c Sample.two_lines =
         Py.Returned
           (REPLPane.set_serial
              (Qt.write (Described.forwarded Sample.meta_c encoded)
                        (REPLPane.serial Sample.two_lines))
              Sample.two_lines) tt
    /\ Qt.written
         (REPLPane.serial
            (Py.state_of
               (REPLPane.keyPressEvent Sample.meta_c Sample.two_lines)))
       = Qt.written (REPLPane.serial Sample.two_lines)
           ++ [Described.forwarded Sample.meta_c encoded]
    /\ (Described.meta_letter Sample.meta_c = true ->
        Z.of_N (Byte.to_N (Described.control_code Sample.meta_c))
          = 1 + Qt.key Sample.meta_c - Qt.Key_A
        /\ 1 <= Z.of_N (Byte.to_N (Described.control_code Sample.meta_c))
           <= 26).
Proof.
  apply (proj1 (C2_keypress_writes_one_message Sample.meta_c
                  Sample.two_lines)).
  repeat constructor.
Defined.

(** Not every key press writes a message, and not every letter pressed
    with the Meta modifier sends its control code: Backspace delivered
    with a lone surrogate as its text raises and writes nothing, and [C]
    with Meta and Shift sends its text. *)
Lemma C2_key_presses_not_as_claimed :
  REPLPane.keyPressEvent Sample.backspace_surrogate Sample.two_lines
  = Py.Raised Sample.two_lines Py.UnicodeEncodeError
  /\ Qt.written (REPLPane.serial Sample.two_lines) = []
  /\ Qt.written
       (REPLPane.serial
          (Py.state_of
             (REPLPane.keyPressEvent Sample.meta_shift_c Sample.two_lines)))
     = [[x43]]
  /\ 1 + Qt.key Sample.meta_shift_c - Qt.Key_A = 3.
Proof. repeat split; reflexivity. Qed.

Example meta_c_sends_0x03 :
  Qt.written
    (REPLPane.serial
       (Py.state_of (REPLPane.keyPressEvent Sample.meta_c Sample.two_lines)))
  = [[x03]].
Proof. reflexivity. Qed.


Section IncomingBytes.

Import Py Qt REPLPane Described.

Lemma index_of_newline_lt (l : list N) (i : nat) :
  index_of_newline l = Some i -> (i < length l)%nat.
Proof.
  revert i. induction l as [| c l IH]; cbn; intros i H; [discriminate |].
  destruct (c =? newline)%N.
  - injection H as <-. lia.
  - destruct (index_of_newline l) as [j |]; [| discriminate].
    injection H as <-. specialize (IH j eq_refl). lia.
Qed.

Lemma index_of_newline_None (l : list N) :
  index_of_newline l = None <-> Forall (fun c => c <> newline) l.
Proof.
  induction l as [| c l IH]; cbn.
  - split; [constructor | reflexivity].
  - destruct (N.eqb_spec c newline) as [-> | Hc].
    + split; [discriminate |]. intros H. inversion H. congruence.
    + destruct (index_of_newline l); cbn.
      * split; [discriminate |]. intros H. inversion H; subst.
        destruct IH as [_ IH]. specialize (IH ltac:(assumption)).
        discriminate.
      * split; [| reflexivity]. intros _. constructor; [exact Hc |].
        apply IH. reflexivity.
Qed.

(** [movePosition(Down)] fails exactly on the last line. *)
Lemma move_down_fails_iff (doc : list N) (tc : QTextCursor) :
  snd (movePosition Down doc tc) = false <-> on_last_line doc (position tc).
Proof.
  unfold on_last_line. rewrite <- index_of_newline_None. cbn.
  destruct (index_of_newline (drop (position tc) doc)); cbn; split;
    congruence.
Qed.

(** A failed move leaves the cursor as it is. *)
Lemma move_down_failed (doc : list N) (tc tc' : QTextCursor) :
  movePosition Down doc tc = (tc', false) -> tc' = tc.
Proof.
  cbn. destruct (index_of_newline (drop (position tc) doc));
    intros H; injection H; congruence.
Qed.

(** A successful move goes forward, only from inside the document, and
    leaves no selection. *)
Lemma move_down_forward (doc : list N) (tc tc' : QTextCursor) :
  movePosition Down doc tc = (tc', true) ->
  (position tc < position tc')%nat
  /\ (position tc < length doc)%nat
  /\ hasSelection tc' = false.
Proof.
  cbn. destruct (index_of_newline (drop (position tc) doc)) as [i |] eqn:E;
    [| discriminate].
  intros H. injection H as <-.
  apply index_of_newline_lt in E. rewrite length_drop in E.
  unfold hasSelection. cbn [anchor position]. rewrite Nat.eqb_refl.
  repeat split; lia.
Qed.

(** With one unit of fuel per character behind the cursor, and one more,
    the loop ends because a move failed; it only moves forward, not at all
    from the last line, and a cursor it has moved has no selection. *)
Lemma while_down_exits (fuel : nat) (doc : list N) (tc : QTextCursor) :
  (length doc - position tc < fuel)%nat ->
  on_last_line doc (position (while_down fuel doc tc))
  /\ (position tc <= position (while_down fuel doc tc))%nat
  /\ (while_down fuel doc tc = tc
      \/ hasSelection (while_down fuel doc tc) = false).
Proof.
  revert tc. induction fuel as [| fuel IH]; intros tc Hfuel; [lia |].
  cbn [while_down].
  destruct (movePosition Down doc tc) as [tc' moved] eqn:E.
  destruct moved.
  - destruct (move_down_forward _ _ _ E) as (H1 & H2 & Hsel).
    destruct (IH tc' ltac:(lia)) as (H3 & H4 & H5).
    split; [exact H3 |]. split; [lia |]. right.
    destruct H5 as [-> | H5]; [exact Hsel | exact H5].
  - pose proof (proj1 (move_down_fails_iff doc tc)) as H.
    rewrite E in H. specialize (H eq_refl).
    apply move_down_failed in E. subst tc'.
    split; [exact H |]. split; [lia | left; reflexivity].
Qed.

Lemma while_down_last_line (fuel : nat) (doc : list N) (tc : QTextCursor) :
  on_last_line doc (position tc) -> while_down fuel doc tc = tc.
Proof.
  intros H. apply move_down_fails_iff in H.
  destruct fuel as [| fuel]; [reflexivity |]. cbn [while_down].
  destruct (movePosition Down doc tc) as [tc' moved] eqn:E.
  cbn [snd] in H. subst moved. apply move_down_failed in E. exact E.
Qed.

(** Taking out the text from [lo] on and putting [c] there. *)
Lemma insert_after_removal (c : N) (doc : list N) (lo hi : nat) :
  (lo <= hi)%nat ->
  take lo (take lo doc ++ drop hi doc) ++ [c]
    ++ drop lo (take lo doc ++ drop hi doc)
  = take lo doc ++ c :: drop hi doc.
Proof.
  intros Hle. destruct (Nat.le_gt_cases lo (length doc)) as [Hin | Hout].
  - rewrite take_app_length' by (rewrite length_take; lia).
    rewrite drop_app_length' by (rewrite length_take; lia).
    reflexivity.
  - rewrite (take_ge doc lo) by lia.
    rewrite (drop_ge doc hi) by lia. rewrite app_nil_r.
    rewrite (take_ge doc lo) by lia. rewrite (drop_ge doc lo) by lia.
    reflexivity.
Qed.

(** Deleting through the cursor and inserting at the widget's cursor,
    which has been put there in between, replaces the selected text, or
    else the character at the cursor. *)
Lemma delete_then_insert (c : N) (self : REPLPane.t) (tc : QTextCursor) :
  (let (self1, tc1) := deleteChar tc self in
   insertPlainText (chr c) tc1 (setTextCursor tc1 self1))
  = overwrite c (self, tc).
Proof.
  unfold deleteChar, overwrite.
  set (lo := selectionStart tc).
  set (hi := if hasSelection tc then selectionEnd tc else S (position tc)).
  assert (Hle : (lo <= hi)%nat).
  { unfold lo, hi, selectionStart, selectionEnd.
    destruct (hasSelection tc); lia. }
  assert (Hmoved : after_insertion lo 1 (after_removal lo lo lo) = S lo).
  { unfold after_insertion, after_removal.
    rewrite (proj2 (Nat.leb_le lo lo)) by lia.
    rewrite Nat.ltb_irrefl. lia. }
  destruct (hasSelection tc || (position tc <? length (document self))%nat)
    eqn:Hdel.
  - unfold insertPlainText, setTextCursor, textCursor, chr, set_text,
      set_selection, selectionStart, selectionEnd, cursor_at.
    cbn [document selection_anchor cursor anchor position
         verticalMovementX length].
    rewrite Nat.min_id, Nat.max_id, Hmoved.
    rewrite (insert_after_removal c (document self) lo hi Hle).
    replace (lo + 1)%nat with (S lo) by lia. reflexivity.
  - apply orb_false_iff in Hdel as [Hsel Hend].
    apply Nat.ltb_ge in Hend.
    assert (Hlo : lo = position tc).
    { unfold lo, selectionStart. unfold hasSelection in Hsel.
      apply negb_false_iff, Nat.eqb_eq in Hsel. lia. }
    unfold hi. rewrite Hsel. rewrite Hlo in *.
    unfold insertPlainText, setTextCursor, textCursor, chr, set_text,
      set_selection, selectionStart, selectionEnd, cursor_at.
    cbn [document selection_anchor cursor anchor position
         verticalMovementX length].
    rewrite Nat.min_id, Nat.max_id, Hmoved.
    rewrite (drop_ge (document self) (position tc)) by lia.
    rewrite (drop_ge (document self) (S (position tc))) by lia.
    replace (position tc + 1)%nat with (S (position tc)) by lia.
    reflexivity.
Qed.

(** Each byte is handled by the branch the amended specification gives
    for it. *)
Lemma handle_byte_branch (st : REPLPane.t * QTextCursor) (b : byte) :
  handle_byte st b = branch st b.
Proof.
  destruct st as [self tc]. unfold handle_byte, branch.
  destruct (N.eqb_spec (Byte.to_N b) 8) as [-> | H8].
  - cbn. unfold setTextCursor. destruct (position tc); reflexivity.
  - destruct (N.eqb_spec (Byte.to_N b) 13) as [-> | H13]; [reflexivity |].
    rewrite delete_then_insert.
    destruct (Byte.to_N b) as [| p]; [reflexivity |].
    do 4 (destruct p as [p | p |]; try reflexivity); congruence.
Qed.

Lemma fold_handle_byte (bs : bytes) (st : REPLPane.t * QTextCursor) :
  fold_left handle_byte bs st = fold_left branch bs st.
Proof.
  revert st. induction bs as [| b bs IH]; intros st; cbn; [reflexivity |].
  rewrite handle_byte_branch. apply IH.
Qed.

(** Without a selection the amended branch is the branch of the claim. *)
Lemma overwrite_without_selection (c : N) (self : REPLPane.t)
    (tc : QTextCursor) :
  hasSelection tc = false ->
  overwrite c (self, tc) = overwrite_character c (self, tc).
Proof.
  intros Hsel. unfold overwrite, overwrite_character. rewrite Hsel.
  assert (selectionStart tc = position tc) as ->; [| reflexivity].
  unfold selectionStart. unfold hasSelection in Hsel.
  apply negb_false_iff, Nat.eqb_eq in Hsel. lia.
Qed.

Lemma branch_unfold (st : REPLPane.t * QTextCursor) (b : byte) :
  branch st b
  = if (Byte.to_N b =? 8)%N then cursor_left st
    else if (Byte.to_N b =? 13)%N then st
    else overwrite (Byte.to_N b) st.
Proof.
  unfold branch. destruct (Byte.to_N b) as [| p]; [reflexivity |].
  do 4 (destruct p as [p | p |]; try reflexivity).
Qed.

Lemma branch_as_claimed_unfold (st : REPLPane.t * QTextCursor) (b : byte) :
  branch_as_claimed st b
  = if (Byte.to_N b =? 8)%N then cursor_left st
    else if (Byte.to_N b =? 13)%N then st
    else overwrite_character (Byte.to_N b) st.
Proof.
  unfold branch_as_claimed. destruct (Byte.to_N b) as [| p]; [reflexivity |].
  do 4 (destruct p as [p | p |]; try reflexivity).
Qed.

Lemma cursor_at_plain (p : nat) : hasSelection (cursor_at p) = false.
Proof. unfold hasSelection. cbn. rewrite Nat.eqb_refl. reflexivity. Qed.

Lemma branch_without_selection (st : REPLPane.t * QTextCursor) (b : byte) :
  hasSelection (snd st) = false ->
  branch st b = branch_as_claimed st b
  /\ hasSelection (snd (branch st b)) = false.
Proof.
  destruct st as [self tc]. cbn [snd]. intros Hsel.
  rewrite branch_unfold, branch_as_claimed_unfold.
  rewrite (overwrite_without_selection _ _ _ Hsel).
  destruct (Byte.to_N b =? 8)%N; [split; [reflexivity | apply cursor_at_plain] |].
  destruct (Byte.to_N b =? 13)%N; [split; [reflexivity | exact Hsel] |].
  split; [reflexivity | apply cursor_at_plain].
Qed.


End IncomingBytes.



(** Over a short line the cursor keeps the column it started in: from
    the fifth column of the first line, past an empty line, it reaches the
    fifth column of the third. *)
Example while_down_keeps_column :
  Stream.start
    (REPLPane.set_text
       [97; 98; 99; 100; 101; 102; 10; 10; 117; 118; 119; 120; 121; 122]%N
       5 REPLPane.QTextEdit_new)
  = 13%nat.
Proof. reflexivity. Qed.

Example process_bytes_two_lines :
  let self :=
    REPLPane.process_bytes [x61; x08; x62; x63; x0d; x0a] Sample.two_lines in
  REPLPane.document self = [62; 62; 62; 32; 49; 10; 62; 62; 98; 99; 10]%N
  /\ REPLPane.cursor self = 11%nat.
Proof. split; reflexivity. Qed.


(* ===================================================================== *)
(** * Properties of the project selector                                  *)
(* ===================================================================== *)

Section Selector.

Import Py Qt ProjectSelector.

Lemma get_project_accepted (self : ProjectSelector.t) (item : ProjectItem) :
  result self = Accepted ->
  currentItem self = Some item ->
  get_project self =
    Returned self
      (<["path" := path item]>
         (<["default" := default item]>
            (<["name" := project_name self]> ∅))).
Proof.
  intros Hres Hitem. unfold get_project. rewrite Hres, Hitem. reflexivity.
Qed.

Lemma get_project_rejected (self : ProjectSelector.t) :
  result self <> Accepted ->
  get_project self = Raised self (RuntimeError "New project rejected.").
Proof.
  intros Hres. unfold get_project.
  destruct (Z.eqb_spec (result self) Accepted); [contradiction | reflexivity].
Qed.

Lemma exec_result (u : interaction) (self : ProjectSelector.t) :
  result (exec u self) = if accepts u then Accepted else Rejected.
Proof. reflexivity. Qed.

End Selector.

(** C5, amended. On a dialog whose result is [Accepted] and whose list has
    a current item, [get_project] returns a record with exactly the keys
    [path], [default] and [name], the first two taken from the current
    template item and the third from the name field; on a dialog whose
    result is [Accepted] and whose list has no current item it raises
    [AttributeError]; on any other result it raises [RuntimeError].
    [Window.get_template] returns [None] whenever the user does not accept
    the dialog. *)
Theorem C5_get_project_accepted_or_raises (self : ProjectSelector.t) :
  (forall item,
     ProjectSelector.result self = Qt.Accepted ->
     ProjectSelector.currentItem self = Some item ->
     exists project : gmap string string,
       ProjectSelector.get_project self = Py.Returned self project
       /\ dom project = {["path"; "default"; "name"]}
       /\ project !! "path" = Some (ProjectSelector.path item)
       /\ project !! "default" = Some (ProjectSelector.default item)
       /\ project !! "name" = Some (ProjectSelector.project_name self))
  /\ (ProjectSelector.result self = Qt.Accepted ->
      ProjectSelector.currentItem self = None ->
      exists msg,
        ProjectSelector.get_project self
          = Py.Raised self (Py.AttributeError msg))
  /\ (ProjectSelector.result self <> Qt.Accepted ->
      exists msg,
        ProjectSelector.get_project self
          = Py.Raised self (Py.RuntimeError msg))
  /\ (forall folder templates u,
        ProjectSelector.accepts u = false ->
        exists selector,
          Window.get_template folder templates u
            = Py.Returned selector None).
Proof.
  split; [| split; [| split]].
  - intros item Hres Hitem. eexists. split.
    + apply get_project_accepted; eassumption.
    + split; [| split; [| split]].
      * rewrite !dom_insert_L, dom_empty_L. set_solver.
      * reflexivity.
      * reflexivity.
      * reflexivity.
  - intros Hres Hitem. unfold ProjectSelector.get_project.
    rewrite Hres, Hitem. eexists. reflexivity.
  - intros Hres. eexists. apply get_project_rejected. exact Hres.
  - intros folder templates u Hu. unfold Window.get_template.
    rewrite exec_result, Hu. cbn. eexists. reflexivity.
Qed.

Lemma C5_get_project_accepted_or_raises_witness :
  exists project : gmap string string,
    ProjectSelector.get_project Sample.accepted_dialog
      = Py.Returned Sample.accepted_dialog project
    /\ project !! "path" = Some "pygamezero"
    /\ project !! "name" = Some "game".
Proof.
  destruct (C5_get_project_accepted_or_raises Sample.accepted_dialog)
    as [Hacc _].
  destruct (Hacc {| ProjectSelector.name := "Pygame Zero";
                    ProjectSelector.icon := "pygame";
                    ProjectSelector.path := "pygamezero";
                    ProjectSelector.default := "WIDTH = 200" |}
              eq_refl eq_refl)
    as (project & Hrun & _ & Hpath & _ & Hname).
  exists project. split; [exact Hrun |]. split; [exact Hpath | exact Hname].
Defined.

(** A selector set up without templates has no current item: accepted,
    its result is [Accepted], and [get_project] neither returns a record
    nor raises [RuntimeError]. *)
Lemma C5_accepted_without_current_item :
  ProjectSelector.result Sample.accepted_empty_dialog = Qt.Accepted
  /\ (exists msg,
        ProjectSelector.get_project Sample.accepted_empty_dialog
        = Py.Raised Sample.accepted_empty_dialog (Py.AttributeError msg))
  /\ (forall project,
        ProjectSelector.get_project Sample.accepted_empty_dialog
        <> Py.Returned Sample.accepted_empty_dialog project)
  /\ (forall msg,
        ProjectSelector.get_project Sample.accepted_empty_dialog
        <> Py.Raised Sample.accepted_empty_dialog (Py.RuntimeError msg)).
Proof.
  split; [reflexivity |]. split; [eexists; reflexivity |].
  split; intros x H; discriminate H.
Qed.

Example get_template_cancelled :
  Window.get_template "/home" Sample.templates Sample.cancel
  = Py.Returned
      (ProjectSelector.exec Sample.cancel
         (ProjectSelector.setup Sample.templates ProjectSelector.QDialog_new))
      None.
Proof. reflexivity. Qed.

(* ===================================================================== *)
(** * Properties of the editor tab label                                  *)
(* ===================================================================== *)

Section TabLabel.

Import EditorPane Described.

Lemma append_cons (c : ascii) (s1 s2 : string) :
  (String c s1 ++ s2)%string = String c (s1 ++ s2)%string.
Proof. reflexivity. Qed.

Lemma append_empty_l (s : string) : ("" ++ s)%string = s.
Proof. reflexivity. Qed.

Lemma append_empty_r (s : string) : (s ++ "")%string = s.
Proof.
  induction s as [| c s IH]; [reflexivity |].
  rewrite append_cons, IH. reflexivity.
Qed.

Lemma length_append (s1 s2 : string) :
  String.length (s1 ++ s2) = (String.length s1 + String.length s2)%nat.
Proof.
  induction s1 as [| c s1 IH]; [reflexivity |].
  rewrite append_cons. cbn. rewrite IH. reflexivity.
Qed.

(** [basename] keeps the part of the path behind its last slash: the path
    is a directory part, empty or ending in a slash, followed by a base
    name without a slash. *)
Lemma basename_split (p : string) :
  exists dir,
    p = (dir ++ basename p)%string
    /\ has_slash (basename p) = false
    /\ (dir = "" \/ exists d, dir = (d ++ "/")%string).
Proof.
  induction p as [| c rest (dir & Hp & Hbase & Hdir)].
  - exists ""%string. cbn. auto.
  - cbn [basename]. destruct (has_slash rest) eqn:Hrest.
    + exists (String c dir). rewrite append_cons.
      split; [congruence |]. split; [exact Hbase |]. right.
      destruct Hdir as [-> | [d ->]].
      * (* the rest has a slash, so its directory part is not empty *)
        rewrite append_empty_l in Hp. rewrite <- Hp in Hbase. congruence.
      * exists (String c d). reflexivity.
    + destruct (Ascii.eqb_spec c "/") as [-> | Hc].
      * exists "/"%string. split; [reflexivity |].
        split; [exact Hrest |]. right. exists ""%string. reflexivity.
      * exists ""%string. split; [reflexivity |]. split; [| auto].
        cbn [has_slash].
        destruct (Ascii.eqb_spec c "/"); [contradiction | exact Hrest].
Qed.

Lemma label_described (self : EditorPane.t) :
  label self
  = (tab_name (path self) ++ modified_mark (isModified self))%string.
Proof.
  unfold label, tab_name, modified_mark.
  destruct (path self) as [[| c rest] |]; cbn [truthy default];
    destruct (isModified self); try reflexivity;
    symmetry; apply append_empty_r.
Qed.

Lemma new_unmodified (p : option string) (s : string) :
  isModified (new p s) = false /\ path (new p s) = p.
Proof. split; reflexivity. Qed.

End TabLabel.

(** C9. The label of an editor pane is the base name of its path when the
    path is non-empty and [untitled] otherwise, followed by the suffix
    [ *] exactly when the pane is modified; a freshly constructed pane is
    unmodified, so its label is that name without the suffix. *)
Theorem C9_label_name_and_modified_mark (self : EditorPane.t) :
  EditorPane.label self
  = (Described.tab_name (EditorPane.path self)
     ++ Described.modified_mark (EditorPane.isModified self))%string
  /\ (EditorPane.label self
      = (Described.tab_name (EditorPane.path self) ++ " *")%string
      <-> EditorPane.isModified self = true)
  /\ (forall path text,
        EditorPane.isModified (EditorPane.new path text) = false
        /\ EditorPane.label (EditorPane.new path text)
           = Described.tab_name path).
Proof.
  split; [apply label_described |]. split.
  - rewrite label_described. unfold Described.modified_mark.
    destruct (EditorPane.isModified self).
    + split; reflexivity.
    + split; [| discriminate]. intros H.
      apply (f_equal String.length) in H.
      rewrite !length_append in H. cbn in H. lia.
  - intros path text. split; [reflexivity |].
    rewrite label_described.
    destruct (new_unmodified path text) as [-> ->].
    apply append_empty_r.
Qed.

Example label_samples :
  EditorPane.label (EditorPane.new (Some "/home/mu/blink.py") "") = "blink.py"
  /\ EditorPane.label (EditorPane.new None "") = "untitled"
  /\ EditorPane.label (EditorPane.new (Some "") "") = "untitled"
  /\ EditorPane.label
       (EditorPane.setModified true (EditorPane.new (Some "a/b/") ""))
     = " *".
Proof. repeat split; reflexivity. Qed.

(* ===================================================================== *)
(** * Properties of the modal message boxes                               *)
(* ===================================================================== *)

Section MessageBoxes.

Import Py Qt Window.

Variable members : gset string.
Variable message : string.
Variables information icon : option string.
Variable choice : Z.

Lemma icon_test_fails :
  Described.no_icon_attribute members icon ->
  truthy icon && hasattr members (default "" icon) = false.
Proof.
  intros [-> | (name & -> & Hname)]; [reflexivity |].
  change (default "" (Some name)) with name.
  rewrite Hname. apply andb_false_r.
Qed.

Lemma show_message_warning :
  Described.no_icon_attribute members icon ->
  exists box,
    show_message members message information icon choice = Returned box tt
    /\ Window.icon box = Some (icon_attribute Warning).
Proof.
  intros H. unfold show_message, bind, call, ret.
  rewrite (icon_test_fails H).
  destruct (truthy information); eexists; split; reflexivity.
Qed.

Lemma show_confirmation_warning :
  Described.no_icon_attribute members icon ->
  exists box,
    show_confirmation members message information icon choice
      = Returned box choice
    /\ Window.icon box = Some (icon_attribute Warning).
Proof.
  intros H. unfold show_confirmation, bind, call, ret.
  rewrite (icon_test_fails H).
  destruct (truthy information); eexists; split; reflexivity.
Qed.

(** Unless the icon names an attribute that is no icon, the confirmation
    is shown once, with the two buttons and the default set, and the user's
    answer comes back. *)
Lemma show_confirmation_buttons :
  Described.names_no_icon members icon = false ->
  exists box,
    show_confirmation members message information icon choice
      = Returned box choice
    /\ standardButtons box = Z.lor Cancel Ok
    /\ defaultButton box = Some Cancel
    /\ shown box = 1%nat.
Proof.
  unfold Described.names_no_icon, show_confirmation, bind, call, ret,
    getattr, hasattr, setIcon, raise.
  destruct (truthy information);
    destruct (truthy icon); cbn [andb];
    destruct (box_attribute members (default "" icon)) as [[i | name] |];
    intros H; try discriminate H;
    eexists; (split; [reflexivity |]); cbn; auto.
Qed.

(** When it does, [setIcon] raises before the box is shown. *)
Lemma show_raises :
  Described.names_no_icon members icon = true ->
  (exists box,
     show_message members message information icon choice
       = Raised box TypeError
     /\ shown box = O)
  /\ (exists box,
        show_confirmation members message information icon choice
          = Raised box TypeError
        /\ standardButtons box = Ok
        /\ defaultButton box = None
        /\ shown box = O).
Proof.
  unfold Described.names_no_icon, show_message, show_confirmation, bind,
    call, ret, getattr, hasattr, setIcon, raise.
  destruct (truthy icon); cbn [andb]; [| discriminate].
  destruct (box_attribute members (default "" icon)) as [[i | name] |];
    intros H; try discriminate H;
    destruct (truthy information);
    split; eexists; repeat split.
Qed.

End MessageBoxes.

(** The buttons of [Cancel | Ok]: bit [n] is set exactly for the two
    flags. *)
Lemma cancel_or_ok_bits (n : Z) :
  Z.testbit (Z.lor Window.Cancel Window.Ok) n = true
  <-> 2 ^ n = Window.Cancel \/ 2 ^ n = Window.Ok.
Proof.
  unfold Window.Cancel, Window.Ok.
  destruct (Z.lt_ge_cases n 0) as [Hneg | Hpos].
  - rewrite Z.testbit_neg_r by lia. rewrite Z.pow_neg_r by lia.
    split; [discriminate | intros [H | H]; discriminate].
  - destruct (Z.lt_ge_cases n 23) as [Hsmall | Hbig].
    + assert (Hn : In n (map Z.of_nat (seq 0 23))).
      { apply in_map_iff. exists (Z.to_nat n). split; [lia |].
        apply in_seq. lia. }
      cbn in Hn.
      repeat (destruct Hn as [<- | Hn];
              [cbn; split;
               [try discriminate; auto
               | intros [H | H]; try discriminate; reflexivity] |]).
      destruct Hn.
    + change (Z.lor 4194304 1024) with 4195328.
      assert (Hlog : Z.log2 4195328 = 22) by reflexivity.
      rewrite Z.bits_above_log2 by lia.
      split; [discriminate |].
      assert (2 ^ 23 <= 2 ^ n) by (apply Z.pow_le_mono_r; lia).
      intros [H' | H']; rewrite H' in H; cbn in H; lia.
Qed.

(** C6, amended. In [show_message] and in [show_confirmation], an icon
    argument that is absent, or that is not the name of an attribute of the
    message box, gives the box the [Warning] icon.  Unless the icon
    argument names an attribute of the message box that is not one of its
    icons, [show_confirmation] shows the box with exactly the [Cancel] and
    [Ok] standard buttons, [Cancel] being the default one, and returns the
    result of the dialog.  When the icon argument names such an attribute,
    both methods raise [TypeError] in [setIcon]: the box is not shown, and
    [show_confirmation] has not set its buttons. *)
Theorem C6_message_box_icon_and_buttons (members : gset string)
    (message : string) (information icon : option string) (choice : Z) :
  (Described.no_icon_attribute members icon ->
   (exists box,
      Window.show_message members message information icon choice
        = Py.Returned box tt
      /\ Window.icon box = Some (Window.icon_attribute Window.Warning))
   /\ (exists box,
        Window.show_confirmation members message information icon choice
          = Py.Returned box choice
        /\ Window.icon box = Some (Window.icon_attribute Window.Warning)))
  /\ (Described.names_no_icon members icon = false ->
      exists box,
        Window.show_confirmation members message information icon choice
          = Py.Returned box choice
        /\ Window.standardButtons box = Z.lor Window.Cancel Window.Ok
        /\ (forall n,
              Z.testbit (Window.standardButtons box) n = true
              <-> 2 ^ n = Window.Cancel \/ 2 ^ n = Window.Ok)
        /\ Window.defaultButton box = Some Window.Cancel
        /\ Window.shown box = 1%nat)
  /\ (Described.names_no_icon members icon = true ->
      (exists box,
         Window.show_message members message information icon choice
           = Py.Raised box Py.TypeError
         /\ Window.shown box = O)
      /\ (exists box,
            Window.show_confirmation members message information icon choice
              = Py.Raised box Py.TypeError
            /\ Window.standardButtons box = Window.Ok
            /\ Window.defaultButton box = None
            /\ Window.shown box = O)).
Proof.
  split; [| split].
  - intros H. split.
    + apply show_message_warning. exact H.
    + apply show_confirmation_warning. exact H.
  - intros H.
    destruct (show_confirmation_buttons members message information icon
                choice H) as (box & Hrun & Hb & Hd & Hs).
    exists box. split; [exact Hrun |]. split; [exact Hb |].
    split; [| auto].
    intros n. rewrite Hb. apply cancel_or_ok_bits.
  - apply show_raises.
Qed.

Lemma C6_message_box_icon_and_buttons_witness :
  exists box,
    Window.show_message {["exec"; "setText"]} "Save?" None (Some "Sparkle") 0
      = Py.Returned box tt
    /\ Window.icon box = Some (Window.icon_attribute Window.Warning).
Proof.
  destruct (C6_message_box_icon_and_buttons
              {["exec"; "setText"]} "Save?" None (Some "Sparkle") 0)
    as [Hicon _].
  destruct Hicon as [Hmsg _].
  - right. exists "Sparkle"%string. split; reflexivity.
  - exact Hmsg.
Defined.

(** [Ok] is an attribute of every message box, a standard button: with it
    as the icon argument [show_confirmation] does not offer its two
    buttons and returns no result. *)
Lemma C6_icon_names_a_button :
  exists box,
    Window.show_confirmation {["Ok"; "setText"]} "Quit?" None (Some "Ok")
      Window.Cancel
    = Py.Raised box Py.TypeError
    /\ Window.standardButtons box <> Z.lor Window.Cancel Window.Ok
    /\ Window.defaultButton box = None
    /\ Window.shown box = O.
Proof.
  eexists. split; [reflexivity |]. split; [| split; reflexivity].
  discriminate.
Qed.

Example show_confirmation_question :
  exists box,
    Window.show_confirmation ∅ "Quit?" (Some "Unsaved work.")
      (Some "Question") Window.Ok
      = Py.Returned box Window.Ok
    /\ Window.icon box = Some (Window.icon_attribute Window.Question)
    /\ Window.informativeText box = Some "Unsaved work."%string.
Proof. eexists. repeat split. Qed.

(* ===================================================================== *)
(** * Properties of the web view accessors                                *)
(* ===================================================================== *)

Section Accessors.

Import Py Qt Window.

(** The getter of [webview_right] uses up every frame it is allowed. *)
Lemma webview_right_exhausts (depth : nat) (self : Window.t) (calls : nat) :
  webview_right depth self calls = Raised (depth + calls)%nat RecursionError.
Proof.
  revert calls. induction depth as [| depth IH]; intros calls.
  - reflexivity.
  - cbn [webview_right]. unfold bind, call, try_except_AttributeError.
    rewrite IH. f_equal. lia.
Qed.

Lemma webview_left_displayed (self : Window.t) (calls : nat) :
  webview_left self calls
  = Returned (S calls) (Described.displayed (_webview_left self)).
Proof.
  unfold webview_left, bind, call, try_except_AttributeError, getattr.
  destruct (_webview_left self) as [[pane |] |]; reflexivity.
Qed.

End Accessors.

(** C8. Reading [webview_right] never returns a value: the getter reads
    the same property again, so whatever number of nested calls the
    interpreter allows, every one of them is used up and the access ends
    with [RecursionError]; in particular it does not return [None] when no
    right web view is displayed.  Reading [webview_left] returns the pane
    when one is displayed and [None] otherwise. *)
Theorem C8_webview_right_never_returns (self : Window.t)
    (depth calls : nat) :
  Window.webview_right depth self calls
    = Py.Raised (depth + calls)%nat Py.RecursionError
  /\ (forall s v, Window.webview_right depth self calls <> Py.Returned s v)
  /\ Window.webview_left self calls
     = Py.Returned (S calls) (Described.displayed (Window._webview_left self))
  /\ (Window._webview_left self = None ->
      Window.webview_left self calls = Py.Returned (S calls) None).
Proof.
  split; [apply webview_right_exhausts |]. split.
  - intros s v. rewrite webview_right_exhausts. discriminate.
  - split; [apply webview_left_displayed |].
    intros H. rewrite webview_left_displayed, H. reflexivity.
Qed.


(* ===================================================================== *)
(** * Properties of the web view zoom                                     *)
(* ===================================================================== *)

Section Digits.

Lemma digits2_pos_size (p : positive) : digits2_pos p = Pos.size p.
Proof. induction p as [p IH | p IH |]; cbn; congruence. Qed.

(** The mantissa [p] has [d] binary digits: [2^(d-1) <= p < 2^d]. *)
Lemma digits2_pos_bounds (p : positive) :
  2 ^ (Zpos (digits2_pos p) - 1) <= Zpos p < 2 ^ Zpos (digits2_pos p).
Proof.
  rewrite digits2_pos_size. split.
  - pose proof (Pos.size_le p) as H.
    assert (Hp : 2 ^ Zpos (Pos.size p) <= 2 * Zpos p).
    { rewrite <- Pos2Z.inj_pow. change 2 with (Zpos 2) at 1. lia. }
    replace (Zpos (Pos.size p)) with (Zpos (Pos.size p) - 1 + 1) in Hp by lia.
    rewrite Z.pow_add_r in Hp by lia. lia.
  - pose proof (Pos.size_gt p) as H.
    rewrite <- Pos2Z.inj_pow. lia.
Qed.

Lemma digits2_pos_gt (p : positive) (k : Z) :
  0 <= k -> 2 ^ k <= Zpos p -> k < Zpos (digits2_pos p).
Proof.
  intros Hk Hp. destruct (digits2_pos_bounds p) as [_ Hlt].
  destruct (Z.lt_ge_cases k (Zpos (digits2_pos p))) as [H | H]; [exact H |].
  assert (2 ^ Zpos (digits2_pos p) <= 2 ^ k) by (apply Z.pow_le_mono_r; lia).
  lia.
Qed.

Lemma digits2_pos_le (p : positive) (k : Z) :
  Zpos p < 2 ^ k -> Zpos (digits2_pos p) <= k.
Proof.
  intros Hp. destruct (digits2_pos_bounds p) as [Hge _].
  destruct (Z.lt_ge_cases k (Zpos (digits2_pos p))) as [H | H]; [| lia].
  assert (2 ^ k <= 2 ^ (Zpos (digits2_pos p) - 1))
    by (apply Z.pow_le_mono_r; lia).
  lia.
Qed.

End Digits.

Section Shift.

Lemma shr_1_m (r : shr_record) :
  0 <= shr_m r -> shr_m (shr_1 r) = shr_m r / 2.
Proof.
  destruct r as [m r s]. cbn [shr_m]. intros Hm.
  rewrite <- Z.div2_div.
  destruct m as [| [p | p |] |]; try reflexivity. lia.
Qed.

Lemma pow2_xO (p : positive) : 2 ^ Zpos p~0 = 2 ^ Zpos p * 2 ^ Zpos p.
Proof.
  replace (Zpos p~0) with (Zpos p + Zpos p) by lia.
  rewrite Z.pow_add_r by lia. reflexivity.
Qed.

Lemma pow2_xI (p : positive) : 2 ^ Zpos p~1 = 2 * (2 ^ Zpos p * 2 ^ Zpos p).
Proof.
  replace (Zpos p~1) with (1 + (Zpos p + Zpos p)) by lia.
  rewrite !Z.pow_add_r by lia. reflexivity.
Qed.

Lemma iter_pos_shr_m (p : positive) (r : shr_record) :
  0 <= shr_m r ->
  shr_m (SpecFloat.iter_pos shr_1 p r) = shr_m r / 2 ^ Zpos p.
Proof.
  revert r. induction p as [p IH | p IH |]; intros r Hr;
    cbn [SpecFloat.iter_pos].
  - assert (H1 : 0 <= shr_m (shr_1 r)).
    { rewrite shr_1_m by exact Hr. apply Z.div_pos; lia. }
    assert (H2 : 0 <= shr_m (SpecFloat.iter_pos shr_1 p (shr_1 r))).
    { rewrite IH by exact H1. apply Z.div_pos; [exact H1 | lia]. }
    rewrite IH by exact H2. rewrite IH by exact H1. rewrite shr_1_m by exact Hr.
    rewrite pow2_xI. rewrite !Z.div_div by lia. reflexivity.
  - assert (H2 : 0 <= shr_m (SpecFloat.iter_pos shr_1 p r)).
    { rewrite IH by exact Hr. apply Z.div_pos; [exact Hr | lia]. }
    rewrite IH by exact H2. rewrite IH by exact Hr.
    rewrite pow2_xO. rewrite !Z.div_div by lia. reflexivity.
  - rewrite shr_1_m by exact Hr. reflexivity.
Qed.

Lemma round_nearest_even_bounds (m : Z) (l : location) :
  m <= round_nearest_even m l <= m + 1.
Proof.
  destruct l as [| []]; cbn; try lia. destruct (Z.even m); lia.
Qed.

End Shift.

Section Rounding.

Lemma digits2_pos_unique (p : positive) (k : Z) :
  0 <= k -> 2 ^ k <= Zpos p < 2 ^ (k + 1) -> Zpos (digits2_pos p) = k + 1.
Proof.
  intros Hk [H1 H2].
  pose proof (digits2_pos_gt p k Hk H1).
  pose proof (digits2_pos_le p (k + 1) H2). lia.
Qed.

Lemma fexp_normal (x : Z) : -1021 <= x -> fexp 53 1024 x = x - 53.
Proof. intros H. unfold fexp, emin. lia. Qed.

(** A mantissa with too many digits is shifted right by the excess. *)
Lemma shr_fexp_excess (m n : positive) (e : Z) :
  Zpos n = Zpos (digits2_pos m) - 53 ->
  -1074 <= e + Zpos n ->
  shr_fexp 53 1024 (Zpos m) e loc_Exact
  = (SpecFloat.iter_pos shr_1 n
       {| shr_m := Zpos m; shr_r := false; shr_s := false |},
     e + Zpos n).
Proof.
  intros Hn He. unfold shr_fexp. cbn [Zdigits2 shr_record_of_loc].
  rewrite fexp_normal by lia.
  replace (Zpos (digits2_pos m) + e - 53 - e) with (Zpos n) by lia.
  reflexivity.
Qed.

(** A mantissa of 53 digits stays as it is. *)
Lemma shr_fexp_canonical (m : positive) (e : Z) :
  Zpos (digits2_pos m) = 53 ->
  -1074 <= e ->
  shr_fexp 53 1024 (Zpos m) e loc_Exact
  = ({| shr_m := Zpos m; shr_r := false; shr_s := false |}, e).
Proof.
  intros Hm He. unfold shr_fexp. cbn [Zdigits2 shr_record_of_loc].
  rewrite Hm. rewrite fexp_normal by lia.
  replace (53 + e - 53 - e) with 0 by lia.
  reflexivity.
Qed.

(** Rounding a positive number with more than 53 digits, in the range of
    the normal numbers: the result is a normal number whose exponent is
    the one of the leading digit, or one more when the mantissa was rounded
    up to the next power of two. *)
Lemma binary_round_normal (M : positive) (e : Z) :
  54 <= Zpos (digits2_pos M) ->
  -1074 <= e + Zpos (digits2_pos M) - 53 ->
  e + Zpos (digits2_pos M) - 52 <= 971 ->
  exists m' e',
    binary_round 53 1024 false M e = S754_finite false m' e'
    /\ Zpos (digits2_pos m') = 53
    /\ (e' = e + Zpos (digits2_pos M) - 53
        \/ (e' = e + Zpos (digits2_pos M) - 52 /\ m' = WebViewPane.two52)).
Proof.
  intros Hd Hlo Hhi.
  destruct (Zpos (digits2_pos M) - 53) as [| n | n] eqn:Hn; try lia.
  unfold binary_round.
  rewrite fexp_normal by lia.
  unfold shl_align.
  replace (Zpos (digits2_pos M) + e - 53 - e) with (Zpos n) by lia.
  unfold binary_round_aux.
  rewrite (shr_fexp_excess M n e) by lia.
  set (r := SpecFloat.iter_pos shr_1 n _).
  assert (Hq : shr_m r = Zpos M / 2 ^ Zpos n).
  { unfold r. rewrite iter_pos_shr_m by (cbn; lia). reflexivity. }
  assert (Hbounds : 2 ^ 52 <= shr_m r < 2 ^ 53).
  { rewrite Hq. destruct (digits2_pos_bounds M) as [H1 H2].
    replace (Zpos (digits2_pos M) - 1) with (52 + Zpos n) in H1 by lia.
    replace (Zpos (digits2_pos M)) with (53 + Zpos n) in H2 by lia.
    rewrite Z.pow_add_r in H1, H2 by lia.
    assert (0 < 2 ^ Zpos n) by (apply Z.pow_pos_nonneg; lia).
    split.
    - apply Z.div_le_lower_bound; lia.
    - apply Z.div_lt_upper_bound; lia. }
  pose proof (round_nearest_even_bounds (shr_m r) (loc_of_shr_record r))
    as Hrne.
  set (m1 := round_nearest_even (shr_m r) (loc_of_shr_record r)) in *.
  change (2 ^ 52) with 4503599627370496 in Hbounds.
  change (2 ^ 53) with 9007199254740992 in Hbounds.
  destruct m1 as [| p1 | p1]; try lia.
  destruct (Z.eq_dec (Zpos p1) 9007199254740992) as [Heq | Hne].
  - injection Heq as ->.
    exists WebViewPane.two52, (e + Zpos n + 1). split; [| split].
    + unfold shr_fexp. cbn [Zdigits2 shr_record_of_loc].
      change (Zpos (digits2_pos 9007199254740992)) with 54.
      rewrite fexp_normal by lia.
      replace (54 + (e + Zpos n) - 53 - (e + Zpos n)) with 1 by lia.
      cbn [shr SpecFloat.iter_pos shr_1 shr_m].
      replace (e + Zpos n + 1 <=? 1024 - 53) with true
        by (symmetry; apply Z.leb_le; lia).
      reflexivity.
    + reflexivity.
    + right. split; [lia | reflexivity].
  - assert (Hp1 : Zpos (digits2_pos p1) = 53).
    { apply (digits2_pos_unique p1 52); [lia |].
      change (2 ^ 52) with 4503599627370496.
      change (2 ^ (52 + 1)) with 9007199254740992. lia. }
    exists p1, (e + Zpos n). split; [| split].
    + rewrite shr_fexp_canonical by (assumption || lia).
      cbn [shr_m].
      replace (e + Zpos n <=? 1024 - 53) with true
        by (symmetry; apply Z.leb_le; lia).
      reflexivity.
    + exact Hp1.
    + left. lia.
Qed.

End Rounding.

Section Zoom.
Import WebViewPane Described.

(** Order of two positive finite numbers in canonical form. *)
Lemma leb_finite (m1 m2 : positive) (e1 e2 : Z) :
  leb (S754_finite false m1 e1) (S754_finite false m2 e2) = true
  <-> e1 < e2 \/ (e1 = e2 /\ Zpos m1 <= Zpos m2).
Proof.
  unfold leb, SFleb. cbn [SFcompare].
  change (Pos.compare_cont Eq m1 m2) with (Pos.compare m1 m2).
  destruct (Z.compare_spec e1 e2) as [He | He | He].
  - destruct (Pos.compare_spec m1 m2) as [Hm | Hm | Hm];
      (split; [intros H; try discriminate; right; split; lia | ]);
      intros [H | [_ H]]; try reflexivity; lia.
  - split; [intros _; left; exact He | reflexivity].
  - split; [discriminate | intros [H | [H _]]; lia].
Qed.

(** A well-formed number between 0.5 and 2.0 has a mantissa of 53 digits
    and one of three exponents. *)
Lemma in_range_inv (z : float) :
  valid z = true -> in_range z = true ->
  exists m e,
    z = S754_finite false m e
    /\ Zpos (digits2_pos m) = 53
    /\ (e = -53 \/ e = -52 \/ (e = -51 /\ m = two52)).
Proof.
  unfold in_range. intros Hvalid Hrange.
  apply andb_true_iff in Hrange as [Hlo Hhi].
  destruct z as [s | s | | s m e];
    try (destruct s; discriminate); try discriminate.
  destruct s; [discriminate |].
  unfold f0_5, two52 in Hlo. unfold f2_0, two52 in Hhi.
  apply leb_finite in Hlo, Hhi.
  unfold valid, prec, emax in Hvalid. cbn [valid_binary] in Hvalid.
  unfold bounded, canonical_mantissa in Hvalid.
  apply andb_true_iff in Hvalid as [Hcan _].
  apply Z.eqb_eq in Hcan. unfold fexp, emin in Hcan.
  exists m, e. split; [reflexivity |]. split; [lia |].
  destruct (digits2_pos_bounds m) as [Hge _].
  assert (Hd : Zpos (digits2_pos m) = 53) by lia.
  rewrite Hd in Hge. change (2 ^ (53 - 1)) with 4503599627370496 in Hge.
  destruct (Z.eq_dec e (-51)) as [-> | Hne]; [| lia].
  right. right. split; [reflexivity |].
  unfold two52. lia.
Qed.

Lemma mantissa_53 (m : positive) :
  Zpos (digits2_pos m) = 53 ->
  4503599627370496 <= Zpos m < 9007199254740992.
Proof.
  intros Hm. pose proof (digits2_pos_bounds m) as H. rewrite Hm in H.
  exact H.
Qed.

(** A normal number with exponent at least -53 is at least 0.5. *)
Lemma normal_ge_half (m : positive) (e : Z) :
  Zpos (digits2_pos m) = 53 -> -53 <= e ->
  leb f0_5 (S754_finite false m e) = true.
Proof.
  intros Hm He. apply leb_finite. unfold two52.
  pose proof (mantissa_53 m Hm). lia.
Qed.

(** A normal number with exponent below -51, or equal to [2^52 * 2^-51],
    is at most 2.0. *)
Lemma normal_le_two (m : positive) (e : Z) :
  e <= -52 \/ (e = -51 /\ m = two52) ->
  leb (S754_finite false m e) f2_0 = true.
Proof.
  intros H. apply leb_finite. unfold two52 in *. lia.
Qed.

Lemma normal_valid (m : positive) (e : Z) :
  Zpos (digits2_pos m) = 53 -> -1074 <= e <= 971 ->
  valid (S754_finite false m e) = true.
Proof.
  intros Hm He. unfold valid, prec, emax. cbn [valid_binary].
  unfold bounded, canonical_mantissa. rewrite Hm.
  rewrite fexp_normal by lia.
  apply andb_true_iff. split; [apply Z.eqb_eq | apply Z.leb_le]; lia.
Qed.

Lemma ltb_leb (x y : float) : ltb x y = true -> leb x y = true.
Proof. unfold ltb, leb, SFltb, SFleb. destruct (SFcompare x y) as [[] |]; auto. Qed.

(** The sum and the difference of the mantissas, aligned at exponent -56,
    the exponent of 0.1. *)
Lemma add_aligned (m : positive) (e : Z) (k : positive) :
  -56 - e = Zneg k ->
  add (S754_finite false m e) f0_1
  = binary_round 53 1024 false (Pos.iter xO m k + 7205759403792794) (-56).
Proof.
  intros Hk. unfold add, SFadd, f0_1, prec, emax.
  replace (Z.min e (-56)) with (-56) by lia.
  unfold shl_align. rewrite Hk. change (-56 - -56) with 0.
  cbn [fst cond_Zopp]. rewrite <- Pos2Z.inj_add. reflexivity.
Qed.

Lemma sub_aligned (m : positive) (e : Z) (k : positive) :
  -56 - e = Zneg k ->
  (7205759403792794 < Pos.iter xO m k)%positive ->
  sub (S754_finite false m e) f0_1
  = binary_round 53 1024 false (Pos.iter xO m k - 7205759403792794) (-56).
Proof.
  intros Hk Hlt. unfold sub, SFsub, f0_1, prec, emax.
  replace (Z.min e (-56)) with (-56) by lia.
  unfold shl_align. rewrite Hk. change (-56 - -56) with 0.
  cbn [fst cond_Zopp]. rewrite <- Pos2Z.inj_sub by exact Hlt. reflexivity.
Qed.

Lemma pow2_values :
  2 ^ 54 = 18014398509481984 /\ 2 ^ 55 = 36028797018963968
  /\ 2 ^ 56 = 72057594037927936 /\ 2 ^ 57 = 144115188075855872
  /\ 2 ^ 58 = 288230376151711744.
Proof. repeat split; reflexivity. Qed.

(** Adding 0.1 to a number between 0.5 and 2.0 gives a normal number with
    an exponent of at least -53. *)
Lemma add_tenth (m : positive) (e : Z) :
  Zpos (digits2_pos m) = 53 ->
  e = -53 \/ e = -52 \/ (e = -51 /\ m = two52) ->
  exists m' e',
    add (S754_finite false m e) f0_1 = S754_finite false m' e'
    /\ Zpos (digits2_pos m') = 53
    /\ -53 <= e' <= -50.
Proof.
  intros Hm He. pose proof (mantissa_53 m Hm) as Hb.
  destruct pow2_values as (P54 & P55 & P56 & P57 & P58).
  assert (Hk : exists k, -56 - e = Zneg k /\ (k = 3 \/ k = 4 \/ k = 5)%positive).
  { destruct He as [-> | [-> | [-> _]]];
      [exists 3%positive | exists 4%positive | exists 5%positive]; auto. }
  destruct Hk as (k & Hk & Hk3).
  rewrite (add_aligned m e k Hk).
  set (M := (Pos.iter xO m k + 7205759403792794)%positive).
  assert (HM : 2 ^ 55 <= Zpos M < 2 ^ 58
               /\ Zpos M = 2 ^ (Zpos k) * Zpos m + 7205759403792794).
  { unfold M. rewrite P55, P58.
    destruct He as [-> | [-> | [-> ->]]]; injection Hk as <-;
      unfold two52; cbn [Pos.iter];
      [change (2 ^ 3) with 8 | change (2 ^ 4) with 16
       | change (2 ^ 5) with 32]; lia. }
  destruct HM as [[HM1 HM2] HM3].
  pose proof (digits2_pos_gt M 55 ltac:(lia) HM1) as Hd1.
  pose proof (digits2_pos_le M 58 HM2) as Hd2.
  destruct (binary_round_normal M (-56)) as (m' & e' & Hr & Hm' & He');
    [lia .. |].
  exists m', e'. split; [exact Hr |]. split; [exact Hm' |]. lia.
Qed.

(** Subtracting 0.1 from a number between 0.5 and 2.0 gives a normal
    number that is at most 2.0. *)
Lemma sub_tenth (m : positive) (e : Z) :
  Zpos (digits2_pos m) = 53 ->
  e = -53 \/ e = -52 \/ (e = -51 /\ m = two52) ->
  exists m' e',
    sub (S754_finite false m e) f0_1 = S754_finite false m' e'
    /\ Zpos (digits2_pos m') = 53
    /\ -55 <= e'
    /\ (e' <= -52 \/ (e' = -51 /\ m' = two52)).
Proof.
  intros Hm He. pose proof (mantissa_53 m Hm) as Hb.
  destruct pow2_values as (P54 & P55 & P56 & P57 & P58).
  assert (Hk : exists k, -56 - e = Zneg k /\ (k = 3 \/ k = 4 \/ k = 5)%positive).
  { destruct He as [-> | [-> | [-> _]]];
      [exists 3%positive | exists 4%positive | exists 5%positive]; auto. }
  destruct Hk as (k & Hk & Hk3).
  assert (Hshift : Zpos (Pos.iter xO m k) = 2 ^ (Zpos k) * Zpos m).
  { destruct Hk3 as [-> | [-> | ->]]; cbn [Pos.iter];
      [change (2 ^ 3) with 8 | change (2 ^ 4) with 16
       | change (2 ^ 5) with 32]; lia. }
  assert (Hpow : 8 <= 2 ^ Zpos k <= 32).
  { destruct Hk3 as [-> | [-> | ->]];
      [change (2 ^ 3) with 8 | change (2 ^ 4) with 16
       | change (2 ^ 5) with 32]; lia. }
  assert (Hlt : (7205759403792794 < Pos.iter xO m k)%positive) by nia.
  rewrite (sub_aligned m e k Hk Hlt).
  set (M := (Pos.iter xO m k - 7205759403792794)%positive).
  assert (HM : Zpos M = 2 ^ (Zpos k) * Zpos m - 7205759403792794).
  { unfold M. rewrite Pos2Z.inj_sub by exact Hlt. lia. }
  assert (HM1 : 2 ^ 54 <= Zpos M) by (rewrite P54; nia).
  assert (HM2 : Zpos M < 2 ^ 57).
  { rewrite P57, HM. destruct He as [-> | [-> | [-> ->]]];
      injection Hk as <-; unfold two52;
      [change (2 ^ 3) with 8 | change (2 ^ 4) with 16
       | change (2 ^ 5) with 32]; lia. }
  pose proof (digits2_pos_gt M 54 ltac:(lia) HM1) as Hd1.
  pose proof (digits2_pos_le M 57 HM2) as Hd2.
  destruct (binary_round_normal M (-56)) as (m' & e' & Hr & Hm' & He');
    [lia .. |].
  exists m', e'. split; [exact Hr |]. split; [exact Hm' |].
  split; [lia |]. destruct He' as [-> | [-> ->]]; [left; lia |].
  destruct (Z.eq_dec (Zpos (digits2_pos M)) 57) as [-> | Hne];
    [right; split; [reflexivity | reflexivity] | left; lia].
Qed.

Lemma capped_in_range (z : float) :
  valid z = true -> in_range z = true ->
  valid (capped z) = true /\ in_range (capped z) = true.
Proof.
  intros Hv Hr.
  destruct (in_range_inv z Hv Hr) as (m & e & -> & Hm & He).
  destruct (add_tenth m e Hm He) as (m' & e' & Hadd & Hm' & He').
  unfold capped. rewrite Hadd.
  destruct (ltb (S754_finite false m' e') f2_0) eqn:Hlt.
  - split; [apply normal_valid; [exact Hm' | lia] |].
    unfold in_range. apply andb_true_iff. split.
    + apply normal_ge_half; [exact Hm' | lia].
    + apply ltb_leb. exact Hlt.
  - split; reflexivity.
Qed.

Lemma floored_in_range (z : float) :
  valid z = true -> in_range z = true ->
  valid (floored z) = true /\ in_range (floored z) = true.
Proof.
  intros Hv Hr.
  destruct (in_range_inv z Hv Hr) as (m & e & -> & Hm & He).
  destruct (sub_tenth m e Hm He) as (m' & e' & Hsub & Hm' & Hlo & Hhi).
  unfold floored. rewrite Hsub.
  destruct (ltb f0_5 (S754_finite false m' e')) eqn:Hlt.
  - split; [apply normal_valid; [exact Hm' | lia] |].
    unfold in_range. apply andb_true_iff. split.
    + apply ltb_leb. exact Hlt.
    + apply normal_le_two. exact Hhi.
  - split; reflexivity.
Qed.

Lemma zoomIn_capped (self : WebViewPane.t) :
  zoom (zoomIn self) = capped (zoom self).
Proof. reflexivity. Qed.

Lemma zoomOut_floored (self : WebViewPane.t) :
  zoom (zoomOut self) = floored (zoom self).
Proof. reflexivity. Qed.

(** The interval is kept by every sequence of zoom calls. *)
Lemma zoom_calls_in_range (cs : list zoom_call) (self : WebViewPane.t) :
  valid (zoom self) = true -> in_range (zoom self) = true ->
  valid (zoom (zoom_calls cs self)) = true
  /\ in_range (zoom (zoom_calls cs self)) = true.
Proof.
  revert self. induction cs as [| c cs IH]; intros self Hv Hr.
  - split; assumption.
  - cbn [zoom_calls fold_left]. apply IH; destruct c; cbn [zoom_step].
    + rewrite zoomIn_capped. apply capped_in_range; assumption.
    + rewrite zoomOut_floored. apply floored_in_range; assumption.
    + rewrite zoomIn_capped. apply capped_in_range; assumption.
    + rewrite zoomOut_floored. apply floored_in_range; assumption.
Qed.

End Zoom.

(** C10. [zoomIn] sets the zoom factor to the old factor plus 0.1, capped
    at 2.0, and [zoomOut] to the old factor minus 0.1, floored at 0.5, in
    binary64 arithmetic; so after any sequence of [zoomIn] and [zoomOut]
    calls that starts with a zoom factor between 0.5 and 2.0 the zoom
    factor is between 0.5 and 2.0. *)
Theorem C10_zoom_factor_stays_in_range (self : WebViewPane.t) :
  WebViewPane.zoom (WebViewPane.zoomIn self)
    = Described.capped (WebViewPane.zoom self)
  /\ WebViewPane.zoom (WebViewPane.zoomOut self)
     = Described.floored (WebViewPane.zoom self)
  /\ (forall cs,
        WebViewPane.valid (WebViewPane.zoom self) = true ->
        Described.in_range (WebViewPane.zoom self) = true ->
        Described.in_range
          (WebViewPane.zoom (Described.zoom_calls cs self)) = true).
Proof.
  split; [apply zoomIn_capped |]. split; [apply zoomOut_floored |].
  intros cs Hv Hr. apply (zoom_calls_in_range cs self Hv Hr).
Qed.

Lemma C10_zoom_factor_stays_in_range_witness :
  Described.in_range
    (WebViewPane.zoom
       (Described.zoom_calls
          [Described.ZoomIn; Described.ZoomIn; Described.ZoomOut]
          (WebViewPane.new "http://codewith.mu"))) = true.
Proof.
  destruct (C10_zoom_factor_stays_in_range
              (WebViewPane.new "http://codewith.mu")) as (_ & _ & H).
  apply H; reflexivity.
Defined.

Example zoom_in_from_one :
  WebViewPane.zoom (WebViewPane.zoomIn (WebViewPane.new "http://codewith.mu"))
  = S754_finite false 4953959590107546 (-52).
Proof. vm_compute. reflexivity. Qed.

Example zoom_in_is_capped :
  WebViewPane.zoom
    (Described.zoom_calls (repeat Described.ZoomIn 12)
       (WebViewPane.new "http://codewith.mu"))
  = WebViewPane.f2_0
  /\ WebViewPane.zoom
       (Described.zoom_calls (repeat Described.ZoomOut 7)
          (WebViewPane.new "http://codewith.mu"))
     = WebViewPane.f0_5.
Proof. split; vm_compute; reflexivity. Qed.

(** Five calls of [zoomOut] from 1.0 end one unit in the last place above
    0.5, as binary64 subtraction rounds. *)
Example zoom_out_five_times :
  WebViewPane.zoom
    (Described.zoom_calls (repeat Described.ZoomOut 5)
       (WebViewPane.new "http://codewith.mu"))
  = S754_finite false 4503599627370497 (-53).
Proof. vm_compute. reflexivity. Qed.

(** With no byte to handle other than 13, the widget's own cursor stays
    where it was: only the local copy [tc] is moved to the last line. *)
Example process_bytes_carriage_return_only :
  REPLPane.cursor (REPLPane.process_bytes [x0d; x0d] Sample.two_lines)
  = REPLPane.cursor Sample.two_lines.
Proof. reflexivity. Qed.

(* ===================================================================== *)
(** * Further properties of the console                                   *)
(* ===================================================================== *)

Section ConsoleStreams.

Import Py Qt REPLPane Described Stream.

Lemma process_bytes_fold (bs : bytes) (self : REPLPane.t) :
  process_bytes bs self
  = ensureCursorVisible
      (fst (fold_left branch bs (self, start_cursor self))).
Proof.
  unfold process_bytes, start_cursor. rewrite fold_handle_byte.
  destruct (fold_left branch bs _); reflexivity.
Qed.

(** One byte, by cases. *)
Lemma branch_cases (st : REPLPane.t * QTextCursor) (b : byte) :
  (is_backspace b = true /\ branch st b = cursor_left st)
  \/ (is_return b = true /\ is_backspace b = false /\ branch st b = st)
  \/ (inserting b = true /\ branch st b = overwrite (Byte.to_N b) st).
Proof.
  rewrite branch_unfold. unfold inserting, is_backspace, is_return.
  destruct (N.eqb_spec (Byte.to_N b) 8) as [E | H8].
  - left. auto.
  - destruct (N.eqb_spec (Byte.to_N b) 13) as [E | H13];
      [right; left; auto | right; right; auto].
Qed.

(** The start of a selection, when there is none. *)
Lemma selectionStart_plain (tc : QTextCursor) :
  hasSelection tc = false -> selectionStart tc = position tc.
Proof.
  unfold hasSelection, selectionStart. intros H.
  apply negb_false_iff, Nat.eqb_eq in H. lia.
Qed.

(** The cursor [process_bytes] works with has no selection when the
    widget's has none. *)
Lemma start_cursor_plain (self : REPLPane.t) :
  hasSelection (textCursor self) = false ->
  hasSelection (start_cursor self) = false.
Proof.
  intros H. unfold start_cursor.
  destruct (while_down_exits (S (length (document self))) (document self)
              (textCursor self)) as (_ & _ & [-> | Hsel]);
    [lia | exact H | exact Hsel].
Qed.

Lemma overwrite_document (c : N) (self : REPLPane.t) (tc : QTextCursor) :
  hasSelection tc = false ->
  document (fst (overwrite c (self, tc)))
  = take (position tc) (document self)
      ++ c :: drop (S (position tc)) (document self)
  /\ cursor (fst (overwrite c (self, tc))) = S (position tc)
  /\ snd (overwrite c (self, tc)) = cursor_at (S (position tc)).
Proof.
  intros H. rewrite (overwrite_without_selection c self tc H).
  repeat split.
Qed.

Lemma branch_length (st : REPLPane.t * QTextCursor) (b : byte) :
  hasSelection (snd st) = false ->
  (length (document (fst st))
   <= length (document (fst (branch st b)))
   <= length (document (fst st)) + (if inserting b then 1 else 0))%nat.
Proof.
  destruct st as [self tc]. cbn [fst snd]. intros Hsel.
  destruct (branch_cases (self, tc) b)
    as [[Hb E] | [(Hr & Hb & E) | [Hi E]]]; rewrite E.
  - cbn. lia.
  - cbn. lia.
  - rewrite Hi.
    destruct (overwrite_document (Byte.to_N b) self tc Hsel) as (-> & _ & _).
    rewrite length_app, length_take. cbn [length]. rewrite length_drop. lia.
Qed.

Lemma fold_branch_length (bs : bytes) (st : REPLPane.t * QTextCursor) :
  hasSelection (snd st) = false ->
  (length (document (fst st))
   <= length (document (fst (fold_left branch bs st)))
   <= length (document (fst st)) + length (List.filter inserting bs))%nat.
Proof.
  revert st. induction bs as [| b bs IH]; intros st Hsel; cbn [fold_left].
  - cbn. lia.
  - destruct (branch_without_selection st b Hsel) as [_ Hsel'].
    specialize (IH (branch st b) Hsel').
    pose proof (branch_length st b Hsel) as Hb.
    cbn [List.filter]. destruct (inserting b); cbn [length]; lia.
Qed.

End ConsoleStreams.

(** X1. On a console in which nothing is selected, [process_bytes] never
    shortens the document, and lengthens it by at most one character per
    byte other than 8 and 13. *)
Theorem X1_process_bytes_length (bs : Py.bytes) (self : REPLPane.t) :
  Qt.hasSelection (REPLPane.textCursor self) = false ->
  (length (REPLPane.document self)
   <= length (REPLPane.document (REPLPane.process_bytes bs self))
   <= length (REPLPane.document self)
      + length (List.filter Stream.inserting bs))%nat.
Proof.
  intros Hsel. rewrite process_bytes_fold.
  cbn [REPLPane.ensureCursorVisible REPLPane.document].
  apply (fold_branch_length bs (self, Stream.start_cursor self)).
  apply start_cursor_plain. exact Hsel.
Qed.

Lemma X1_process_bytes_length_witness :
  (length (REPLPane.document Sample.two_lines)
   <= length
        (REPLPane.document
           (REPLPane.process_bytes [x61; x08; x0d; x62] Sample.two_lines))
   <= length (REPLPane.document Sample.two_lines) + 2)%nat.
Proof.
  apply (X1_process_bytes_length [x61; x08; x0d; x62] Sample.two_lines).
  reflexivity.
Defined.

Section ConsoleOutput.

Import Py Qt REPLPane Described Stream.

Lemma backspaces_cons (b : byte) (bs : bytes) :
  backspaces (b :: bs)
  = ((if is_backspace b then 1 else 0) + backspaces bs)%nat.
Proof. unfold backspaces. cbn. destruct (is_backspace b); reflexivity. Qed.

Lemma characters_cons (b : byte) (bs : bytes) :
  characters (b :: bs)
  = if is_return b then characters bs else Byte.to_N b :: characters bs.
Proof. unfold characters. cbn. destruct (is_return b); reflexivity. Qed.

Lemma inserting_inv (b : byte) :
  inserting b = true -> is_backspace b = false /\ is_return b = false.
Proof.
  unfold inserting. destruct (is_backspace b), (is_return b); cbn; auto;
    discriminate.
Qed.

(** At the end of the document the cursor is on the last line. *)
Lemma start_at_end (self : REPLPane.t) :
  cursor self = length (document self) -> start_cursor self = textCursor self.
Proof.
  intros H. unfold start_cursor.
  apply while_down_last_line. unfold on_last_line, textCursor.
  cbn [position]. rewrite H, drop_all. constructor.
Qed.

Lemma fold_branch_at_end (bs : bytes) (self : REPLPane.t)
    (tc : QTextCursor) :
  hasSelection tc = false ->
  position tc = length (document self) ->
  cursor self = position tc ->
  backspaces bs = O ->
  document (fst (fold_left branch bs (self, tc)))
    = document self ++ characters bs
  /\ cursor (fst (fold_left branch bs (self, tc)))
     = length (document (fst (fold_left branch bs (self, tc)))).
Proof.
  revert self tc.
  induction bs as [| b bs IH]; intros self tc Hsel Htc Hcur Hbs.
  - cbn. rewrite app_nil_r. split; [reflexivity | congruence].
  - rewrite backspaces_cons in Hbs. rewrite characters_cons.
    cbn [fold_left].
    destruct (branch_cases (self, tc) b)
      as [[Hb E] | [(Hr & Hb & E) | [Hi E]]]; rewrite E.
    + rewrite Hb in Hbs. discriminate.
    + rewrite Hr. rewrite Hb in Hbs. apply IH; assumption.
    + destruct (inserting_inv b Hi) as [Hb Hr]. rewrite Hr.
      rewrite Hb in Hbs.
      destruct (overwrite_document (Byte.to_N b) self tc Hsel)
        as (Hd & Hc & Ht).
      destruct (overwrite (Byte.to_N b) (self, tc)) as [self1 tc1].
      cbn [fst snd] in Hd, Hc, Ht.
      assert (Hd1 : document self1 = document self ++ [Byte.to_N b]).
      { rewrite Hd, Htc. rewrite firstn_all, drop_ge by lia. reflexivity. }
      destruct (IH self1 tc1) as [H1 H2].
      * rewrite Ht. apply cursor_at_plain.
      * rewrite Ht, Hd1, length_app. cbn. lia.
      * rewrite Ht, Hc. reflexivity.
      * exact Hbs.
      * split; [| exact H2]. rewrite H1, Hd1, <- app_assoc. reflexivity.
Qed.

(** [movePosition(Down)] stays inside the document. *)
Lemma move_down_inside (doc : list N) (tc tc' : QTextCursor) :
  movePosition Down doc tc = (tc', true) ->
  (position tc' <= length doc)%nat.
Proof.
  cbn. destruct (index_of_newline (drop (position tc) doc)) as [i |] eqn:E;
    [| discriminate].
  intros H. injection H as <-. cbn [position].
  apply index_of_newline_lt in E. rewrite length_drop in E.
  assert (line_length doc (position tc + i + 1)
          <= length doc - (position tc + i + 1))%nat.
  { unfold line_length.
    destruct (index_of_newline (drop (position tc + i + 1) doc))
      as [k |] eqn:Ek.
    - apply index_of_newline_lt in Ek. rewrite length_drop in Ek. lia.
    - rewrite length_drop. lia. }
  lia.
Qed.

Lemma while_down_inside (fuel : nat) (doc : list N) (tc : QTextCursor) :
  (position tc <= length doc)%nat ->
  (position (while_down fuel doc tc) <= length doc)%nat.
Proof.
  revert tc. induction fuel as [| fuel IH]; intros tc Htc; [exact Htc |].
  cbn [while_down].
  destruct (movePosition Down doc tc) as [tc' moved] eqn:E.
  destruct moved.
  - apply IH. eapply move_down_inside. exact E.
  - apply move_down_failed in E. subst tc'. exact Htc.
Qed.

(** What lies more than one character per backspace before the cursor is
    out of reach. *)
Lemma fold_branch_prefix (bs : bytes) (self : REPLPane.t)
    (tc : QTextCursor) (k : nat) :
  hasSelection tc = false ->
  (position tc <= length (document self))%nat ->
  (k <= position tc - backspaces bs)%nat ->
  take k (document (fst (fold_left branch bs (self, tc))))
  = take k (document self).
Proof.
  revert self tc. induction bs as [| b bs IH]; intros self tc Hsel Htc Hk.
  - reflexivity.
  - rewrite backspaces_cons in Hk. cbn [fold_left].
    destruct (branch_cases (self, tc) b)
      as [[Hb E] | [(Hr & Hb & E) | [Hi E]]]; rewrite E.
    + rewrite Hb in Hk. unfold cursor_left.
      rewrite (IH _ (cursor_at (Nat.pred (position tc))));
        cbn [document set_text set_selection position cursor_at];
        [reflexivity | apply cursor_at_plain | lia | lia].
    + rewrite Hb in Hk. apply IH; [exact Hsel | exact Htc | exact Hk].
    + destruct (inserting_inv b Hi) as [Hb Hr]. rewrite Hb in Hk.
      rewrite (overwrite_without_selection _ _ _ Hsel).
      unfold overwrite_character.
      rewrite (IH _ (cursor_at (S (position tc))));
        cbn [document set_text set_selection position cursor_at].
      * rewrite take_app_le by (rewrite length_take; lia).
        rewrite take_take. f_equal. lia.
      * apply cursor_at_plain.
      * rewrite length_app, length_take. cbn. rewrite length_drop. lia.
      * lia.
Qed.

End ConsoleOutput.

(** X2. On a console whose cursor is at the end of the text, nothing
    selected, a stream without backspaces is appended as it is, carriage
    returns left out, and the cursor is at the end again. *)
Theorem X2_process_bytes_appends (bs : Py.bytes) (self : REPLPane.t) :
  Qt.hasSelection (REPLPane.textCursor self) = false ->
  REPLPane.cursor self = length (REPLPane.document self) ->
  Stream.backspaces bs = O ->
  REPLPane.document (REPLPane.process_bytes bs self)
    = REPLPane.document self ++ Stream.characters bs
  /\ REPLPane.cursor (REPLPane.process_bytes bs self)
     = length (REPLPane.document (REPLPane.process_bytes bs self)).
Proof.
  intros Hsel Hend Hbs. rewrite process_bytes_fold.
  cbn [REPLPane.ensureCursorVisible REPLPane.document REPLPane.cursor].
  rewrite (start_at_end self Hend).
  apply fold_branch_at_end.
  - exact Hsel.
  - exact Hend.
  - reflexivity.
  - exact Hbs.
Qed.

Lemma X2_process_bytes_appends_witness :
  REPLPane.document
    (REPLPane.process_bytes [x68; x69; x0d; x0a] Sample.after_newline)
    = REPLPane.document Sample.after_newline
        ++ Stream.characters [x68; x69; x0d; x0a]
  /\ REPLPane.cursor
       (REPLPane.process_bytes [x68; x69; x0d; x0a] Sample.after_newline)
     = length
         (REPLPane.document
            (REPLPane.process_bytes [x68; x69; x0d; x0a]
               Sample.after_newline)).
Proof.
  apply (X2_process_bytes_appends [x68; x69; x0d; x0a] Sample.after_newline);
    reflexivity.
Defined.

(** X3. On a console in which nothing is selected, [process_bytes] leaves
    the text before its starting point alone, except for one character per
    backspace in the stream: with [n] backspaces, the first [start - n]
    characters of the document are kept. *)
Theorem X3_process_bytes_keeps_prefix (bs : Py.bytes) (self : REPLPane.t) :
  Qt.hasSelection (REPLPane.textCursor self) = false ->
  (REPLPane.cursor self <= length (REPLPane.document self))%nat ->
  take (Stream.start self - Stream.backspaces bs)
       (REPLPane.document (REPLPane.process_bytes bs self))
  = take (Stream.start self - Stream.backspaces bs) (REPLPane.document self).
Proof.
  intros Hsel Hcur. rewrite process_bytes_fold.
  cbn [REPLPane.ensureCursorVisible REPLPane.document].
  apply fold_branch_prefix; [| | unfold Stream.start; lia].
  - apply start_cursor_plain. exact Hsel.
  - apply while_down_inside. exact Hcur.
Qed.

Lemma X3_process_bytes_keeps_prefix_witness :
  take (Stream.start Sample.two_lines - Stream.backspaces [x61; x08; x62])
       (REPLPane.document
          (REPLPane.process_bytes [x61; x08; x62] Sample.two_lines))
  = take (Stream.start Sample.two_lines - Stream.backspaces [x61; x08; x62])
         (REPLPane.document Sample.two_lines).
Proof.
  apply (X3_process_bytes_keeps_prefix [x61; x08; x62] Sample.two_lines).
  - reflexivity.
  - cbn. lia.
Defined.
Section ConsoleReads.

Import Py Qt REPLPane Described Stream.



(** The branches do not touch the serial port. *)
Lemma fold_branch_serial (bs : bytes) (st : REPLPane.t * QTextCursor) :
  serial (fst (fold_left branch bs st)) = serial (fst st).
Proof.
  revert st. induction bs as [| b bs IH]; intros st; [reflexivity |].
  cbn [fold_left]. rewrite IH. destruct st as [self tc].
  rewrite branch_unfold.
  destruct (Byte.to_N b =? 8)%N; [reflexivity |].
  destruct (Byte.to_N b =? 13)%N; reflexivity.
Qed.




Lemma ensureCursorVisible_twice (self : REPLPane.t) :
  ensureCursorVisible (ensureCursorVisible self) = ensureCursorVisible self.
Proof. reflexivity. Qed.

End ConsoleReads.



Section SplitStreams.

Import Py Qt REPLPane Described Stream.


End SplitStreams.



Section SerialRead.

Import Py Qt REPLPane Described Stream.

Lemma on_serial_read_fold (self : REPLPane.t) :
  on_serial_read self
  = ensureCursorVisible
      (fst (fold_left branch (pending (serial self))
              (set_serial (fst (readAll (serial self))) self,
               start_cursor
                 (set_serial (fst (readAll (serial self))) self)))).
Proof.
  unfold on_serial_read. cbn [readAll fst]. apply process_bytes_fold.
Qed.

Lemma on_serial_read_serial (self : REPLPane.t) :
  serial (on_serial_read self) = fst (readAll (serial self)).
Proof.
  rewrite on_serial_read_fold. cbn [ensureCursorVisible serial].
  rewrite fold_branch_serial. reflexivity.
Qed.

Lemma readAll_again (p : QSerialPort) :
  readAll (fst (readAll p)) = (fst (readAll p), []).
Proof. reflexivity. Qed.

Lemma set_serial_same (self : REPLPane.t) : set_serial (serial self) self = self.
Proof. destruct self; reflexivity. Qed.

End SerialRead.

(** X6. [on_serial_read] takes all the pending data from the port and
    writes nothing to it; called again with nothing received in between,
    it changes nothing. *)
Theorem X6_on_serial_read_consumes (self : REPLPane.t) :
  Qt.pending (REPLPane.serial (REPLPane.on_serial_read self)) = []
  /\ Qt.written (REPLPane.serial (REPLPane.on_serial_read self))
     = Qt.written (REPLPane.serial self)
  /\ REPLPane.on_serial_read (REPLPane.on_serial_read self)
     = REPLPane.on_serial_read self.
Proof.
  rewrite on_serial_read_serial. split; [reflexivity |].
  split; [reflexivity |].
  unfold REPLPane.on_serial_read at 1.
  rewrite on_serial_read_serial, readAll_again.
  rewrite <- on_serial_read_serial, set_serial_same.
  rewrite process_bytes_fold. cbn [fold_left fst].
  rewrite on_serial_read_fold. reflexivity.
Qed.

(** X7. A key press is never echoed: [keyPressEvent] changes neither the
    text nor the cursor nor the settings of the port.  Either it writes
    one message, or the text of the key cannot be encoded, it raises
    [UnicodeEncodeError] and nothing is written. *)
Theorem X7_keypress_is_not_echoed (data : Qt.QKeyEvent) (self : REPLPane.t) :
  let after := Py.state_of (REPLPane.keyPressEvent data self) in
  REPLPane.document after = REPLPane.document self
  /\ REPLPane.cursor after = REPLPane.cursor self
  /\ Qt.portName (REPLPane.serial after) = Qt.portName (REPLPane.serial self)
  /\ Qt.isOpen (REPLPane.serial after) = Qt.isOpen (REPLPane.serial self)
  /\ Qt.baudRate (REPLPane.serial after) = Qt.baudRate (REPLPane.serial self)
  /\ Qt.pending (REPLPane.serial after) = Qt.pending (REPLPane.serial self)
  /\ ((Py.raised (REPLPane.keyPressEvent data self) = None
       /\ exists msg,
            Qt.written (REPLPane.serial after)
            = Qt.written (REPLPane.serial self) ++ [msg])
      \/ (Py.raised (REPLPane.keyPressEvent data self)
            = Some Py.UnicodeEncodeError
          /\ after = self)).
Proof.
  destruct (Py.utf8 (Qt.text data)) as [encoded |] eqn:Henc.
  - rewrite (keyPressEvent_run data self encoded Henc). cbn.
    repeat (split; [reflexivity |]). left. split; [reflexivity |].
    eexists. reflexivity.
  - unfold REPLPane.keyPressEvent, Py.bind, Py.raise. rewrite Henc. cbn.
    repeat (split; [reflexivity |]). right. split; reflexivity.
Qed.

(* ===================================================================== *)
(** * Further properties of the project selector                          *)
(* ===================================================================== *)

Section SelectorRuns.

Import Py Qt ProjectSelector.

Lemma setup_new (templates : list ProjectItem) :
  setup templates QDialog_new
  = {| project_list := templates;
       currentRow := match templates with [] => None | _ => Some O end;
       project_name := ""; result := Rejected |}.
Proof. destruct templates; reflexivity. Qed.

Lemma exec_current (templates : list ProjectItem) (u : interaction) :
  templates <> [] ->
  currentItem (exec u (setup templates QDialog_new))
  = templates !! Derived.chosen_row templates u.
Proof.
  intros Hne. rewrite setup_new. unfold exec, Derived.chosen_row.
  destruct templates as [| t ts]; [contradiction |].
  destruct (picked u) as [row |]; [| reflexivity].
  unfold setCurrentRow. cbn [project_list].
  destruct (row <? length (t :: ts))%nat; reflexivity.
Qed.

End SelectorRuns.

(** X8. When the user accepts the selector, [get_template] returns the
    details of the template that is current at that moment, the one the
    user picked or else the first one: its path, its default code, and the
    name the user typed. *)
Theorem X8_get_template_accepted (folder : string)
    (templates : list ProjectSelector.ProjectItem)
    (u : ProjectSelector.interaction) (item : ProjectSelector.ProjectItem) :
  ProjectSelector.accepts u = true ->
  templates !! Derived.chosen_row templates u = Some item ->
  exists selector,
    Window.get_template folder templates u
    = Py.Returned selector
        (Some (<["path" := ProjectSelector.path item]>
                 (<["default" := ProjectSelector.default item]>
                    (<["name" := ProjectSelector.typed u]> ∅)))).
Proof.
  intros Hacc Hitem.
  assert (Hne : templates <> []) by (intros ->; discriminate).
  unfold Window.get_template.
  rewrite exec_result, Hacc. cbn [Z.eqb Qt.Accepted Pos.eqb].
  unfold Py.bind.
  rewrite (get_project_accepted _ item).
  - eexists. reflexivity.
  - rewrite exec_result, Hacc. reflexivity.
  - rewrite exec_current by exact Hne. exact Hitem.
Qed.

Lemma X8_get_template_accepted_witness :
  exists selector,
    Window.get_template "/home" Sample.templates
      {| ProjectSelector.picked := Some 1%nat;
         ProjectSelector.typed := "game";
         ProjectSelector.accepts := true |}
    = Py.Returned selector
        (Some (<["path" := "pygamezero"]>
                 (<["default" := "WIDTH = 200"]>
                    (<["name" := "game"]> ∅)))).
Proof.
  apply (X8_get_template_accepted "/home" Sample.templates
           {| ProjectSelector.picked := Some 1%nat;
              ProjectSelector.typed := "game";
              ProjectSelector.accepts := true |}
           {| ProjectSelector.name := "Pygame Zero";
              ProjectSelector.icon := "pygame";
              ProjectSelector.path := "pygamezero";
              ProjectSelector.default := "WIDTH = 200" |});
    reflexivity.
Defined.

(** X9. With an empty list of templates the selector has no current item,
    and accepting it makes [get_template] raise [AttributeError] where
    [get_project] reads the item's path. *)
Theorem X9_get_template_without_templates (folder : string)
    (u : ProjectSelector.interaction) :
  ProjectSelector.accepts u = true ->
  exists selector msg,
    Window.get_template folder [] u
    = Py.Raised selector (Py.AttributeError msg)
    /\ ProjectSelector.currentItem selector = None.
Proof.
  intros Hacc. unfold Window.get_template.
  rewrite exec_result, Hacc. cbn [Z.eqb Qt.Accepted Pos.eqb].
  unfold Py.bind, ProjectSelector.get_project.
  rewrite exec_result, Hacc. cbn [Z.eqb Qt.Accepted Pos.eqb].
  assert (Hcur : ProjectSelector.currentItem
                   (ProjectSelector.exec u
                      (ProjectSelector.setup [] ProjectSelector.QDialog_new))
                 = None).
  { unfold ProjectSelector.exec, ProjectSelector.currentItem.
    destruct (ProjectSelector.picked u) as [row |]; [| reflexivity].
    unfold ProjectSelector.setCurrentRow. cbn.
    destruct row; reflexivity. }
  rewrite Hcur. eexists. eexists. split; [reflexivity | exact Hcur].
Qed.

Lemma X9_get_template_without_templates_witness :
  exists selector msg,
    Window.get_template "/home" []
      {| ProjectSelector.picked := None; ProjectSelector.typed := "x";
         ProjectSelector.accepts := true |}
    = Py.Raised selector (Py.AttributeError msg)
    /\ ProjectSelector.currentItem selector = None.
Proof.
  apply (X9_get_template_without_templates "/home"
           {| ProjectSelector.picked := None; ProjectSelector.typed := "x";
              ProjectSelector.accepts := true |}).
  reflexivity.
Defined.

(* ===================================================================== *)
(** * Properties of the fonts                                             *)
(* ===================================================================== *)

(** X10. The style name of a font tells its two flags apart: two fonts
    have the same style name exactly when they agree on bold and on
    italic. *)
Theorem X10_stylename_determines_flags (f1 f2 : Font.t) :
  Font.stylename f1 = Font.stylename f2
  <-> Font.bold f1 = Font.bold f2 /\ Font.italic f1 = Font.italic f2.
Proof.
  unfold Font.stylename. split.
  - destruct (Font.bold f1), (Font.italic f1), (Font.bold f2),
      (Font.italic f2); intros H; try discriminate; auto.
  - intros [-> ->]. reflexivity.
Qed.

Section FontCache.

Import FontDatabase.

Lemma get_database_cached (cls : FontDatabase.t) (db : QFontDatabase) :
  _DATABASE cls = Some db -> get_database cls = (cls, db).
Proof. intros H. unfold get_database. rewrite H. reflexivity. Qed.

Lemma calls_cached (n : nat) (cls : FontDatabase.t) (db : QFontDatabase) :
  _DATABASE cls = Some db -> calls n cls = (cls, repeat db n).
Proof.
  intros H. induction n as [| n IH]; [reflexivity |].
  cbn [calls]. rewrite (get_database_cached cls db H), IH. reflexivity.
Qed.

End FontCache.

(** X11. However often [get_database] is called, the six font files are
    read exactly once, in the order of [FONT_VARIANTS], and every call
    returns the same database, which holds these six files. *)
Theorem X11_get_database_loads_once (n : nat) :
  let files := map FontDatabase.filename FontDatabase.FONT_VARIANTS in
  FontDatabase.calls (S n) FontDatabase.initial
  = ({| FontDatabase._DATABASE := Some files;
        FontDatabase.files_read := files |},
     repeat files (S n)).
Proof.
  cbv zeta.
  set (files := map FontDatabase.filename FontDatabase.FONT_VARIANTS).
  set (cls := {| FontDatabase._DATABASE := Some files;
                 FontDatabase.files_read := files |}).
  cbn [FontDatabase.calls].
  change (FontDatabase.get_database FontDatabase.initial) with (cls, files).
  cbv beta iota zeta.
  rewrite (calls_cached n cls files eq_refl). reflexivity.
Qed.

(* ===================================================================== *)
(** * Properties of the tool bar                                          *)
(* ===================================================================== *)

Section ToolBar.

Import ButtonBar.

Lemma slots_show (n m : string) (b : bool) (self : ButtonBar.t) :
  slots (show n b self) !! m
  = if decide (n = m) then setVisible b <$> slots self !! n
    else slots self !! m.
Proof. unfold show. cbn [slots set_slots]. apply lookup_alter. Qed.

Lemma slots_show_is_Some (n m : string) (b : bool) (self : ButtonBar.t) :
  is_Some (slots (show n b self) !! m) <-> is_Some (slots self !! m).
Proof.
  rewrite slots_show. destruct (decide (n = m)) as [-> |]; [| reflexivity].
  apply fmap_is_Some.
Qed.

Lemma shown_show_eq (n : string) (b : bool) (self : ButtonBar.t) :
  is_Some (slots self !! n) -> shown n (show n b self) = b.
Proof.
  intros [a Ha]. unfold shown. rewrite slots_show, decide_True by reflexivity.
  rewrite Ha. reflexivity.
Qed.

Lemma shown_show_ne (n m : string) (b : bool) (self : ButtonBar.t) :
  n <> m -> shown m (show n b self) = shown m self.
Proof.
  intros Hne. unfold shown. rewrite slots_show, decide_False by exact Hne.
  reflexivity.
Qed.

Lemma has_project_buttons_show (n : string) (b : bool) (self : ButtonBar.t) :
  has_project_buttons self -> has_project_buttons (show n b self).
Proof.
  unfold has_project_buttons. rewrite !slots_show_is_Some. auto.
Qed.

(** The run of [set_button_state] when the four actions exist. *)
Lemma set_button_state_run (tab : EditorPane.t) (self : ButtonBar.t) :
  has_project_buttons self ->
  set_button_state tab self
  = if EditorPane.truthy (EditorPane.path tab) then
      let path := default "" (EditorPane.path tab) in
      if contains "micropython" path then
        Done (show "play" false (show "flash" true (show "run" false self)))
      else if contains "pygamezero" path then
        Done (show "play" true (show "flash" false (show "run" false self)))
      else if contains "blocks" path then
        Done (show "blocks" true
                (show "play" false
                   (show "flash" false (show "run" true self))))
      else
        Done (show "play" false (show "flash" false (show "run" true self)))
    else Done self.
Proof.
  intros ([r Hr] & [f Hf] & [p Hp] & [b Hb]).
  unfold set_button_state. rewrite Hr, Hf, Hp, Hb. reflexivity.
Qed.

(** One call keeps the four actions, never hides the blocks button and
    leaves every other action alone. *)
Lemma set_button_state_keeps (tab : EditorPane.t) (self : ButtonBar.t) :
  has_project_buttons self ->
  exists self',
    set_button_state tab self = Done self'
    /\ has_project_buttons self'
    /\ (shown "blocks" self = true -> shown "blocks" self' = true)
    /\ (forall name,
          name <> "run" -> name <> "flash" -> name <> "play" ->
          name <> "blocks" ->
          slots self' !! name = slots self !! name).
Proof.
  intros H. rewrite (set_button_state_run tab self H).
  destruct (EditorPane.truthy (EditorPane.path tab)).
  - cbv zeta.
    destruct (contains "micropython" _);
      [| destruct (contains "pygamezero" _);
         [| destruct (contains "blocks" _)]];
      eexists; (split; [reflexivity |]);
      (split; [repeat apply has_project_buttons_show; exact H |]);
      (split;
       [ intros Hb;
         try (rewrite shown_show_eq;
              [reflexivity
              | rewrite !slots_show_is_Some; apply H]);
         rewrite !shown_show_ne by discriminate; exact Hb
       | intros name H1 H2 H3 H4;
         rewrite !slots_show;
         repeat (rewrite decide_False by congruence); reflexivity ]).
  - exists self. repeat split; auto; apply H.
Qed.

End ToolBar.

(** X12. On a bar that has the four project actions, given a tab with a
    non-empty path, [set_button_state] leaves exactly one of the run, flash
    and play buttons shown: flash when the path contains [micropython],
    else play when it contains [pygamezero], else run. *)
Theorem X12_set_button_state_one_of_three (tab : EditorPane.t)
    (self : ButtonBar.t) :
  ButtonBar.has_project_buttons self ->
  EditorPane.truthy (EditorPane.path tab) = true ->
  let path := default "" (EditorPane.path tab) in
  exists self',
    ButtonBar.set_button_state tab self = ButtonBar.Done self'
    /\ ButtonBar.shown "flash" self' = ButtonBar.contains "micropython" path
    /\ ButtonBar.shown "play" self'
       = negb (ButtonBar.contains "micropython" path)
         && ButtonBar.contains "pygamezero" path
    /\ ButtonBar.shown "run" self'
       = negb (ButtonBar.contains "micropython" path)
         && negb (ButtonBar.contains "pygamezero" path)
    /\ length (List.filter (fun name => ButtonBar.shown name self')
                 ["run"; "flash"; "play"]) = 1%nat.
Proof.
  intros H Hpath path.
  rewrite (set_button_state_run tab self H), Hpath. cbv zeta. fold path.
  assert (Hs : forall n m b s,
             ButtonBar.has_project_buttons s ->
             In n ["run"; "flash"; "play"; "blocks"] ->
             ButtonBar.shown m (ButtonBar.show n b s)
             = if decide (n = m) then b else ButtonBar.shown m s).
  { intros n m b s Hs Hn. destruct (decide (n = m)) as [<- | Hne].
    - apply shown_show_eq. destruct Hs as (? & ? & ? & ?).
      cbn in Hn. intuition (subst; assumption).
    - apply shown_show_ne. exact Hne. }
  destruct (ButtonBar.contains "micropython" path);
    [| destruct (ButtonBar.contains "pygamezero" path);
       [| destruct (ButtonBar.contains "blocks" path)]];
    eexists; (split; [reflexivity |]); cbn [List.filter];
    repeat (rewrite Hs;
            [| repeat apply has_project_buttons_show; exact H
             | cbn; tauto]);
    cbn; auto.
Qed.

Lemma X12_set_button_state_one_of_three_witness :
  exists self',
    ButtonBar.set_button_state
      (EditorPane.new (Some "/home/mu/pygamezero/game.py") "")
      ButtonBar.new
    = ButtonBar.Done self'
    /\ ButtonBar.shown "flash" self' = false
    /\ ButtonBar.shown "play" self' = true
    /\ ButtonBar.shown "run" self' = false.
Proof.
  destruct (X12_set_button_state_one_of_three
              (EditorPane.new (Some "/home/mu/pygamezero/game.py") "")
              ButtonBar.new)
    as (self' & Hrun & Hf & Hp & Hr & _).
  - repeat split; eexists; reflexivity.
  - reflexivity.
  - exists self'. repeat split; assumption.
Defined.

(** X13. Over any sequence of selected tabs, on a bar that has the four
    project actions, [set_button_state] never raises, never hides the
    blocks button once it is shown, and changes no action other than run,
    flash, play and blocks. *)
Theorem X13_select_tabs_keeps_blocks (tabs : list EditorPane.t)
    (self : ButtonBar.t) :
  ButtonBar.has_project_buttons self ->
  exists self',
    ButtonBar.select_tabs tabs self = ButtonBar.Done self'
    /\ (ButtonBar.shown "blocks" self = true ->
        ButtonBar.shown "blocks" self' = true)
    /\ (forall name,
          name <> "run" -> name <> "flash" -> name <> "play" ->
          name <> "blocks" ->
          ButtonBar.slots self' !! name = ButtonBar.slots self !! name).
Proof.
  revert self. induction tabs as [| tab tabs IH]; intros self H.
  - exists self. auto.
  - destruct (set_button_state_keeps tab self H)
      as (self1 & Hrun & H1 & Hb1 & Hother1).
    destruct (IH self1 H1) as (self' & Hrest & Hb & Hother).
    exists self'. cbn [ButtonBar.select_tabs]. rewrite Hrun.
    split; [exact Hrest |]. split; [auto |].
    intros name ? ? ? ?. rewrite Hother, Hother1 by assumption. reflexivity.
Qed.

Lemma X13_select_tabs_keeps_blocks_witness :
  exists self',
    ButtonBar.select_tabs
      [EditorPane.new (Some "blocks/a.py") "";
       EditorPane.new (Some "micropython/b.py") ""]
      ButtonBar.new
    = ButtonBar.Done self'
    /\ ButtonBar.shown "blocks" self' = true.
Proof.
  destruct (X13_select_tabs_keeps_blocks
              [EditorPane.new (Some "blocks/a.py") "";
               EditorPane.new (Some "micropython/b.py") ""]
              ButtonBar.new)
    as (self' & Hrun & Hb & _).
  - repeat split; eexists; reflexivity.
  - exists self'. split; [exact Hrun | apply Hb; reflexivity].
Defined.

(** X14. [connect] raises [KeyError] exactly for a name that is not in
    [slots], and then changes nothing; for a name in [slots] it connects
    the handler to that action, creates one shortcut per key, in order, and
    leaves the other actions alone. *)
Theorem X14_connect_known_names (name : string) (handler : nat)
    (keys : list string) (self : ButtonBar.t) :
  (ButtonBar.slots self !! name = None ->
   ButtonBar.connect name handler keys self = ButtonBar.KeyError self name)
  /\ (forall action,
        ButtonBar.slots self !! name = Some action ->
        exists self',
          ButtonBar.connect name handler keys self = ButtonBar.Done self'
          /\ ButtonBar.slots self' !! name
             = Some (ButtonBar.pyqtConfigure handler action)
          /\ (forall other, other <> name ->
                ButtonBar.slots self' !! other
                = ButtonBar.slots self !! other)
          /\ ButtonBar.shortcuts self'
             = ButtonBar.shortcuts self
                 ++ map (fun key => (key, handler)) keys).
Proof.
  split.
  - intros Hnone. unfold ButtonBar.connect. rewrite Hnone. reflexivity.
  - intros action Hsome. unfold ButtonBar.connect. rewrite Hsome.
    eexists. split; [reflexivity |].
    assert (Hfold : forall ks s,
               ButtonBar.slots
                 (fold_left
                    (fun s key => ButtonBar.add_shortcut key handler s) ks s)
               = ButtonBar.slots s
               /\ ButtonBar.shortcuts
                    (fold_left
                       (fun s key => ButtonBar.add_shortcut key handler s)
                       ks s)
                  = ButtonBar.shortcuts s
                      ++ map (fun key => (key, handler)) ks).
    { induction ks as [| k ks IH]; intros s; cbn [fold_left map].
      - rewrite app_nil_r. auto.
      - destruct (IH (ButtonBar.add_shortcut k handler s)) as [-> ->].
        cbn. rewrite <- app_assoc. auto. }
    destruct (Hfold keys
                (ButtonBar.set_slots
                   (alter (ButtonBar.pyqtConfigure handler) name
                      (ButtonBar.slots self)) self)) as [-> ->].
    cbn [ButtonBar.slots ButtonBar.shortcuts ButtonBar.set_slots].
    split; [| split].
    + rewrite lookup_alter_eq, Hsome. reflexivity.
    + intros other Hne. apply lookup_alter_ne. congruence.
    + reflexivity.
Qed.

Lemma X14_connect_known_names_witness :
  ButtonBar.connect "print" 7 ["Ctrl+P"] ButtonBar.new
  = ButtonBar.KeyError ButtonBar.new "print".
Proof.
  destruct (X14_connect_known_names "print" 7 ["Ctrl+P"] ButtonBar.new)
    as [Hmissing _].
  apply Hmissing. reflexivity.
Defined.

(* ===================================================================== *)
(** * Properties of the web views in the splitter                         *)
(* ===================================================================== *)

Section SplitterSizes.

Import Layout.

Lemma position_inside (l : list Z) (n : nat) :
  (n < length l)%nat -> position l (Z.of_nat n) = Some n.
Proof.
  intros Hn. unfold position.
  replace (0 <=? Z.of_nat n) with true by (symmetry; apply Z.leb_le; lia).
  replace (Z.of_nat n <? Z.of_nat (length l)) with true
    by (symmetry; apply Z.ltb_lt; lia).
  cbn [andb]. rewrite Nat2Z.id. reflexivity.
Qed.

(** The run of the shared lines on two different valid indices. *)
Lemma share_sizes_run (wi ti : nat) (pct a b : Z) (reported : list Z)
    (self : Layout.t) :
  wi <> ti ->
  reported !! wi = Some a -> reported !! ti = Some b ->
  share_sizes (Z.of_nat wi) (Z.of_nat ti) pct reported self
  = Done {| splitter_horizontal := splitter_horizontal self;
            sizes_set :=
              <[ti := a + b - (a + b) * pct / 100]>
                (<[wi := (a + b) * pct / 100]> reported);
            _webview_left := _webview_left self;
            _webview_right := _webview_right self;
            zoom_connected := zoom_connected self;
            deleted := deleted self;
            created := created self |}.
Proof.
  intros Hne Ha Hb.
  pose proof (lookup_lt_Some _ _ _ Ha) as Hwi.
  pose proof (lookup_lt_Some _ _ _ Hb) as Hti.
  unfold share_sizes, getitem, setitem.
  rewrite !position_inside by assumption. rewrite Ha, Hb.
  rewrite !position_inside by (rewrite length_insert; assumption).
  rewrite list_lookup_insert_eq by assumption. reflexivity.
Qed.

(** What the new sizes are. *)
Lemma shared_sizes (wi ti : nat) (pct a b : Z) (reported : list Z) :
  wi <> ti ->
  reported !! wi = Some a -> reported !! ti = Some b ->
  let sizes :=
    <[ti := a + b - (a + b) * pct / 100]>
      (<[wi := (a + b) * pct / 100]> reported) in
  sizes !! wi = Some ((a + b) * pct / 100)
  /\ sizes !! ti = Some (a + b - (a + b) * pct / 100)
  /\ (forall j, j <> wi -> j <> ti -> sizes !! j = reported !! j)
  /\ length sizes = length reported.
Proof.
  intros Hne Ha Hb sizes. unfold sizes.
  pose proof (lookup_lt_Some _ _ _ Ha) as Hwi.
  pose proof (lookup_lt_Some _ _ _ Hb) as Hti.
  split; [| split; [| split]].
  - rewrite list_lookup_insert_ne by congruence.
    apply list_lookup_insert_eq. exact Hwi.
  - apply list_lookup_insert_eq. rewrite length_insert. exact Hti.
  - intros j H1 H2. rewrite !list_lookup_insert_ne by congruence.
    reflexivity.
  - rewrite !length_insert. reflexivity.
Qed.

(** A share given in percent lies between nothing and everything. *)
Lemma percent_share (total pct : Z) :
  0 <= total -> 0 <= pct <= 100 -> 0 <= total * pct / 100 <= total.
Proof.
  intros Ht Hp. split.
  - apply Z.div_pos; nia.
  - apply Z.div_le_upper_bound; nia.
Qed.

(** A view put in at or before the tabs moves the tabs one place on. *)
Lemma index_insert (l : list widget) (k t id : nat) :
  index tabs l = Some t -> (k <= t)%nat ->
  index tabs (take k l ++ webview id :: drop k l) = Some (S t)
  /\ (take k l ++ webview id :: drop k l) !! k = Some (webview id).
Proof.
  revert k t. induction l as [| x l IH]; intros k t Ht Hk; [discriminate |].
  destruct k as [| k].
  - cbn [take drop app]. split; [| reflexivity].
    change (index tabs (webview id :: x :: l))
      with (option_map S (index tabs (x :: l))).
    rewrite Ht. reflexivity.
  - cbn [index] in Ht. cbn [take drop app index].
    destruct (widget_eqb x tabs); [injection Ht as <-; lia |].
    destruct (index tabs l) as [t' |] eqn:E; [| discriminate].
    injection Ht as <-.
    destruct (IH k t' eq_refl ltac:(lia)) as [H1 H2].
    rewrite H1. auto.
Qed.

Lemma index_lt (w : widget) (l : list widget) (n : nat) :
  index w l = Some n -> (n < length l)%nat.
Proof.
  revert n. induction l as [| x l IH]; intros n H; [discriminate |].
  cbn [index] in H. destruct (widget_eqb x w).
  - injection H as <-. cbn. lia.
  - destruct (index w l) as [m |]; [| discriminate].
    injection H as <-. specialize (IH m eq_refl). cbn. lia.
Qed.

Lemma widget_eqb_eq (a b : widget) : widget_eqb a b = true <-> a = b.
Proof.
  destruct a as [| i], b as [| j]; cbn; split; intros H;
    try discriminate; try reflexivity.
  - apply Nat.eqb_eq in H. congruence.
  - injection H as ->. apply Nat.eqb_refl.
Qed.

(** A new view put at the end is found at the end, and the tabs stay. *)
Lemma index_append (l : list widget) (id : nat) :
  (forall n, webview n ∈ l -> n <> id) ->
  index (webview id) (l ++ [webview id]) = Some (length l)
  /\ (forall t, index tabs l = Some t ->
        index tabs (l ++ [webview id]) = Some t).
Proof.
  intros Hfresh. induction l as [| x l IH].
  - cbn. rewrite Nat.eqb_refl. split; [reflexivity | discriminate].
  - destruct IH as [IH1 IH2].
    { intros n Hn. apply Hfresh. right. exact Hn. }
    cbn [app index length]. split.
    + destruct (widget_eqb x (webview id)) eqn:E.
      * apply widget_eqb_eq in E. subst x.
        exfalso. apply (Hfresh id); [left | reflexivity].
      * rewrite IH1. reflexivity.
    + intros t Ht. destruct (widget_eqb x tabs); [exact Ht |].
      destruct (index tabs l) as [t' |]; [| discriminate].
      rewrite (IH2 t' eq_refl). exact Ht.
Qed.

(** The run of [add_webview_left] with the tabs at position [t]. *)
Lemma add_webview_left_run (url : string) (pct : Z) (reported : list Z)
    (self : Layout.t) (t : nat) :
  index tabs (splitter_horizontal self) = Some t ->
  add_webview_left url pct reported self
  = share_sizes (Z.of_nat (Nat.pred t)) (Z.of_nat (S t)) pct reported
      {| splitter_horizontal :=
           take (Nat.pred t) (splitter_horizontal self)
             ++ webview (created self)
             :: drop (Nat.pred t) (splitter_horizontal self);
         sizes_set := sizes_set self;
         _webview_left := Some (Some (created self, WebViewPane.new url));
         _webview_right := _webview_right self;
         zoom_connected := zoom_connected self ++ [created self];
         deleted := deleted self;
         created := S (created self) |}.
Proof.
  intros Ht. pose proof (index_lt _ _ _ Ht) as Hlt.
  unfold add_webview_left. cbv zeta.
  replace (indexOf tabs (splitter_horizontal self)) with (Z.of_nat t)
    by (unfold indexOf; rewrite Ht; reflexivity).
  assert (Hwi : (if 0 <? Z.of_nat t then Z.of_nat t - 1 else 0)
                = Z.of_nat (Nat.pred t)).
  { destruct (Z.ltb_spec 0 (Z.of_nat t)); lia. }
  rewrite Hwi.
  assert (Hins : insertWidget (Z.of_nat (Nat.pred t))
                   (webview (created self)) (splitter_horizontal self)
                 = take (Nat.pred t) (splitter_horizontal self)
                   ++ webview (created self)
                   :: drop (Nat.pred t) (splitter_horizontal self)).
  { unfold insertWidget.
    replace (0 <=? Z.of_nat (Nat.pred t)) with true
      by (symmetry; apply Z.leb_le; lia).
    replace (Z.of_nat (Nat.pred t)
             <=? Z.of_nat (length (splitter_horizontal self))) with true
      by (symmetry; apply Z.leb_le; lia).
    cbn [andb]. rewrite Nat2Z.id. reflexivity. }
  rewrite Hins. cbn [splitter_horizontal].
  unfold indexOf.
  destruct (index_insert (splitter_horizontal self) (Nat.pred t) t
              (created self) Ht ltac:(lia)) as [-> _].
  reflexivity.
Qed.

End SplitterSizes.

(** X15. [add_webview_left] puts the new view into the splitter at a
    position before the tabs and shares between the two what the splitter
    reports for them: the view gets [size_percent] percent of the sum,
    rounded down, the tabs get the rest, and every other size is kept.  For
    a percentage from 0 to 100 the view's share lies between 0 and the
    sum. *)
Theorem X15_add_webview_left_shares_sizes (url : string) (pct : Z)
    (reported : list Z) (self : Layout.t) (t : nat) :
  Layout.index Layout.tabs (Layout.splitter_horizontal self) = Some t ->
  length reported = S (length (Layout.splitter_horizontal self)) ->
  exists self' a b,
    Layout.add_webview_left url pct reported self = Layout.Done self'
    /\ Layout.splitter_horizontal self' !! Nat.pred t
       = Some (Layout.webview (Layout.created self))
    /\ Layout.index Layout.tabs (Layout.splitter_horizontal self')
       = Some (S t)
    /\ reported !! Nat.pred t = Some a /\ reported !! S t = Some b
    /\ Layout.sizes_set self' !! Nat.pred t = Some ((a + b) * pct / 100)
    /\ Layout.sizes_set self' !! S t
       = Some (a + b - (a + b) * pct / 100)
    /\ (forall j, j <> Nat.pred t -> j <> S t ->
          Layout.sizes_set self' !! j = reported !! j)
    /\ (0 <= a + b -> 0 <= pct <= 100 ->
        0 <= (a + b) * pct / 100 <= a + b).
Proof.
  intros Ht Hlen. pose proof (index_lt _ _ _ Ht) as Hlt.
  destruct (lookup_lt_is_Some_2 reported (Nat.pred t) ltac:(lia)) as [a Ha].
  destruct (lookup_lt_is_Some_2 reported (S t) ltac:(lia)) as [b Hb].
  rewrite (add_webview_left_run url pct reported self t Ht).
  rewrite (share_sizes_run (Nat.pred t) (S t) pct a b reported _
             ltac:(lia) Ha Hb).
  destruct (index_insert (Layout.splitter_horizontal self) (Nat.pred t) t
              (Layout.created self) Ht ltac:(lia)) as [Hidx Hview].
  destruct (shared_sizes (Nat.pred t) (S t) pct a b reported
              ltac:(lia) Ha Hb) as (H1 & H2 & H3 & _).
  eexists. exists a, b. split; [reflexivity |].
  cbn [Layout.splitter_horizontal Layout.sizes_set].
  repeat (split; [assumption |]).
  intros Hsum Hpct. apply percent_share; assumption.
Qed.

Lemma X15_add_webview_left_shares_sizes_witness :
  exists self' a b,
    Layout.add_webview_left "http://codewith.mu" 30 [0; 800]
      Layout.after_setup
    = Layout.Done self'
    /\ Layout.splitter_horizontal self' !! O = Some (Layout.webview O)
    /\ Layout.index Layout.tabs (Layout.splitter_horizontal self')
       = Some 1%nat
    /\ [0; 800] !! O = Some a /\ [0; 800] !! 1%nat = Some b
    /\ Layout.sizes_set self' !! O = Some ((a + b) * 30 / 100)
    /\ Layout.sizes_set self' !! 1%nat = Some (a + b - (a + b) * 30 / 100)
    /\ (forall j, j <> O -> j <> 1%nat ->
          Layout.sizes_set self' !! j = [0; 800] !! j)
    /\ (0 <= a + b -> 0 <= 30 <= 100 -> 0 <= (a + b) * 30 / 100 <= a + b).
Proof.
  apply (X15_add_webview_left_shares_sizes "http://codewith.mu" 30 [0; 800]
           Layout.after_setup O); reflexivity.
Defined.

Example add_webview_left_sizes :
  exists self',
    Layout.add_webview_left "http://codewith.mu" 30 [0; 800]
      Layout.after_setup
    = Layout.Done self'
    /\ Layout.sizes_set self' = [240; 560]
    /\ Layout.splitter_horizontal self' = [Layout.webview O; Layout.tabs].
Proof. eexists. repeat split. Qed.


Section RightView.

Import Layout.

Lemma share_sizes_right_run (ti wi : nat) (pct a b : Z) (reported : list Z)
    (self : Layout.t) :
  wi <> ti ->
  reported !! wi = Some a -> reported !! ti = Some b ->
  share_sizes_right (Z.of_nat ti) (Z.of_nat wi) pct reported self
  = Done {| splitter_horizontal := splitter_horizontal self;
            sizes_set :=
              <[ti := b + a - (b + a) * pct / 100]>
                (<[wi := (b + a) * pct / 100]> reported);
            _webview_left := _webview_left self;
            _webview_right := _webview_right self;
            zoom_connected := zoom_connected self;
            deleted := deleted self;
            created := created self |}.
Proof.
  intros Hne Ha Hb.
  pose proof (lookup_lt_Some _ _ _ Ha) as Hwi.
  pose proof (lookup_lt_Some _ _ _ Hb) as Hti.
  unfold share_sizes_right, getitem, setitem.
  rewrite !position_inside by assumption. rewrite Ha, Hb.
  rewrite !position_inside by (rewrite length_insert; assumption).
  rewrite list_lookup_insert_eq by assumption. reflexivity.
Qed.

Lemma fresh_next (self : Layout.t) :
  fresh self ->
  forall n, webview n ∈ splitter_horizontal self -> n <> created self.
Proof. intros H n Hn. specialize (H n Hn). lia. Qed.

End RightView.

(** X16. [add_webview_right] puts the new view at the end of the splitter
    and shares between it and the tabs what the splitter reports for the
    two: the view gets [size_percent] percent of the sum, rounded down, the
    tabs get the rest, and every other size is kept. *)
Theorem X16_add_webview_right_shares_sizes (url : string) (pct : Z)
    (reported : list Z) (self : Layout.t) (t : nat) :
  Layout.index Layout.tabs (Layout.splitter_horizontal self) = Some t ->
  Layout.fresh self ->
  length reported = S (length (Layout.splitter_horizontal self)) ->
  let last := length (Layout.splitter_horizontal self) in
  exists self' a b,
    Layout.add_webview_right url pct reported self = Layout.Done self'
    /\ Layout.splitter_horizontal self'
       = Layout.splitter_horizontal self
           ++ [Layout.webview (Layout.created self)]
    /\ reported !! last = Some a /\ reported !! t = Some b
    /\ Layout.sizes_set self' !! last = Some ((b + a) * pct / 100)
    /\ Layout.sizes_set self' !! t = Some (b + a - (b + a) * pct / 100)
    /\ (forall j, j <> last -> j <> t ->
          Layout.sizes_set self' !! j = reported !! j).
Proof.
  intros Ht Hfresh Hlen last.
  pose proof (index_lt _ _ _ Ht) as Hlt.
  destruct (lookup_lt_is_Some_2 reported last ltac:(unfold last; lia))
    as [a Ha].
  destruct (lookup_lt_is_Some_2 reported t ltac:(lia)) as [b Hb].
  destruct (index_append (Layout.splitter_horizontal self)
              (Layout.created self) (fresh_next self Hfresh))
    as [Hview Htabs].
  unfold Layout.add_webview_right. cbv zeta.
  cbn [Layout.splitter_horizontal Layout.created].
  unfold Layout.indexOf. rewrite Hview, (Htabs t Ht). fold last.
  rewrite (share_sizes_right_run t last pct a b reported _
             ltac:(unfold last; lia) Ha Hb).
  eexists. exists a, b. split; [reflexivity |].
  cbn [Layout.splitter_horizontal Layout.sizes_set].
  split; [reflexivity |]. split; [exact Ha |]. split; [exact Hb |].
  pose proof (lookup_lt_Some _ _ _ Ha) as Hl.
  split; [| split].
  - rewrite list_lookup_insert_ne by (unfold last; lia).
    apply list_lookup_insert_eq. exact Hl.
  - apply list_lookup_insert_eq. rewrite length_insert. lia.
  - intros j H1 H2. rewrite !list_lookup_insert_ne by congruence.
    reflexivity.
Qed.

Lemma X16_add_webview_right_shares_sizes_witness :
  exists self' a b,
    Layout.add_webview_right "http://codewith.mu" 50 [601; 200]
      Layout.after_setup
    = Layout.Done self'
    /\ Layout.splitter_horizontal self'
       = Layout.splitter_horizontal Layout.after_setup
           ++ [Layout.webview (Layout.created Layout.after_setup)]
    /\ [601; 200] !! 1%nat = Some a /\ [601; 200] !! O = Some b
    /\ Layout.sizes_set self' !! 1%nat = Some ((b + a) * 50 / 100)
    /\ Layout.sizes_set self' !! O = Some (b + a - (b + a) * 50 / 100)
    /\ (forall j, j <> 1%nat -> j <> O ->
          Layout.sizes_set self' !! j = [601; 200] !! j).
Proof.
  apply (X16_add_webview_right_shares_sizes "http://codewith.mu" 50
           [601; 200] Layout.after_setup O).
  - reflexivity.
  - intros id Hid. apply list_elem_of_In in Hid. cbn in Hid.
    destruct Hid as [Hid | []]. discriminate.
  - reflexivity.
Defined.

Section ViewRoundTrip.

Import Layout.

Lemma unparent_absent (id : nat) (l : list widget) :
  (forall n, webview n ∈ l -> n <> id) -> unparent id l = l.
Proof.
  intros H. unfold unparent. induction l as [| x l IH]; [reflexivity |].
  cbn [List.filter].
  destruct (widget_eqb x (webview id)) eqn:E.
  - apply widget_eqb_eq in E. subst x.
    exfalso. apply (H id); [left | reflexivity].
  - cbn [negb]. rewrite IH; [reflexivity |].
    intros n Hn. apply H. right. exact Hn.
Qed.

Lemma unparent_gone (id : nat) (l : list widget) :
  webview id ∉ unparent id l.
Proof.
  unfold unparent. intros H. apply list_elem_of_In in H.
  apply filter_In in H as [_ H].
  rewrite (proj2 (widget_eqb_eq _ _) eq_refl) in H. discriminate.
Qed.

Lemma unparent_inserted (id k : nat) (l : list widget) :
  (forall n, webview n ∈ l -> n <> id) ->
  unparent id (take k l ++ webview id :: drop k l) = l.
Proof.
  intros H. unfold unparent. rewrite List.filter_app. cbn [List.filter].
  rewrite (proj2 (widget_eqb_eq _ _) eq_refl). cbn [negb].
  rewrite <- List.filter_app, take_drop. apply unparent_absent. exact H.
Qed.

End ViewRoundTrip.

(** X17. [remove_webview_left] raises [AttributeError] and changes nothing
    when no left view is displayed, be it that none was ever added or that
    it was removed before.  When one is displayed, it is taken out of the
    splitter, [webview_left] then returns [None], and a second removal
    raises. *)
Theorem X17_remove_webview_left (self : Layout.t) (calls : nat) :
  (Described.displayed (Window._webview_left (Layout.views self)) = None ->
   exists msg,
     Layout.remove_webview_left self
     = Layout.Failed self (Layout.AttributeError msg))
  /\ (forall id pane,
        Layout._webview_left self = Some (Some (id, pane)) ->
        exists self' msg,
          Layout.remove_webview_left self = Layout.Done self'
          /\ (Layout.webview id ∉ Layout.splitter_horizontal self')
          /\ Window.webview_left (Layout.views self') calls
             = Py.Returned (S calls) None
          /\ Layout.remove_webview_left self'
             = Layout.Failed self' (Layout.AttributeError msg)).
Proof.
  split.
  - unfold Layout.remove_webview_left, Layout.views, Layout.pane_of.
    cbn [Window._webview_left].
    destruct (Layout._webview_left self) as [[[id pane] |] |]; cbn;
      intros H; try discriminate; eexists; reflexivity.
  - intros id pane H. unfold Layout.remove_webview_left at 1. rewrite H.
    eexists. eexists. split; [reflexivity |]. split; [| split].
    + cbn [Layout.splitter_horizontal]. apply unparent_gone.
    + rewrite webview_left_displayed. reflexivity.
    + reflexivity.
Qed.

Lemma X17_remove_webview_left_witness :
  exists msg,
    Layout.remove_webview_left Layout.after_setup
    = Layout.Failed Layout.after_setup (Layout.AttributeError msg).
Proof.
  destruct (X17_remove_webview_left Layout.after_setup O) as [H _].
  apply H. reflexivity.
Defined.

(** X18. After [add_webview_left], [webview_left] returns the new view,
    which shows the requested page unscaled; removing it again gives the
    splitter the widgets it had before. *)
Theorem X18_add_then_remove_webview_left (url : string) (pct : Z)
    (reported : list Z) (self : Layout.t) (t calls : nat) :
  Layout.index Layout.tabs (Layout.splitter_horizontal self) = Some t ->
  Layout.fresh self ->
  length reported = S (length (Layout.splitter_horizontal self)) ->
  exists self1 self2,
    Layout.add_webview_left url pct reported self = Layout.Done self1
    /\ Window.webview_left (Layout.views self1) calls
       = Py.Returned (S calls) (Some (WebViewPane.new url))
    /\ Layout.remove_webview_left self1 = Layout.Done self2
    /\ Layout.splitter_horizontal self2 = Layout.splitter_horizontal self.
Proof.
  intros Ht Hfresh Hlen. pose proof (index_lt _ _ _ Ht) as Hlt.
  destruct (lookup_lt_is_Some_2 reported (Nat.pred t) ltac:(lia)) as [a Ha].
  destruct (lookup_lt_is_Some_2 reported (S t) ltac:(lia)) as [b Hb].
  rewrite (add_webview_left_run url pct reported self t Ht).
  rewrite (share_sizes_run (Nat.pred t) (S t) pct a b reported _
             ltac:(lia) Ha Hb).
  eexists. eexists. split; [reflexivity |]. split; [| split].
  - rewrite webview_left_displayed. reflexivity.
  - reflexivity.
  - cbn [Layout.splitter_horizontal].
    apply unparent_inserted. apply fresh_next. exact Hfresh.
Qed.

Lemma X18_add_then_remove_webview_left_witness :
  exists self1 self2,
    Layout.add_webview_left "http://codewith.mu" 30 [0; 800]
      Layout.after_setup
    = Layout.Done self1
    /\ Window.webview_left (Layout.views self1) O
       = Py.Returned 1%nat (Some (WebViewPane.new "http://codewith.mu"))
    /\ Layout.remove_webview_left self1 = Layout.Done self2
    /\ Layout.splitter_horizontal self2
       = Layout.splitter_horizontal Layout.after_setup.
Proof.
  apply (X18_add_then_remove_webview_left "http://codewith.mu" 30 [0; 800]
           Layout.after_setup O O).
  - reflexivity.
  - intros id Hid. apply list_elem_of_In in Hid. cbn in Hid.
    destruct Hid as [Hid | []]. discriminate.
  - reflexivity.
Defined.

(* ===================================================================== *)
(** * Properties of the editor tabs                                       *)
(* ===================================================================== *)

Section EditorTabs.

Import Tabs.

Lemma first_modified_iff (ws : list EditorPane.t) :
  first_modified ws = true
  <-> exists w, w ∈ ws /\ EditorPane.isModified w = true.
Proof.
  induction ws as [| w ws IH]; cbn [first_modified].
  - split; [discriminate |]. intros (w & Hw & _). inversion Hw.
  - destruct (EditorPane.isModified w) eqn:E.
    + split; [| reflexivity]. intros _. exists w. split; [left | exact E].
    + rewrite IH. split.
      * intros (w' & Hw' & Hm). exists w'. split; [right |]; assumption.
      * intros (w' & Hw' & Hm). inversion Hw'; subst; [congruence |].
        exists w'. split; assumption.
Qed.







End EditorTabs.

(** X19. The [modified] property of the window is true exactly when some
    tab holds a modified editor. *)
Theorem X19_modified_iff_some_tab (self : Tabs.t) :
  Tabs.modified self = true
  <-> exists tb,
        tb ∈ Tabs.pages self
        /\ EditorPane.isModified (Tabs.pane tb) = true.
Proof.
  unfold Tabs.modified, Tabs.widgets. rewrite first_modified_iff. split.
  - intros (w & Hw & Hm). apply list_elem_of_fmap in Hw as (tb & -> & Htb).
    exists tb. split; assumption.
  - intros (tb & Htb & Hm). exists (Tabs.pane tb). split; [| exact Hm].
    apply list_elem_of_fmap. exists tb. split; [reflexivity | exact Htb].
Qed.



(* ===================================================================== *)
(** * Properties of the tabs over time, and of the themes                 *)
(* ===================================================================== *)

Section TabEvents.

Import Tabs.






(** The label tells the two modification states apart. *)
Lemma label_setModified_ne (m : bool) (w : EditorPane.t) :
  EditorPane.isModified w <> m ->
  EditorPane.label (EditorPane.setModified m w) <> EditorPane.label w.
Proof.
  unfold EditorPane.label, EditorPane.isModified.
  cbn [EditorPane.path EditorPane.setModified EditorPane.modified].
  set (name := if EditorPane.truthy (EditorPane.path w)
               then EditorPane.basename (default "" (EditorPane.path w))
               else "untitled").
  intros Hm Heq. apply (f_equal String.length) in Heq.
  destruct (EditorPane.modified w), m; try congruence;
    rewrite length_append in Heq; cbn [String.length] in Heq; lia.
Qed.

(** [set_theme] in one piece, when the bar has the theme action. *)
Lemma set_theme_eq (new : string) (self : Tabs.t) :
  is_Some (ButtonBar.slots (button_bar self) !! "theme") ->
  set_theme new self
  = Done
      {| theme := new;
         styleSheet :=
           Some (if String.eqb new "night" then Qt.NIGHT_STYLE
                 else Qt.DAY_STYLE);
         pages :=
           map (set_theme_of (if String.eqb new "night" then NightTheme
                              else DayTheme)) (pages self);
         currentIndex := currentIndex self;
         button_bar :=
           ButtonBar.set_slots
             (alter (setIcon (if String.eqb new "night" then "theme_day"
                              else "theme"))
                "theme" (ButtonBar.slots (button_bar self)))
             (button_bar self);
         repl :=
           match repl self with
           | Some (Some console) =>
               Some (Some (REPLPane.set_theme new console))
           | other => other
           end;
         zoom_connected := zoom_connected self |}.
Proof.
  intros [a Ha]. unfold set_theme.
  destruct (String.eqb new "night"); cbv zeta;
    cbn [button_bar set_pages setStyleSheet set_theme_attribute];
    rewrite Ha;
    cbn [repl set_button_bar set_pages setStyleSheet set_theme_attribute];
    destruct (repl self) as [[console |] |] eqn:Hrepl;
    unfold set_repl, set_button_bar, set_pages, setStyleSheet,
      set_theme_attribute;
    cbn [theme styleSheet pages currentIndex zoom_connected repl button_bar];
    rewrite ?Hrepl; reflexivity.
Qed.

Lemma repl_set_theme_twice (a b : string) (console : REPLPane.t) :
  REPLPane.set_theme b (REPLPane.set_theme a console)
  = REPLPane.set_theme b console.
Proof.
  unfold REPLPane.set_theme.
  destruct (String.eqb a "day"), (String.eqb b "day"); reflexivity.
Qed.

Lemma getitem_outside {A : Type} (l : list A) (i : Z) :
  i < - Z.of_nat (length l) \/ Z.of_nat (length l) <= i ->
  getitem l i = None.
Proof.
  intros H. unfold getitem.
  destruct (Z.leb_spec 0 i), (Z.ltb_spec i (Z.of_nat (length l)));
    cbn [andb]; try lia;
    destruct (Z.leb_spec (- Z.of_nat (length l)) i), (Z.ltb_spec i 0);
    cbn [andb]; try lia; reflexivity.
Qed.

Lemma getitem_inside {A : Type} (l : list A) (i : Z) :
  - Z.of_nat (length l) <= i < Z.of_nat (length l) ->
  getitem l i = l !! Z.to_nat (i mod Z.of_nat (length l))
  /\ is_Some (l !! Z.to_nat (i mod Z.of_nat (length l))).
Proof.
  intros H. unfold getitem.
  assert (Hmod : 0 <= i mod Z.of_nat (length l) < Z.of_nat (length l))
    by (apply Z.mod_pos_bound; lia).
  split; [| apply lookup_lt_is_Some_2; lia].
  destruct (Z.leb_spec 0 i), (Z.ltb_spec i (Z.of_nat (length l)));
    cbn [andb]; try lia.
  - rewrite Z.mod_small by lia. reflexivity.
  - destruct (Z.leb_spec (- Z.of_nat (length l)) i), (Z.ltb_spec i 0);
      cbn [andb]; try lia.
    replace (i mod Z.of_nat (length l)) with (Z.of_nat (length l) + i);
      [reflexivity |].
    apply Z.mod_unique with (q := -1); lia.
Qed.

End TabEvents.



(** X22. The handler of a tab keeps the index the tab had when it was
    added.  After a tab before it is closed, a change of the modification
    state of its editor leaves its own text as it was, so that it no
    longer shows the label when the state differs, and puts the label on
    the tab behind it, if there is one. *)
Theorem X22_edit_after_close_marks_next_tab (l : list Tabs.tab)
    (i j : nat) (tb : Tabs.tab) (m : bool) :
  Tabs.consistent l ->
  (j < i)%nat ->
  l !! i = Some tb ->
  exists tb',
    Tabs.modificationChanged (i - 1) m (Tabs.removeTab j l) !! (i - 1)%nat
    = Some tb'
    /\ Tabs.pane tb' = EditorPane.setModified m (Tabs.pane tb)
    /\ Tabs.tab_text tb' = Tabs.tab_text tb
    /\ (EditorPane.isModified (Tabs.pane tb) <> m ->
        Tabs.tab_text tb' <> EditorPane.label (Tabs.pane tb'))
    /\ (forall next,
          l !! S i = Some next ->
          Tabs.modificationChanged (i - 1) m (Tabs.removeTab j l) !! i
          = Some (Tabs.set_tab_text
                    (EditorPane.label
                       (EditorPane.setModified m (Tabs.pane tb)))
                    next)).
Proof.
  intros Hcons Hji Hi. destruct (Hcons i tb Hi) as [Hslot Htext].
  assert (Hdel : Tabs.removeTab j l !! (i - 1)%nat = Some tb).
  { unfold Tabs.removeTab. rewrite list_lookup_delete_ge by lia.
    replace (S (i - 1)) with i by lia. exact Hi. }
  unfold Tabs.modificationChanged. rewrite Hdel.
  cbn [Tabs.slot_index Tabs.set_pane Tabs.pane]. rewrite Hslot.
  unfold Tabs.setTabText.
  eexists. split.
  { rewrite list_lookup_alter_ne by lia.
    apply list_lookup_insert_eq. eapply lookup_lt_Some. exact Hdel. }
  cbn [Tabs.pane Tabs.tab_text Tabs.set_pane].
  split; [reflexivity |]. split; [reflexivity |]. split.
  - intros Hm. rewrite Htext. intros Heq.
    apply (label_setModified_ne m (Tabs.pane tb) Hm). symmetry. exact Heq.
  - intros next Hnext. rewrite list_lookup_alter_eq.
    rewrite list_lookup_insert_ne by lia.
    unfold Tabs.removeTab. rewrite list_lookup_delete_ge by lia.
    rewrite Hnext. reflexivity.
Qed.

Lemma X22_edit_after_close_marks_next_tab_witness :
  exists tb',
    Tabs.modificationChanged 0 true
      (Tabs.removeTab 0
         [ {| Tabs.pane := EditorPane.new (Some "a.py") "";
                    Tabs.lexer_theme := Tabs.DayTheme;
                    Tabs.tab_text := "a.py"; Tabs.slot_index := 0 |};
                 {| Tabs.pane := EditorPane.new (Some "b.py") "";
                    Tabs.lexer_theme := Tabs.DayTheme;
                    Tabs.tab_text := "b.py"; Tabs.slot_index := 1 |};
                 {| Tabs.pane := EditorPane.new (Some "c.py") "";
                    Tabs.lexer_theme := Tabs.DayTheme;
                    Tabs.tab_text := "c.py"; Tabs.slot_index := 2 |} ])
      !! O
    = Some tb'
    /\ Tabs.tab_text tb' = "b.py"
    /\ EditorPane.label (Tabs.pane tb') = "b.py *".
Proof.
  destruct (X22_edit_after_close_marks_next_tab
              [ {| Tabs.pane := EditorPane.new (Some "a.py") "";
                         Tabs.lexer_theme := Tabs.DayTheme;
                         Tabs.tab_text := "a.py"; Tabs.slot_index := 0 |};
                      {| Tabs.pane := EditorPane.new (Some "b.py") "";
                         Tabs.lexer_theme := Tabs.DayTheme;
                         Tabs.tab_text := "b.py"; Tabs.slot_index := 1 |};
                      {| Tabs.pane := EditorPane.new (Some "c.py") "";
                         Tabs.lexer_theme := Tabs.DayTheme;
                         Tabs.tab_text := "c.py"; Tabs.slot_index := 2 |} ]
              1 0
              {| Tabs.pane := EditorPane.new (Some "b.py") "";
                 Tabs.lexer_theme := Tabs.DayTheme;
                 Tabs.tab_text := "b.py"; Tabs.slot_index := 1 |}
              true)
    as (tb' & Hlook & Hpane & Htext & _).
  - intros i tb Hi.
    destruct i as [| [| [| i]]]; try discriminate;
      injection Hi as <-; split; reflexivity.
  - lia.
  - reflexivity.
  - exists tb'. split; [| split].
    + exact Hlook.
    + rewrite Htext. reflexivity.
    + rewrite Hpane. reflexivity.
Defined.

(** X23. [check_button_state] takes the index as a Python list does: with
    [n] tabs it raises [IndexError], changing nothing, for an index below
    [-n] or from [n] on, so for every index when there is no tab; for an
    index from [-n] to [n - 1] it hands the tab at the index modulo [n] to
    [set_button_state], so the last tab for [-1]. *)
Theorem X23_check_button_state_index (index : Z) (self : Tabs.t) :
  (index < - Z.of_nat (Tabs.tab_count self)
   \/ Z.of_nat (Tabs.tab_count self) <= index ->
   Tabs.check_button_state index self = Tabs.Failed self Tabs.IndexError)
  /\ (- Z.of_nat (Tabs.tab_count self) <= index
        < Z.of_nat (Tabs.tab_count self) ->
      exists widget,
        Tabs.widgets self
          !! Z.to_nat (index mod Z.of_nat (Tabs.tab_count self))
        = Some widget
        /\ Tabs.check_button_state index self
           = match
               ButtonBar.set_button_state widget (Tabs.button_bar self)
             with
             | ButtonBar.Done bar => Tabs.Done (Tabs.set_button_bar bar self)
             | ButtonBar.KeyError bar key =>
                 Tabs.Failed (Tabs.set_button_bar bar self)
                   (Tabs.KeyError key)
             end).
Proof.
  assert (Hlen : length (Tabs.widgets self) = Tabs.tab_count self)
    by apply length_map.
  unfold Tabs.check_button_state. rewrite <- Hlen. split.
  - intros H. rewrite (getitem_outside _ _ H). reflexivity.
  - intros H. destruct (getitem_inside _ _ H) as [Hget [widget Hw]].
    exists widget. split; [exact Hw |]. rewrite Hget, Hw. reflexivity.
Qed.

Lemma X23_check_button_state_index_witness :
  Tabs.check_button_state (-1) (Tabs.after_setup "day")
  = Tabs.Failed (Tabs.after_setup "day") Tabs.IndexError.
Proof.
  destruct (X23_check_button_state_index (-1) (Tabs.after_setup "day"))
    as [H _].
  apply H. cbn. lia.
Defined.

(** X24. On a bar with the theme action, [set_theme] ends normally
    whether the window has no [repl] attribute, has [None] there or has a
    console.  The window and every tab get the night style exactly for the
    theme [night]; a console gets the day style exactly for the theme
    [day]: window and console agree exactly when the theme is [day] or
    [night]. *)
Theorem X24_set_theme_window_and_console (new : string) (self : Tabs.t) :
  is_Some (ButtonBar.slots (Tabs.button_bar self) !! "theme") ->
  exists self',
    Tabs.set_theme new self = Tabs.Done self'
    /\ Tabs.theme self' = new
    /\ Tabs.styleSheet self'
       = Some (if String.eqb new "night" then Qt.NIGHT_STYLE
               else Qt.DAY_STYLE)
    /\ (forall tb,
          tb ∈ Tabs.pages self' ->
          Tabs.lexer_theme tb
          = if String.eqb new "night" then Tabs.NightTheme
            else Tabs.DayTheme)
    /\ (forall console,
          Tabs.repl self = Some (Some console) ->
          exists console',
            Tabs.repl self' = Some (Some console')
            /\ REPLPane.styleSheet console'
               = Some (if String.eqb new "day" then Qt.DAY_STYLE
                       else Qt.NIGHT_STYLE)
            /\ (Tabs.styleSheet self' = REPLPane.styleSheet console'
                <-> new = "day" \/ new = "night"))
    /\ (Tabs.repl self = None \/ Tabs.repl self = Some None ->
        Tabs.repl self' = Tabs.repl self).
Proof.
  intros Hbar. rewrite (set_theme_eq new self Hbar). eexists.
  split; [reflexivity |].
  cbn [Tabs.theme Tabs.styleSheet Tabs.pages Tabs.repl].
  split; [reflexivity |]. split; [reflexivity |]. split; [| split].
  - intros tb Htb. apply list_elem_of_fmap in Htb as (tb0 & -> & _).
    reflexivity.
  - intros console ->. eexists. split; [reflexivity |].
    unfold REPLPane.set_theme.
    destruct (String.eqb_spec new "day") as [-> | Hday].
    + cbn. split; [reflexivity |]. split; auto.
    + cbn [REPLPane.styleSheet REPLPane.setStyleSheet].
      split; [reflexivity |].
      destruct (String.eqb_spec new "night") as [-> | Hnight].
      * split; auto.
      * split; [discriminate | intros [? | ?]; contradiction].
  - intros [-> | ->]; reflexivity.
Qed.

Lemma X24_set_theme_window_and_console_witness :
  exists self',
    Tabs.set_theme "contrast" (Tabs.after_setup "day") = Tabs.Done self'
    /\ Tabs.styleSheet self' = Some Qt.DAY_STYLE.
Proof.
  destruct (X24_set_theme_window_and_console "contrast"
              (Tabs.after_setup "day"))
    as (self' & Hrun & _ & Hsheet & _).
  - eexists. reflexivity.
  - exists self'. split; [exact Hrun | exact Hsheet].
Defined.

(** X25. The last theme wins: on a bar with the theme action, setting a
    theme and then another leaves the window as setting the second one
    alone does. *)
Theorem X25_last_theme_wins (first second : string) (self : Tabs.t) :
  is_Some (ButtonBar.slots (Tabs.button_bar self) !! "theme") ->
  exists self1,
    Tabs.set_theme first self = Tabs.Done self1
    /\ Tabs.set_theme second self1 = Tabs.set_theme second self.
Proof.
  intros Hbar. rewrite (set_theme_eq first self Hbar). eexists.
  split; [reflexivity |].
  rewrite (set_theme_eq second self Hbar). rewrite set_theme_eq.
  - cbn [Tabs.theme Tabs.styleSheet Tabs.pages Tabs.repl Tabs.currentIndex
         Tabs.zoom_connected Tabs.button_bar ButtonBar.slots
         ButtonBar.set_slots].
    f_equal. f_equal.
    + rewrite map_map. reflexivity.
    + unfold ButtonBar.set_slots.
      cbn [ButtonBar.slots ButtonBar.items ButtonBar.shortcuts
           ButtonBar.movable ButtonBar.iconSize ButtonBar.toolButtonStyle
           ButtonBar.objectName].
      f_equal. rewrite alter_alter_eq. apply alter_ext. reflexivity.
    + destruct (Tabs.repl self) as [[console |] |]; [| reflexivity ..].
      rewrite repl_set_theme_twice. reflexivity.
  - cbn [Tabs.button_bar ButtonBar.slots ButtonBar.set_slots].
    destruct Hbar as [a Ha]. rewrite lookup_alter_eq, Ha. eexists.
    reflexivity.
Qed.

Lemma X25_last_theme_wins_witness :
  exists self1,
    Tabs.set_theme "night" (Tabs.after_setup "day") = Tabs.Done self1
    /\ Tabs.set_theme "day" self1
       = Tabs.set_theme "day" (Tabs.after_setup "day").
Proof.
  apply (X25_last_theme_wins "night" "day" (Tabs.after_setup "day")).
  eexists. reflexivity.
Defined.

(** X26. On a bar without the theme action, [set_theme] raises [KeyError]
    for [theme] after it has recorded the theme and restyled the window
    and the tabs; the console is not reached. *)
Theorem X26_set_theme_without_theme_action (new : string) (self : Tabs.t) :
  ButtonBar.slots (Tabs.button_bar self) !! "theme" = None ->
  exists self',
    Tabs.set_theme new self = Tabs.Failed self' (Tabs.KeyError "theme")
    /\ Tabs.theme self' = new
    /\ Tabs.styleSheet self'
       = Some (if String.eqb new "night" then Qt.NIGHT_STYLE
               else Qt.DAY_STYLE)
    /\ Tabs.pages self'
       = map (Tabs.set_theme_of
                (if String.eqb new "night" then Tabs.NightTheme
                 else Tabs.DayTheme))
           (Tabs.pages self)
    /\ Tabs.repl self' = Tabs.repl self
    /\ Tabs.button_bar self' = Tabs.button_bar self.
Proof.
  intros Hnone. unfold Tabs.set_theme.
  destruct (String.eqb new "night"); cbv zeta;
    cbn [Tabs.button_bar Tabs.set_pages Tabs.setStyleSheet
         Tabs.set_theme_attribute];
    rewrite Hnone; eexists; (split; [reflexivity |]);
    repeat split; reflexivity.
Qed.

Lemma X26_set_theme_without_theme_action_witness :
  exists self',
    Tabs.set_theme "night"
      (Tabs.set_button_bar ButtonBar.QToolBar_new (Tabs.after_setup "day"))
    = Tabs.Failed self' (Tabs.KeyError "theme")
    /\ Tabs.theme self' = "night".
Proof.
  destruct (X26_set_theme_without_theme_action "night"
              (Tabs.set_button_bar ButtonBar.QToolBar_new
                 (Tabs.after_setup "day")))
    as (self' & Hrun & Hth & _).
  - reflexivity.
  - exists self'. split; [exact Hrun | exact Hth].
Defined.

(** X27. [remove_repl] raises [AttributeError] and changes nothing when
    the window has no console, be it that none was ever added or that it
    was removed before.  When there is one, the attribute becomes [None],
    the tabs stay, a second removal raises, and [set_theme] afterwards
    still ends normally on a bar with the theme action. *)
Theorem X27_remove_repl (new : string) (self : Tabs.t) :
  (Tabs.repl self = None \/ Tabs.repl self = Some None ->
   exists msg,
     Tabs.remove_repl self = Tabs.Failed self (Tabs.AttributeError msg))
  /\ (forall console,
        Tabs.repl self = Some (Some console) ->
        exists self' msg,
          Tabs.remove_repl self = Tabs.Done self'
          /\ Tabs.repl self' = Some None
          /\ Tabs.pages self' = Tabs.pages self
          /\ Tabs.remove_repl self'
             = Tabs.Failed self' (Tabs.AttributeError msg)
          /\ (is_Some (ButtonBar.slots (Tabs.button_bar self) !! "theme") ->
              exists self'',
                Tabs.set_theme new self' = Tabs.Done self''
                /\ Tabs.repl self'' = Some None)).
Proof.
  split.
  - unfold Tabs.remove_repl. intros [-> | ->]; eexists; reflexivity.
  - intros console Hc. unfold Tabs.remove_repl at 1. rewrite Hc.
    eexists. eexists. split; [reflexivity |].
    split; [reflexivity |]. split; [reflexivity |].
    split; [reflexivity |].
    intros Hbar. rewrite set_theme_eq by exact Hbar.
    eexists. split; reflexivity.
Qed.

(* ===================================================================== *)
(** * Further properties of the console and of the message boxes          *)
(* ===================================================================== *)

(** X28. After [clear], a stream without backspaces leaves exactly its
    characters in the console, carriage returns left out, with the cursor
    behind them. *)
Theorem X28_clear_then_process_bytes (bs : Py.bytes) (self : REPLPane.t) :
  Stream.backspaces bs = O ->
  REPLPane.document (REPLPane.process_bytes bs (REPLPane.clear self))
  = Stream.characters bs
  /\ REPLPane.cursor (REPLPane.process_bytes bs (REPLPane.clear self))
     = length (Stream.characters bs).
Proof.
  intros Hbs.
  assert (Hend : REPLPane.cursor (REPLPane.clear self)
                 = length (REPLPane.document (REPLPane.clear self)))
    by reflexivity.
  rewrite process_bytes_fold.
  cbn [REPLPane.ensureCursorVisible REPLPane.document REPLPane.cursor].
  rewrite (start_at_end (REPLPane.clear self) Hend).
  destruct (fold_branch_at_end bs (REPLPane.clear self)
              (REPLPane.textCursor (REPLPane.clear self)))
    as [Hdoc Hcur]; [reflexivity | reflexivity | reflexivity | exact Hbs |].
  rewrite Hcur, Hdoc. split; reflexivity.
Qed.

Lemma X28_clear_then_process_bytes_witness :
  REPLPane.document
    (REPLPane.process_bytes [x3e; x3e; x3e; x20]
       (REPLPane.clear Sample.two_lines))
  = [62; 62; 62; 32]%N.
Proof.
  destruct (X28_clear_then_process_bytes [x3e; x3e; x3e; x20]
              Sample.two_lines) as [Hdoc _].
  - reflexivity.
  - exact Hdoc.
Defined.

(** X29. [show_message] raises exactly when the icon argument names an
    attribute of the message box that is not one of its icons, and so does
    [show_confirmation]; what is raised is the [TypeError] of [setIcon],
    before the box is shown.  Otherwise [show_message] shows the box once,
    with the message, the title [Mu] and the single [Ok] button the box is
    created with, and with the informative text exactly when it is given
    and not empty; [show_confirmation] with the same arguments shows a box
    with the same text, title, informative text and icon. *)
Theorem X29_show_message_box (members : gset string) (message : string)
    (information icon : option string) (choice : Z) :
  (Described.names_no_icon members icon = true ->
   exists box box',
     Window.show_message members message information icon choice
     = Py.Raised box Py.TypeError
     /\ Window.show_confirmation members message information icon choice
        = Py.Raised box' Py.TypeError
     /\ Window.shown box = O
     /\ Window.shown box' = O)
  /\ (Described.names_no_icon members icon = false ->
      exists box box',
        Window.show_message members message information icon choice
        = Py.Returned box tt
        /\ Window.show_confirmation members message information icon choice
           = Py.Returned box' choice
        /\ Window.text box = message
        /\ Window.windowTitle box = "Mu"
        /\ Window.informativeText box
           = (if Window.truthy information then information else None)
        /\ Window.standardButtons box = Window.Ok
        /\ Window.defaultButton box = None
        /\ Window.shown box = 1%nat
        /\ Window.text box' = Window.text box
        /\ Window.windowTitle box' = Window.windowTitle box
        /\ Window.informativeText box' = Window.informativeText box
        /\ Window.icon box' = Window.icon box).
Proof.
  unfold Described.names_no_icon, Window.show_message,
    Window.show_confirmation, Py.bind, Py.call, Py.ret, Window.getattr,
    Window.hasattr, Window.setIcon, Py.raise.
  split; intros H;
    destruct information as [[| c info] |]; cbn [Window.truthy default];
    destruct (Window.truthy icon); cbn [andb] in *;
    destruct (Window.box_attribute members (default "" icon))
      as [[i | name] |];
    try discriminate H;
    eexists; eexists; (split; [reflexivity |]); (split; [reflexivity |]);
    cbn; repeat split; reflexivity.
Qed.
